(** * EDGAR balance-sheet scraper: segmenter, reclassifier and master merger

    A shallow embedding of [EDGARSCRAPER_balancesheet.py] (steps 3 to 5 of
    the script) together with the properties the specification states
    about it.

    Modelling conventions.
    - A Python [str] is a [string] of 8-bit characters; character classes
      ([str.isspace], [str.isupper], [str.lower], the regex classes [\d]
      and [\w]) are the ASCII ones, characters above 127 belong to no class.
    - A Python [int] is a [Z] or a [nat] (indices and counts).
    - A [dict] whose iteration order is observed ([date_values]) is an
      association list in insertion order; a [dict] that is only looked up
      ([master_data]) is a [gmap].
    - An exception that escapes a function is the [Raise] result of the
      [exc] monad; a [try]/[except] of the source is a [match] on it.
    - [dateutil.parser.parse] is a third-party function: it is the method
      of the class [Dateutil]. [datetime.strptime] and [strftime] with the
      format [%Y-%m-%d] are modelled after CPython's [_strptime] and the
      documented output of [strftime]. *)

From Stdlib Require Import ZArith Ascii String List Bool Lia Permutation Sorted.
From Stdlib Require Import DecimalString.
From stdpp Require Import base tactics option list strings gmap.

Local Open Scope Z_scope.

(** ** Python strings *)

Definition in_range (lo hi c : ascii) : bool :=
  ((N_of_ascii lo <=? N_of_ascii c) && (N_of_ascii c <=? N_of_ascii hi))%N.

Definition is_digit (c : ascii) : bool := in_range "0" "9" c.
Definition is_upper (c : ascii) : bool := in_range "A" "Z" c.
Definition is_lower (c : ascii) : bool := in_range "a" "z" c.
Definition is_alpha (c : ascii) : bool := is_upper c || is_lower c.

(** The regex class [\w]. *)
Definition is_word (c : ascii) : bool :=
  is_alpha c || is_digit c || Ascii.eqb c "_".

(** [str.isspace] on one character: TAB, LF, VT, FF, CR, the four
    separators FS, GS, RS, US, and the space. *)
Definition is_space (c : ascii) : bool :=
  in_range "009" "013" c || in_range "028" "031" c || Ascii.eqb c " ".

Definition to_lower (c : ascii) : ascii :=
  if is_upper c then ascii_of_N (N_of_ascii c + 32) else c.

(** [s.lower()] *)
Fixpoint lower (s : string) : string :=
  match s with
  | EmptyString => EmptyString
  | String c s' => String (to_lower c) (lower s')
  end.

(** [s.lstrip()] *)
Fixpoint lstrip (s : string) : string :=
  match s with
  | EmptyString => EmptyString
  | String c s' => if is_space c then lstrip s' else s
  end.

(** [s.rstrip(chars)] for the set of characters recognised by [p]. *)
Fixpoint rstrip_by (p : ascii -> bool) (s : string) : string :=
  match s with
  | EmptyString => EmptyString
  | String c s' =>
      match rstrip_by p s' with
      | EmptyString => if p c then EmptyString else String c EmptyString
      | r => String c r
      end
  end.

(** [s.strip()] *)
Definition strip (s : string) : string := rstrip_by is_space (lstrip s).

(** [s.rstrip(":")] *)
Definition rstrip_colon (s : string) : string :=
  rstrip_by (Ascii.eqb ":") s.

(** [s.startswith(p)] *)
Definition startswith (p s : string) : bool := String.prefix p s.

(** [s.endswith(p)] *)
Fixpoint endswith (p s : string) : bool :=
  String.eqb s p ||
  match s with
  | EmptyString => false
  | String _ s' => endswith p s'
  end.

(** [sub in s] *)
Fixpoint contains (sub s : string) : bool :=
  String.prefix sub s ||
  match s with
  | EmptyString => false
  | String _ s' => contains sub s'
  end.

(** Characters of [s] that satisfy [p], in order. *)
Fixpoint sfilter (p : ascii -> bool) (s : string) : string :=
  match s with
  | EmptyString => EmptyString
  | String c s' => if p c then String c (sfilter p s') else sfilter p s'
  end.

(** [str(n)] for a non-negative [int]. *)
Definition str_nat (n : nat) : string :=
  NilZero.string_of_uint (Nat.to_uint n).

(** *** The three regular expressions of the script *)

(** [re.sub(r"\(.*?\)", "", s)]. A match starts at an opening parenthesis
    and ends at the first closing one after it, and the dot of the regex
    does not match a line feed: [group_closes s] tells whether the text [s]
    that follows an opening parenthesis completes a match. *)
Fixpoint group_closes (s : string) : bool :=
  match s with
  | EmptyString => false
  | String c s' =>
      if Ascii.eqb c ")" then true
      else if Ascii.eqb c "010" then false
      else group_closes s'
  end.

(** The scan of [re.sub] from left to right. Outside a match every
    character is kept, except an opening parenthesis whose group closes,
    which starts a match; inside a match ([inside = true]) characters are
    dropped up to and including the closing parenthesis. *)
Fixpoint sub_parens_from (inside : bool) (s : string) : string :=
  match s with
  | EmptyString => EmptyString
  | String c s' =>
      if inside then
        sub_parens_from (negb (Ascii.eqb c ")")) s'
      else if Ascii.eqb c "(" && group_closes s' then
        sub_parens_from true s'
      else String c (sub_parens_from false s')
  end.

Definition sub_parens (s : string) : string := sub_parens_from false s.

(** [re.sub(r"\b(\w+)\.", r"\1", s)]: a match is a maximal run of word
    characters followed by a period, so the substitution deletes exactly
    the periods that directly follow a word character. [prev] tells whether
    the previous character of the subject is a word character. *)
Fixpoint sub_word_period_from (prev : bool) (s : string) : string :=
  match s with
  | EmptyString => EmptyString
  | String c s' =>
      if prev && Ascii.eqb c "." then sub_word_period_from false s'
      else String c (sub_word_period_from (is_word c) s')
  end.

Definition sub_word_period (s : string) : string :=
  sub_word_period_from false s.

(** [re.search(pattern, s, re.IGNORECASE)] for the pattern
    [(20\d{2}|19\d{2}|Dec|Mar|Sep|Jun|Feb|Jan|Jul|Aug|Nov|Oct|Apr|May)]:
    [dateish_at] tries the alternatives at the start of [s]. *)
Definition month_abbrevs : list string :=
  ["dec"; "mar"; "sep"; "jun"; "feb"; "jan"; "jul"; "aug"; "nov"; "oct";
   "apr"; "may"].

Definition year_at (s : string) : bool :=
  match s with
  | String c1 (String c2 (String c3 (String c4 _))) =>
      ((Ascii.eqb c1 "2" && Ascii.eqb c2 "0") ||
       (Ascii.eqb c1 "1" && Ascii.eqb c2 "9")) && is_digit c3 && is_digit c4
  | _ => false
  end.

Definition dateish_at (s : string) : bool :=
  year_at s || existsb (fun m => String.prefix m (lower s)) month_abbrevs.

Fixpoint dateish (s : string) : bool :=
  dateish_at s ||
  match s with
  | EmptyString => false
  | String _ s' => dateish s'
  end.

(** ** Calendar dates ([datetime]) *)

Record date := Date { year : Z; month : Z; day : Z }.

Definition is_leap (y : Z) : bool :=
  (y mod 4 =? 0) && (negb (y mod 100 =? 0) || (y mod 400 =? 0)).

Definition days_in_month (y m : Z) : Z :=
  if m =? 2 then (if is_leap y then 29 else 28)
  else if (m =? 4) || (m =? 6) || (m =? 9) || (m =? 11) then 30
  else 31.

(** The dates a [datetime] object can hold: years 1 to 9999. *)
Definition valid_date (d : date) : bool :=
  (1 <=? year d) && (year d <=? 9999) &&
  (1 <=? month d) && (month d <=? 12) &&
  (1 <=? day d) && (day d <=? days_in_month (year d) (month d)).

Definition days_before_year (y : Z) : Z :=
  let y := y - 1 in y * 365 + y / 4 - y / 100 + y / 400.

Definition days_before_month (y m : Z) : Z :=
  nth (Z.to_nat m) [0; 0; 31; 59; 90; 120; 151; 181; 212; 243; 273; 304; 334] 0
  + (if (2 <? m) && is_leap y then 1 else 0).

(** [d.toordinal()] *)
Definition toordinal (d : date) : Z :=
  days_before_year (year d) + days_before_month (year d) (month d) + day d.

(** [abs((a - b).days)] for two datetimes at midnight. *)
Definition abs_days (a b : date) : Z := Z.abs (toordinal a - toordinal b).

Definition digit_val (c : ascii) : Z := Z.of_N (N_of_ascii c) - 48.
Definition digit_char (k : Z) : ascii := ascii_of_N (Z.to_N (k + 48)).

(** *** [datetime.strptime(s, "%Y-%m-%d")]

    [_strptime] turns the format into a regular expression, the year
    [\d\d\d\d], the month [1[0-2]|0[1-9]|[1-9]] and the day
    [3[0-1]|[1-2]\d|0[1-9]|[1-9]| [1-9]] separated by dashes,
    matches it at the start of the string, rejects the string when
    characters remain after the match, and builds the date, which fails
    when the day does not exist. Each of the failures is a [ValueError]:
    the result is [None]. *)

(** The alternatives of [%m], in order; the result is the month and the
    text after it. *)
Definition re_month (s : string) : option (Z * string) :=
  match s with
  | String a (String b r) =>
      if Ascii.eqb a "1" && in_range "0" "2" b then Some (10 + digit_val b, r)
      else if Ascii.eqb a "0" && in_range "1" "9" b then Some (digit_val b, r)
      else if in_range "1" "9" a then Some (digit_val a, String b r)
      else None
  | String a EmptyString =>
      if in_range "1" "9" a then Some (digit_val a, EmptyString) else None
  | EmptyString => None
  end.

(** The alternatives of [%d], in order. *)
Definition re_day (s : string) : option (Z * string) :=
  match s with
  | String a (String b r) =>
      if Ascii.eqb a "3" && in_range "0" "1" b then Some (30 + digit_val b, r)
      else if in_range "1" "2" a && is_digit b
        then Some (10 * digit_val a + digit_val b, r)
      else if Ascii.eqb a "0" && in_range "1" "9" b then Some (digit_val b, r)
      else if in_range "1" "9" a then Some (digit_val a, String b r)
      else if Ascii.eqb a " " && in_range "1" "9" b then Some (digit_val b, r)
      else None
  | String a EmptyString =>
      if in_range "1" "9" a then Some (digit_val a, EmptyString) else None
  | EmptyString => None
  end.

Definition re_year (s : string) : option (Z * string) :=
  match s with
  | String a (String b (String c (String d r))) =>
      if is_digit a && is_digit b && is_digit c && is_digit d
      then Some (((digit_val a * 10 + digit_val b) * 10 + digit_val c) * 10
                 + digit_val d, r)
      else None
  | _ => None
  end.

Definition expect_dash (s : string) : option string :=
  match s with
  | String c r => if Ascii.eqb c "-" then Some r else None
  | EmptyString => None
  end.

Definition strptime_ymd (s : string) : option date :=
  '(y, s1) ← re_year s;
  s2 ← expect_dash s1;
  '(m, s3) ← re_month s2;
  s4 ← expect_dash s3;
  '(d, s5) ← re_day s4;
  if String.eqb s5 "" && valid_date (Date y m d) then Some (Date y m d)
  else None.

(** *** [d.strftime("%Y-%m-%d")]

    CPython hands the format to the [strftime] of the C library. That of
    glibc prints [%Y] as the year in decimal without padding, so a year
    below 1000 has fewer than four digits, and [%m] and [%d] in two
    digits. *)
Definition fmt2 (n : Z) : string :=
  String (digit_char (n / 10)) (String (digit_char (n mod 10)) EmptyString).

Definition fmt4 (n : Z) : string :=
  String (digit_char (n / 1000))
    (String (digit_char (n / 100 mod 10)) (fmt2 (n mod 100))).

(** [%Y] for a year from 1 to 9999. *)
Definition fmt_year (n : Z) : string :=
  if n <? 10 then String (digit_char n) EmptyString
  else if n <? 100 then fmt2 n
  else if n <? 1000 then String (digit_char (n / 100)) (fmt2 (n mod 100))
  else fmt4 n.

Definition strftime_ymd (d : date) : string :=
  fmt_year (year d) +:+ "-" +:+ fmt2 (month d) +:+ "-" +:+ fmt2 (day d).

(** The ISO string [YYYY-MM-DD] of a date, the year in four digits: what
    the specification calls the canonical form of the date. It is not
    computed by the program. *)
Definition iso_string (d : date) : string :=
  fmt4 (year d) +:+ "-" +:+ fmt2 (month d) +:+ "-" +:+ fmt2 (day d).

(** Datetimes are compared field by field: year, month, day, then the time
    of day. The comparison is that of the numbers below, which weigh the
    fields in this order and count the time of day in microseconds. A date
    parsed by [strptime] is at midnight, [datetime.max] is the last
    microsecond of 9999-12-31. *)
Definition midnight (d : date) : Z :=
  ((year d * 16 + month d) * 32 + day d) * 86400000000.
Definition datetime_max : Z := midnight (Date 9999 12 31) + 86399999999.

(** ** Exceptions *)

Inductive exception := ValueError | KeyError.

Inductive exc (A : Type) : Type :=
  | Ok (a : A)
  | Raise (e : exception).
Arguments Ok {A} a.
Arguments Raise {A} e.

#[global] Instance exc_ret : MRet exc := fun A a => Ok a.
#[global] Instance exc_bind : MBind exc := fun A B f m =>
  match m with
  | Ok a => f a
  | Raise e => Raise e
  end.

(** ** Insertion-ordered dictionaries with string keys *)

Abbreviation dict := (list (string * string)).

(** [d[k] = v]: an existing key keeps its position. *)
Fixpoint dict_set (k v : string) (d : dict) : dict :=
  match d with
  | [] => [(k, v)]
  | (k', v') :: d' =>
      if String.eqb k k' then (k', v) :: d' else (k', v') :: dict_set k v d'
  end.

(** [d.get(k)] *)
Fixpoint dict_get (k : string) (d : dict) : option string :=
  match d with
  | [] => None
  | (k', v') :: d' => if String.eqb k k' then Some v' else dict_get k d'
  end.

(** [d.keys()] *)
Definition dict_keys (d : dict) : list string := d.*1.

(** ** The raw table ([pandas.DataFrame])

    The frame is the one [parse_single_statement_table] builds with
    [pd.DataFrame(rows)] from the rows of an HTML table: its width is the
    length of the longest row, and shorter rows are filled with [None]. *)

Abbreviation cell := (option string).
Abbreviation DataFrame := (list (list cell)).

Definition shape1 (df : DataFrame) : nat := max_list (length <$> df).

(** [df.empty] *)
Definition df_empty (df : DataFrame) : bool :=
  (length df =? 0)%nat || (shape1 df =? 0)%nat.

Definition pad_row (w : nat) (r : list cell) : list cell :=
  r ++ replicate (w - length r) None.

(** The rows as [df.iloc[i].tolist()] returns them. *)
Definition df_rows (df : DataFrame) : list (list cell) :=
  pad_row (shape1 df) <$> df.

(** [str(x)] *)
Definition py_str (x : cell) : string := default "None" x.

(** [x or ""] *)
Definition or_empty (x : cell) : string := default "" x.

(** ** Rows of a statement *)

Record Row := mkRow {
  type : string;
  section_name : string;
  line_label : string;
  date_values : dict
}.

(** ** Step 3: the override of sections *)

Definition adjust_line_section (row : Row) : string :=
  if negb (String.eqb (type row) "line") then section_name row
  else
    let line_lower := lower (line_label row) in
    if contains "accounts payable" line_lower
       || contains "accrued and other current liabilities" line_lower
    then "Current liabilities"
    else if startswith "common stock, $0.01 par value" line_lower
    then "Post-Statement"
    else section_name row.

(** ** Step 4: line items with sections *)

Definition count_if {A} (p : A -> bool) (l : list A) : nat :=
  length (List.filter p l).

(** [date_count] of the scan for the row of dates. *)
Definition date_count (row_values : list cell) : nat :=
  count_if (fun x => dateish (py_str x)) row_values.

(** The test of the scan: [date_count >= len(row_values) // 2]. *)
Definition is_date_row (row_values : list cell) : Prop :=
  (length row_values / 2 <= date_count row_values)%nat.

#[global] Instance is_date_row_dec r : Decision (is_date_row r).
Proof. unfold is_date_row. apply _. Defined.

(** The loop over [range(min(3, len(df)))] with its [break], and the
    default. *)
Definition date_row_index (df : DataFrame) : nat :=
  match list_find is_date_row (take 3 (df_rows df)) with
  | Some (i, _) => i
  | None => 0%nat
  end.

(** [mostly_caps]: the quotient of the two counts is compared with [0.7]
    in floating point; for strings of fewer than 2^49 letters the comparison
    agrees with the exact one, [10 * upper > 7 * len(alpha)]. *)
Definition mostly_caps (s : string) : bool :=
  let alpha := sfilter is_alpha s in
  if String.eqb alpha "" then false
  else (7 * Z.of_nat (String.length alpha)
        <? 10 * Z.of_nat (String.length (sfilter is_upper alpha))).

(** [sum(1 for x in row_data if x and str(x).strip())] *)
Definition non_blank (x : cell) : bool :=
  match x with
  | Some s => negb (String.eqb s "") && negb (String.eqb (strip s) "")
  | None => false
  end.

Definition label_of (row_data : list cell) : string :=
  strip (or_empty (hd None row_data)).

(** The heuristic for a new section. *)
Definition is_heading (row_data : list cell) : bool :=
  (count_if non_blank row_data <=? 2)%nat
  && (mostly_caps (label_of row_data) || endswith ":" (label_of row_data)).

(** The loop over [col_i]: both lists start at column 1. *)
Fixpoint collect_values (date_labels : list string) (cells : list cell)
    (date_vals : dict) : dict :=
  match date_labels, cells with
  | dlabel :: date_labels', c :: cells' =>
      let val_str := strip (or_empty c) in
      collect_values date_labels' cells'
        (if String.eqb val_str "" then date_vals
         else dict_set dlabel val_str date_vals)
  | _, _ => date_vals
  end.

Definition section_row (name : string) : Row := mkRow "section" name "" [].

Definition line_row (date_labels : list string) (current_section : string)
    (row_i : nat) (row_data : list cell) : Row :=
  let label_str := label_of row_data in
  let date_vals := collect_values (tail date_labels) (tail row_data) [] in
  let row_dict :=
    mkRow "line" current_section
      (if String.eqb label_str "" then "Line_" +:+ str_nat row_i
       else label_str)
      date_vals in
  mkRow (type row_dict) (adjust_line_section row_dict)
    (line_label row_dict) (date_values row_dict).

(** The loop over the rows below the row of dates; [rows] are the rows from
    index [row_i] on, the result is what the loop appends to
    [output_rows]. *)
Fixpoint segment_rows (date_labels : list string) (row_i : nat)
    (rows : list (list cell)) (current_section : string) : list Row :=
  match rows with
  | [] => []
  | row_data :: rest =>
      match row_data with
      | [] => segment_rows date_labels (S row_i) rest current_section
      | _ =>
          if is_heading row_data then
            let current_section := rstrip_colon (label_of row_data) in
            section_row current_section
              :: segment_rows date_labels (S row_i) rest current_section
          else
            line_row date_labels current_section row_i row_data
              :: segment_rows date_labels (S row_i) rest current_section
      end
  end.

Definition date_labels_of (df : DataFrame) : list string :=
  (fun x => strip (or_empty x)) <$> (df_rows df !!! date_row_index df).

(** The rows below the row of dates. *)
Definition data_rows (df : DataFrame) : list (list cell) :=
  drop (S (date_row_index df)) (df_rows df).

Definition extract_line_items_with_sections (df : DataFrame) : list Row :=
  if df_empty df || (shape1 df <? 2)%nat then []
  else
    segment_rows (date_labels_of df) (S (date_row_index df)) (data_rows df) "".

(** ** Step 5: merging into a master sheet *)

(** The key of a row in the master sheet: [(type, section_name, line_label)]. *)
Abbreviation Key := (string * string * string)%type.

Record Statement := mkStatement {
  filing_key : string;
  filing_date : string;
  rows : list Row
}.

(** The three accumulators of [merge_statements_into_master]. *)
Record Master := mkMaster {
  master_order : list Key;
  master_data : gmap Key (gmap string string);
  all_dates : gset string
}.

Definition empty_master : Master := mkMaster [] ∅ ∅.

Definition row_key (row : Row) : Key :=
  (type row, section_name row, line_label row).

(** A [for] loop whose body may raise. *)
Fixpoint for_each {S A : Type} (body : S -> A -> exc S) (st : S) (l : list A)
    : exc S :=
  match l with
  | [] => Ok st
  | x :: l' => st' ← body st x; for_each body st' l'
  end.

(** [def parse_dt(s)] of the final assembly. *)
Definition parse_dt (s : string) : Z :=
  match strptime_ymd s with
  | Some d => midnight d
  | None => datetime_max
  end.

(** [sorted(l, key=key)]: the sort of Python is stable, an element is
    placed before the first element whose key is not smaller than its
    own. *)
Fixpoint insert_by {A} (key : A -> Z) (x : A) (l : list A) : list A :=
  match l with
  | [] => [x]
  | y :: l' => if key y <? key x then y :: insert_by key x l' else x :: l
  end.

Fixpoint sorted_by {A} (key : A -> Z) (l : list A) : list A :=
  match l with
  | [] => []
  | x :: l' => insert_by key x (sorted_by key l')
  end.

(** [sorted(all_dates, key=parse_dt)], from the dates in the order in
    which the set yields them. *)
Definition sorted_dates (dates : list string) : list string :=
  sorted_by parse_dt dates.

(** ** The environment of the merge

    [dateparser.parse(s, fuzzy=True)] of [dateutil] is third-party code
    whose result also depends on the current day; it is an interface of
    the model, and [None] stands for any exception it raises. *)
Class Dateutil := dateutil_parse : string -> option date.

(** The order in which a [set] of strings is iterated. *)
Class SetOrder := set_iter : gset string -> list string.

Definition clean_label (dlabel : string) : string :=
  let base_label := strip (sub_parens dlabel) in
  sub_word_period base_label.

Section Merger.

Context {parser : Dateutil} {iteration : SetOrder}.

Definition parse_date_label (dlabel : string) : string :=
  let base_label := clean_label dlabel in
  match dateutil_parse base_label with
  | Some dt => strftime_ymd dt
  | None => base_label
  end.

(** The state of the loop of [select_closest_date]: [best_key],
    [best_diff] and [best_canon], which are set together. *)
Abbreviation best := (option (string * Z * string)).

Definition closest_step (filing_date : date) (b : best) (raw_date : string)
    : best :=
  let canon := parse_date_label raw_date in
  match strptime_ymd canon with
  | None => b
  | Some dt =>
      let diff := abs_days filing_date dt in
      match b with
      | Some (_, best_diff, _) =>
          if diff <? best_diff then Some (raw_date, diff, canon) else b
      | None => Some (raw_date, diff, canon)
      end
  end.

(** The result is [(best_key, best_canon)], or [None] for [(None, None)]. *)
Definition select_closest_date (date_vals : dict) (filing_date_str : string)
    : exc (option (string * string)) :=
  match date_vals with
  | [] => Ok None
  | _ =>
      match strptime_ymd filing_date_str with
      | None => Raise ValueError
      | Some filing_date =>
          let b :=
            foldl (closest_step filing_date) None (dict_keys date_vals) in
          Ok ((fun b : string * Z * string => (b.1.1, b.2)) <$> b)
      end
  end.

(** The body of the loop over the rows of one statement. *)
Definition merge_row (filing_date : string) (st : Master) (row : Row)
    : exc Master :=
  let key := row_key row in
  let order :=
    if decide (key ∈ master_order st) then master_order st
    else master_order st ++ [key] in
  let data :=
    if decide (is_Some (master_data st !! key)) then master_data st
    else <[key := ∅]> (master_data st) in
  sel ← select_closest_date (date_values row) filing_date;
  match sel with
  | Some (best_raw, best_canon) =>
      match dict_get best_raw (date_values row) with
      | Some val =>
          let entry := default ∅ (data !! key) in
          Ok (mkMaster order (<[key := <[best_canon := val]> entry]> data)
                ({[best_canon]} ∪ all_dates st))
      | None => Raise KeyError
      end
  | None => Ok (mkMaster order data (all_dates st))
  end.

Definition merge_statement (st : Master) (statement : Statement)
    : exc Master :=
  for_each (merge_row (filing_date statement)) st (rows statement).

(** The two nested loops. *)
Definition merge_loop (st : Master) (all_statements : list Statement)
    : exc Master :=
  for_each merge_statement st all_statements.

(** One row of the final sheet. Every key of [master_order] has an entry
    in [master_data]. *)
Definition final_row (st : Master) (dates : list string) (key : Key)
    : list string :=
  let '(type_, sect_, line_) := key in
  if String.eqb type_ "section" then sect_ :: replicate (length dates) ""
  else
    ("  " +:+ line_)
      :: ((fun d => default "" (default ∅ (master_data st !! key) !! d))
            <$> dates).

Definition final_rows (st : Master) (dates : list string)
    : list (list string) :=
  ("Line / Section" :: dates) :: (final_row st dates <$> master_order st).

Definition merge_statements_into_master (all_statements : list Statement)
    : exc (list (list string)) :=
  st ← merge_loop empty_master all_statements;
  Ok (final_rows st (sorted_dates (set_iter (all_dates st)))).

(** [b] is the choice among the labels [keys] for the filing date [fd]: no
    label has a canonical form that [strptime] reads, or [b] holds a label
    whose canonical form is a date, strictly closer to [fd] than the
    readable labels before it and at least as close as those after it. *)
Definition closest_among (fd : date) (keys : list string) (b : best)
    : Prop :=
  match b with
  | None =>
      forall raw, raw ∈ keys -> strptime_ymd (parse_date_label raw) = None
  | Some (raw, diff, canon) =>
      canon = parse_date_label raw /\
      exists dt pre post,
        strptime_ymd canon = Some dt /\ diff = abs_days fd dt /\
        keys = pre ++ raw :: post /\
        (forall r dt', r ∈ pre ->
           strptime_ymd (parse_date_label r) = Some dt' ->
           diff < abs_days fd dt') /\
        (forall r dt', r ∈ post ->
           strptime_ymd (parse_date_label r) = Some dt' ->
           diff <= abs_days fd dt')
  end.

(** The cell a row stores: its key, the canonical date selected for it and
    the value under the selected label. *)
Definition row_write (filing_date : string) (row : Row)
    : list (Key * string * string) :=
  match select_closest_date (date_values row) filing_date with
  | Ok (Some (best_raw, best_canon)) =>
      match dict_get best_raw (date_values row) with
      | Some val => [(row_key row, best_canon, val)]
      | None => []
      end
  | _ => []
  end.

(** The cells stored by the statements, in processing order. *)
Definition writes (all_statements : list Statement)
    : list (Key * string * string) :=
  all_statements ≫= (fun s => rows s ≫= row_write (filing_date s)).

End Merger.

(** ** Vocabulary of the specification *)

(** Every character of [s] satisfies [p]. *)
Fixpoint sall (p : ascii -> bool) (s : string) : bool :=
  match s with
  | EmptyString => true
  | String c s' => p c && sall p s'
  end.

Definition is_not (c : ascii) : ascii -> bool := fun x => negb (Ascii.eqb x c).

(** The last character of [s] satisfies [p]. *)
Fixpoint ends_in (p : ascii -> bool) (s : string) : bool :=
  match s with
  | EmptyString => false
  | String c EmptyString => p c
  | String _ s' => ends_in p s'
  end.

(** The characters of a canonical date: digits and the dash. *)
Definition iso_char (c : ascii) : bool := is_digit c || Ascii.eqb c "-".

(** [sub] occurs in [s]; [p] starts [s]; [p] ends [s]. *)
Definition is_substring (sub s : string) : Prop :=
  exists pre post, s = pre +:+ sub +:+ post.
Definition is_prefix (p s : string) : Prop := exists post, s = p +:+ post.
Definition is_suffix (p s : string) : Prop := exists pre, s = pre +:+ p.

(** The label triggers one of the rules of [adjust_line_section]. *)
Definition reclassified (label : string) : bool :=
  contains "accounts payable" (lower label)
  || contains "accrued and other current liabilities" (lower label)
  || startswith "common stock, $0.01 par value" (lower label).

(** The test of the scan for the row of dates as the specification words
    it: the count is at least half the number of cells. *)
Definition is_date_row_half (row_values : list cell) : Prop :=
  (length row_values <= 2 * date_count row_values)%nat.

#[global] Instance is_date_row_half_dec r : Decision (is_date_row_half r).
Proof. unfold is_date_row_half. apply _. Defined.

Definition date_row_index_half (df : DataFrame) : nat :=
  match list_find is_date_row_half (take 3 (df_rows df)) with
  | Some (i, _) => i
  | None => 0%nat
  end.

(** The current section once the loop of step 4 has gone through [rows]. *)
Fixpoint section_after (rows : list (list cell)) (current_section : string)
    : string :=
  match rows with
  | [] => current_section
  | row_data :: rest =>
      section_after rest
        (match row_data with
         | [] => current_section
         | _ => if is_heading row_data then rstrip_colon (label_of row_data)
                else current_section
         end)
  end.

(** Each key once, in the order of its first occurrence. *)
Fixpoint first_occurrences (ks : list Key) : list Key :=
  match ks with
  | [] => []
  | k :: ks' => k :: filter (fun k' => k' <> k) (first_occurrences ks')
  end.

(** The keys of the rows of the statements, in processing order. *)
Definition all_keys (all_statements : list Statement) : list Key :=
  all_statements ≫= (fun s => row_key <$> rows s).

(** The rows of the statements in processing order, each with the filing
    date of its statement. *)
Definition dated_rows (all_statements : list Statement)
    : list (string * Row) :=
  all_statements ≫= (fun s => (fun row => (filing_date s, row)) <$> rows s).

(** The calendar order of dates. *)
Definition date_lt (a b : date) : Prop :=
  year a < year b \/
  (year a = year b /\
   (month a < month b \/ (month a = month b /\ day a < day b))).

(** The filing date of every statement is a date. *)
Definition dated (all_statements : list Statement) : Prop :=
  Forall (fun s => is_Some (strptime_ymd (filing_date s))) all_statements.

(** The cell of the master sheet at a key and a canonical date. *)
Definition cell_at (st : Master) (key : Key) (d : string) : option string :=
  master_data st !! key ≫= (fun m => m !! d).

(** The value of the last of the writes [ws] that targets [(key, d)]. *)
Fixpoint last_write (key : Key) (d : string)
    (ws : list (Key * string * string)) : option string :=
  match ws with
  | [] => None
  | (k, c, v) :: ws' =>
      match last_write key d ws' with
      | Some v' => Some v'
      | None => if decide (k = key /\ c = d) then Some v else None
      end
  end.

(** ** Sample inputs *)

(** A table with a row of dates, a section heading and one line item. *)
Definition sample_table : DataFrame :=
  [ [Some ""; Some "Mar. 31, 2024"; Some "Dec. 31, 2023"];
    [Some "CURRENT ASSETS:"; Some ""; Some ""];
    [Some "Cash"; Some "100"; Some "120"] ].

(** The same table with a line item that a rule of step 3 moves. *)
Definition payable_table : DataFrame :=
  [ [Some ""; Some "Mar. 31, 2024"; Some "Dec. 31, 2023"];
    [Some "CURRENT ASSETS:"; Some ""; Some ""];
    [Some "Accounts payable"; Some "100"; Some "120"] ].

(** A table of three columns whose first row has one date among three
    cells and whose second row has two. *)
Definition title_table : DataFrame :=
  [ [Some "Balance Sheets"; Some "USD"; Some "2024"];
    [Some ""; Some "Mar. 31, 2024"; Some "Dec. 31, 2023"];
    [Some "Cash"; Some "100"; Some "120"] ].

(** A parser that only reads ISO dates, for the examples. *)
Definition iso_parse (s : string) : option date := strptime_ymd s.

Definition sample_values : dict :=
  [("2023-12-31", "90"); ("2024-03-31", "100"); ("2024-06-30", "110")].

Definition sample_statements : list Statement :=
  [ mkStatement "10-Q_2024-04-01" "2024-04-01"
      [ section_row "CURRENT ASSETS";
        mkRow "line" "CURRENT ASSETS" "Cash" sample_values ];
    mkStatement "10-K_2024-01-15" "2024-01-15"
      [ section_row "CURRENT ASSETS";
        mkRow "line" "CURRENT ASSETS" "Cash" sample_values;
        mkRow "line" "CURRENT ASSETS" "Inventory" [("2023-12-31", "7")] ];
    mkStatement "10-Q/A_2024-04-02" "2024-04-02"
      [ mkRow "line" "CURRENT ASSETS" "Cash" [("2024-03-31", "105")] ] ].

(** * Steps 1 and 2: the filings and their documents

    The requests to EDGAR and the parsing of their answers by
    [sec_edgar_api], [requests] and [BeautifulSoup] are not modelled: the
    functions below take the decoded answer as their argument and embed
    what the script does with it. *)

Definition to_upper (c : ascii) : ascii :=
  if is_lower c then ascii_of_N (N_of_ascii c - 32) else c.

(** [s.upper()] *)
Fixpoint upper (s : string) : string :=
  match s with
  | EmptyString => EmptyString
  | String c s' => String (to_upper c) (upper s')
  end.

(** [accession_number.replace("-", "")] *)
Definition remove_dashes (accession_number : string) : string :=
  sfilter (is_not "-") accession_number.

Definition summary_name : string := "FilingSummary.xml".

(** [re.sub(r"FilingSummary\.xml$", "", s)]: the pattern matches the name
    where the string ends with it, or where only a line feed follows it,
    since [$] also matches before a line feed that ends the string. *)
Fixpoint sub_summary_name (s : string) : string :=
  if String.eqb s summary_name then ""
  else if String.eqb s (summary_name +:+ String "010" "") then String "010" ""
  else
    match s with
    | EmptyString => EmptyString
    | String c s' => String c (sub_summary_name s')
    end.

Module Edgar.

(** An entry of the result of [get_last_filings_10k_10q]. *)
Record Filing := mkFiling {
  form_type : string;
  accession_number : string;
  filing_date : string
}.

(** [zip(forms, acc_nums, filing_dates)] *)
Fixpoint zip3 (forms acc_nums filing_dates : list string)
    : list (string * string * string) :=
  match forms, acc_nums, filing_dates with
  | form :: forms', acc :: acc_nums', fdate :: filing_dates' =>
      (form, acc, fdate) :: zip3 forms' acc_nums' filing_dates'
  | _, _, _ => []
  end.

(** The loop over the recent filings with its [break]; [results] is the
    list built so far. *)
Fixpoint filings_loop (count : Z) (feed : list (string * string * string))
    (results : list Filing) : list Filing :=
  match feed with
  | [] => results
  | (form, acc, fdate) :: feed' =>
      let form_upper := upper (strip form) in
      if String.eqb form_upper "10-K" || String.eqb form_upper "10-Q" then
        let results := results ++ [mkFiling form_upper acc fdate] in
        if count <=? Z.of_nat (length results) then results
        else filings_loop count feed' results
      else filings_loop count feed' results
  end.

(** The three lists are [form], [accessionNumber] and [filingDate] of
    [data["filings"]["recent"]]. *)
Definition get_last_filings_10k_10q (forms acc_nums filing_dates : list string)
    (count : Z) : list Filing :=
  filings_loop count (zip3 forms acc_nums filing_dates) [].

(** The value of the key ["directory"] of [index.json]: its ["name"] and
    its ["item"], a list of objects of which the ["name"] is kept. A key
    that is absent is [None]. *)
Record Directory := mkDirectory {
  name : option string;
  item : option (list (option string))
}.

Fixpoint summary_item (base_dir : string) (items : list (option string))
    : option string :=
  match items with
  | [] => None
  | it :: items' =>
      match it with
      | Some n =>
          if String.eqb n summary_name
          then Some ("https://www.sec.gov/" +:+ base_dir +:+ "/" +:+ n)
          else summary_item base_dir items'
      | None => summary_item base_dir items'
      end
  end.

(** [index_json] is the value of ["directory"], [None] for the empty
    object that [fetch_index_json] returns when the request fails. *)
Definition find_filing_summary_url (index_json : option Directory)
    : option string :=
  let base_dir := default "" (index_json ≫= name) in
  let items := default [] (index_json ≫= item) in
  if String.eqb base_dir "" || bool_decide (items = []) then None
  else summary_item base_dir items.

(** A [<Report>] of [FilingSummary.xml]: the texts of its [<ShortName>]
    and [<HtmlFileName>] as [get_text(strip=True)] returns them, [None]
    when the element is absent. *)
Record Report := mkReport {
  ShortName : option string;
  HtmlFileName : option string
}.

Fixpoint statement_report (base phrase_lower : string) (reports : list Report)
    : option string :=
  match reports with
  | [] => None
  | r :: reports' =>
      match ShortName r with
      | Some text =>
          if contains phrase_lower (lower text) then
            match HtmlFileName r with
            | Some html_file => Some (base +:+ html_file)
            | None => statement_report base phrase_lower reports'
            end
          else statement_report base phrase_lower reports'
      | None => statement_report base phrase_lower reports'
      end
  end.

(** [myreports] are the reports of the [<MyReports>] element, [None] when
    the request fails or the element is absent. *)
Definition find_statement_url_for_balance_sheets (summary_url : string)
    (myreports : option (list Report)) (target_phrase : string)
    : option string :=
  match myreports with
  | None => None
  | Some reports =>
      statement_report (sub_summary_name summary_url) (lower target_phrase)
        reports
  end.

(** The text of a table holds one of the markers of a reference table. *)
Definition is_reference_table (table_text : string) : bool :=
  contains "Namespace Prefix:" table_text
  || contains "Data Type:" table_text
  || contains "us-gaap_" table_text.

(** The loop over the tables of the page: a table is its text and the
    texts of the cells of its rows. [pd.DataFrame()] is the empty frame. *)
Fixpoint first_data_table (tables : list (string * list (list string)))
    : DataFrame :=
  match tables with
  | [] => []
  | (table_text, table_rows) :: tables' =>
      if is_reference_table table_text then first_data_table tables'
      else
        match table_rows with
        | [] => first_data_table tables'
        | _ => List.map (List.map Some) table_rows
        end
  end.

(** [tables] are the tables of the page, [None] when the request fails. *)
Definition parse_single_statement_table
    (tables : option (list (string * list (list string)))) : DataFrame :=
  match tables with
  | None => []
  | Some tables => first_data_table tables
  end.

End Edgar.

(** ** Vocabulary of the properties of steps 1 to 5 *)

(** The form of a filing is 10-K or 10-Q once trimmed and in upper case. *)
Definition is_10k_10q (form : string) : bool :=
  String.eqb (upper (strip form)) "10-K"
  || String.eqb (upper (strip form)) "10-Q".

(** The 10-K and 10-Q filings of a feed, in the order of the feed. *)
Definition recent_10k_10q (feed : list (string * string * string))
    : list Edgar.Filing :=
  (fun e : string * string * string =>
     Edgar.mkFiling (upper (strip e.1.1)) e.1.2 e.2)
    <$> List.filter (fun e : string * string * string => is_10k_10q e.1.1) feed.

(** The name of the last section row of [out], [cs] when there is none. *)
Fixpoint last_section (cs : string) (out : list Row) : string :=
  match out with
  | [] => cs
  | row :: out' =>
      last_section
        (if String.eqb (type row) "section" then section_name row else cs)
        out'
  end.

(** The trimmed text of the last non-blank cell among the cells whose
    column has the label [k]. *)
Fixpoint last_value (k : string) (date_labels : list string)
    (cells : list cell) : option string :=
  match date_labels, cells with
  | dlabel :: date_labels', c :: cells' =>
      match last_value k date_labels' cells' with
      | Some v => Some v
      | None =>
          if String.eqb k dlabel && negb (String.eqb (strip (or_empty c)) "")
          then Some (strip (or_empty c))
          else None
      end
  | _, _ => None
  end.

(** The canonical dates of a list of writes. *)
Definition write_dates (ws : list (Key * string * string)) : gset string :=
  list_to_set ((fun w : Key * string * string => w.1.2) <$> ws).

(** A recent feed of filings, with a form in lower case and other forms. *)
Definition sample_feed : list (string * string * string) :=
  [ ("8-K", "0000712515-24-000030", "2024-05-07");
    ("10-K", "0000712515-24-000028", "2024-05-22");
    (" 10-q ", "0000712515-24-000012", "2024-02-06");
    ("4", "0000712515-24-000009", "2024-02-01");
    ("10-Q", "0000712515-23-000060", "2023-11-07") ].

(** The index of a filing, the reports of its summary and the tables of
    the page of a statement. *)
Definition sample_index : option Edgar.Directory :=
  Some (Edgar.mkDirectory (Some "Archives/edgar/data/712515/000071251524000012")
          (Some [Some "R2.htm"; None; Some "FilingSummary.xml"])).

Definition sample_reports : list Edgar.Report :=
  [ Edgar.mkReport (Some "Cover Page") (Some "R1.htm");
    Edgar.mkReport (Some "CONSOLIDATED BALANCE SHEETS") None;
    Edgar.mkReport (Some "Condensed Consolidated Balance Sheets")
      (Some "R2.htm") ].

Definition sample_tables : list (string * list (list string)) :=
  [ ("Namespace Prefix: us-gaap_ Data Type: xbrli", [["Definition"]]);
    ("", []);
    ("Cash 100 120", [["Cash"; "100"; "120"]]) ].

Definition sample_statement_url : string :=
  "https://www.sec.gov/"
  +:+ "Archives/edgar/data/712515/000071251524000012" +:+ "/R2.htm".

(** A table whose only row below the dates has a blank first cell. *)
Definition blank_label_table : DataFrame :=
  [ [Some ""; Some "2023-12-31"; Some "2022-12-31"];
    [Some " "; Some "100"; Some ""] ].

(** ** The main program *)

(** What the requests made for one filing return: the ["directory"] of its
    [index.json] ([None] when [fetch_index_json] returns the empty object or
    the key is absent, in both cases the filing is skipped), the reports of
    its summary and the tables of the page of its statement. *)
Record Responses := mkResponses {
  idx_json : option Edgar.Directory;
  myreports : option (list Edgar.Report);
  tables : option (list (string * list (list string)))
}.

(** The dictionary [raw_sheets] and the list [all_statements] of [main]. *)
Record Collected := mkCollected {
  raw_sheets : gmap string DataFrame;
  all_statements : list Statement
}.

(** The loop of [main] over the filings, each with what its requests
    return; [continue] goes on with the accumulators unchanged. *)
Fixpoint main_loop (target_phrase : string)
    (filings : list (Edgar.Filing * Responses)) (acc : Collected)
    : Collected :=
  match filings with
  | [] => acc
  | (filing, resp) :: filings' =>
      let form_type := Edgar.form_type filing in
      let fdate := Edgar.filing_date filing in
      let sheet_name := form_type +:+ "_" +:+ fdate in
      match idx_json resp with
      | None => main_loop target_phrase filings' acc
      | Some _ =>
          match Edgar.find_filing_summary_url (idx_json resp) with
          | None => main_loop target_phrase filings' acc
          | Some summary_url =>
              if String.eqb summary_url ""
              then main_loop target_phrase filings' acc
              else
                match
                  Edgar.find_statement_url_for_balance_sheets summary_url
                    (myreports resp) target_phrase
                with
                | None => main_loop target_phrase filings' acc
                | Some statement_url =>
                    if String.eqb statement_url ""
                    then main_loop target_phrase filings' acc
                    else
                      let df_table :=
                        Edgar.parse_single_statement_table (tables resp) in
                      let rows_with_sections :=
                        extract_line_items_with_sections df_table in
                      main_loop target_phrase filings'
                        (mkCollected
                           (<[sheet_name := df_table]> (raw_sheets acc))
                           (all_statements acc
                            ++ [mkStatement sheet_name fdate
                                  rows_with_sections]))
                end
          end
      end
  end.

Section Main.

Context {parser : Dateutil} {iteration : SetOrder}.

(** [main] up to the sheets it hands to the writer: the raw tables and the
    master sheet, [None] where it returns early. [filings] is the result
    of [get_last_filings_10k_10q]. *)
Definition main (target_phrase : string)
    (filings : list (Edgar.Filing * Responses))
    : exc (option (gmap string DataFrame * list (list string))) :=
  match filings with
  | [] => Ok None
  | _ =>
      let acc := main_loop target_phrase filings (mkCollected ∅ []) in
      match all_statements acc with
      | [] => Ok None
      | _ =>
          df_master ← merge_statements_into_master (all_statements acc);
          Ok (Some (raw_sheets acc, df_master))
      end
  end.

End Main.

(** The name of the sheet of a filing. *)
Definition sheet_name_of (filing : Edgar.Filing) : string :=
  Edgar.form_type filing +:+ "_" +:+ Edgar.filing_date filing.

(** The address of the statement of a filing, from what its requests
    return. *)
Definition statement_url_of (target_phrase : string) (resp : Responses)
    : option string :=
  Edgar.find_filing_summary_url (idx_json resp) ≫= fun summary_url =>
  Edgar.find_statement_url_for_balance_sheets summary_url (myreports resp)
    target_phrase.

(** The table of a filing and the statement made of it. *)
Definition table_of (resp : Responses) : DataFrame :=
  Edgar.parse_single_statement_table (tables resp).

Definition statement_of (fr : Edgar.Filing * Responses) : Statement :=
  mkStatement (sheet_name_of fr.1) (Edgar.filing_date fr.1)
    (extract_line_items_with_sections (table_of fr.2)).

(** The filings of which [main] finds the statement. *)
Definition found (target_phrase : string)
    (filings : list (Edgar.Filing * Responses))
    : list (Edgar.Filing * Responses) :=
  List.filter
    (fun fr => bool_decide (is_Some (statement_url_of target_phrase fr.2)))
    filings.

(** The rows of a table have the same number of cells. The frame made
    of such a table has no cell to fill in: each of its cells is the text
    of a cell of the table. *)
Definition rectangular (table_rows : list (list string)) : bool :=
  match table_rows with
  | [] => true
  | cols :: table_rows' =>
      forallb (fun cols' => (length cols' =? length cols)%nat) table_rows'
  end.

Definition rectangular_page (resp : Responses) : bool :=
  match tables resp with
  | None => true
  | Some page => forallb (fun t => rectangular t.2) page
  end.

(** The page of a statement, a reference table before the table of the
    balance sheet, and the page of a later filing of the same form and
    day with another amount. *)
Definition sample_page : list (string * list (list string)) :=
  [ ("Namespace Prefix: us-gaap_ Data Type: xbrli", [["Definition"]]);
    ("2023-12-31 2022-12-31 CURRENT ASSETS: Cash 100 120",
     [ [""; "2023-12-31"; "2022-12-31"];
       ["CURRENT ASSETS:"; ""; ""];
       ["Cash"; "100"; "120"] ]) ].

Definition amended_page : list (string * list (list string)) :=
  [ ("2023-12-31 2022-12-31 CURRENT ASSETS: Cash 105 120",
     [ [""; "2023-12-31"; "2022-12-31"];
       ["CURRENT ASSETS:"; ""; ""];
       ["Cash"; "105"; "120"] ]) ].

(** Four filings: the first complete, the second without an index, the
    third of the form and day of the first, the page of the statement of
    the fourth missing. *)
Definition sample_filings : list (Edgar.Filing * Responses) :=
  [ (Edgar.mkFiling "10-Q" "0000712515-24-000012" "2024-02-06",
     mkResponses sample_index (Some sample_reports) (Some sample_page));
    (Edgar.mkFiling "10-K" "0000712515-24-000028" "2024-05-22",
     mkResponses None (Some sample_reports) (Some sample_page));
    (Edgar.mkFiling "10-Q" "0000712515-24-000013" "2024-02-06",
     mkResponses sample_index (Some sample_reports) (Some amended_page));
    (Edgar.mkFiling "10-K" "0000712515-23-000009" "2023-02-21",
     mkResponses sample_index (Some sample_reports) None) ].

(** * Properties *)

(** ** Strings *)

Lemma app_nil_l' (s : string) : "" +:+ s = s.
Proof. reflexivity. Qed.

Lemma app_cons (c : ascii) (s t : string) :
  String c s +:+ t = String c (s +:+ t).
Proof. reflexivity. Qed.

Lemma prefix_spec (p s : string) : String.prefix p s = true <-> is_prefix p s.
Proof.
  revert p. induction s as [|b s IH]; intros [|a p]; simpl.
  - split; [intros _; by exists ""|done].
  - split; [done|]. intros [post Hpost]. by rewrite app_cons in Hpost.
  - split; [intros _; by exists (String b s)|done].
  - destruct (ascii_dec a b) as [->|Hab].
    + rewrite IH. split; intros [post Hpost]; exists post.
      * by rewrite app_cons, Hpost.
      * rewrite app_cons in Hpost. by simplify_eq.
    + split; [done|]. intros [post Hpost]. rewrite app_cons in Hpost.
      by simplify_eq.
Qed.

Lemma startswith_spec (p s : string) : startswith p s = true <-> is_prefix p s.
Proof. apply prefix_spec. Qed.

Lemma contains_spec (sub s : string) :
  contains sub s = true <-> is_substring sub s.
Proof.
  induction s as [|c s IH]; cbn [contains]; rewrite orb_true_iff, prefix_spec.
  - split.
    + intros [[post Hpost]|?]; [|done]. exists "", post. by rewrite app_nil_l'.
    + intros (pre & post & Heq). left. exists post.
      destruct pre; [done|]. by rewrite app_cons in Heq.
  - rewrite IH. split.
    + intros [[post Hpost]|(pre & post & Heq)].
      * exists "", post. by rewrite app_nil_l'.
      * exists (String c pre), post. by rewrite app_cons, Heq.
    + intros (pre & post & Heq). destruct pre as [|c' pre].
      * left. by exists post.
      * right. rewrite app_cons in Heq. simplify_eq. by exists pre, post.
Qed.

Lemma endswith_spec (p s : string) : endswith p s = true <-> is_suffix p s.
Proof.
  induction s as [|c s IH]; cbn [endswith]; rewrite orb_true_iff, String.eqb_eq.
  - split.
    + intros [<-|?]; [|done]. by exists "".
    + intros [pre Heq]. left. destruct pre; [done|].
      by rewrite app_cons in Heq.
  - rewrite IH. split.
    + intros [<-|[pre Heq]]; [by exists ""|].
      exists (String c pre). by rewrite app_cons, Heq.
    + intros [pre Heq]. destruct pre as [|c' pre]; [by left|].
      right. rewrite app_cons in Heq. simplify_eq. by exists pre.
Qed.

(** ** Dates: [strftime] and [strptime] *)

Ltac split_bools :=
  repeat match goal with
  | H : _ && _ = true |- _ => apply andb_true_iff in H as [? ?]
  | H : (_ <=? _) = true |- _ => apply Z.leb_le in H
  end.

Lemma small_cases (k : Z) (n : nat) :
  0 <= k <= Z.of_nat n -> exists i, (i <= n)%nat /\ k = Z.of_nat i.
Proof. intros H. exists (Z.to_nat k). lia. Qed.

Lemma digit_char_digit (k : Z) :
  0 <= k <= 9 -> is_digit (digit_char k) = true /\ digit_val (digit_char k) = k.
Proof.
  intros Hk. destruct (small_cases k 9 Hk) as (i & Hi & ->).
  do 10 (destruct i as [|i]; [by vm_compute|]). lia.
Qed.

Lemma valid_date_bounds (d : date) :
  valid_date d = true ->
  1 <= year d <= 9999 /\ 1 <= month d <= 12 /\
  1 <= day d <= days_in_month (year d) (month d) /\ 1 <= day d <= 31.
Proof.
  unfold valid_date. intros H. split_bools.
  assert (days_in_month (year d) (month d) <= 31).
  { unfold days_in_month. repeat case_match; lia. }
  lia.
Qed.

Lemma re_year_fmt4 (y : Z) (r : string) :
  0 <= y <= 9999 -> re_year (fmt4 y +:+ r) = Some (y, r).
Proof.
  intros Hy. unfold fmt4, fmt2. rewrite !app_cons, app_nil_l'.
  unfold re_year.
  destruct (digit_char_digit (y / 1000)) as [-> ->];
    [Z.div_mod_to_equations; lia|].
  destruct (digit_char_digit (y / 100 mod 10)) as [-> ->];
    [Z.div_mod_to_equations; lia|].
  destruct (digit_char_digit (y mod 100 / 10)) as [-> ->].
  { Z.div_mod_to_equations. lia. }
  destruct (digit_char_digit (y mod 100 mod 10)) as [-> ->];
    [Z.div_mod_to_equations; lia|].
  simpl. do 2 f_equal.
  Z.div_mod_to_equations. lia.
Qed.

Lemma re_month_fmt2 (m : Z) (r : string) :
  1 <= m <= 12 ->
  re_month (fmt2 m +:+ String "-" r) = Some (m, String "-" r).
Proof.
  intros Hm. destruct (small_cases m 12 ltac:(lia)) as (i & Hi & ->).
  do 13 (destruct i as [|i]; [try lia; by vm_compute|]). lia.
Qed.

Lemma re_day_fmt2 (d : Z) :
  1 <= d <= 31 -> re_day (fmt2 d) = Some (d, "").
Proof.
  intros Hd. destruct (small_cases d 31 ltac:(lia)) as (i & Hi & ->).
  do 32 (destruct i as [|i]; [try lia; by vm_compute|]). lia.
Qed.

Lemma iso_string_unfold (d : date) :
  iso_string d
  = fmt4 (year d) +:+ String "-" (fmt2 (month d) +:+ String "-" (fmt2 (day d))).
Proof. reflexivity. Qed.

Lemma strftime_ymd_unfold (d : date) :
  strftime_ymd d
  = fmt_year (year d)
    +:+ String "-" (fmt2 (month d) +:+ String "-" (fmt2 (day d))).
Proof. reflexivity. Qed.

(** From the year 1000 on [strftime] prints the ISO string. *)
Lemma strftime_iso_string (d : date) :
  1000 <= year d -> strftime_ymd d = iso_string d.
Proof.
  intros Hy. rewrite strftime_ymd_unfold, iso_string_unfold. unfold fmt_year.
  destruct (Z.ltb_spec (year d) 10); [lia|].
  destruct (Z.ltb_spec (year d) 100); [lia|].
  destruct (Z.ltb_spec (year d) 1000); [lia|]. done.
Qed.

(** The ISO string of a date is read back by [strptime]. *)
Lemma strptime_iso_string (d : date) :
  valid_date d = true -> strptime_ymd (iso_string d) = Some d.
Proof.
  intros Hv. destruct (valid_date_bounds d Hv) as (Hy & Hm & _ & Hd).
  rewrite iso_string_unfold. unfold strptime_ymd.
  rewrite re_year_fmt4 by lia. cbn [mbind option_bind expect_dash].
  change (Ascii.eqb "-" "-") with true. cbv iota.
  cbn [mbind option_bind]. rewrite re_month_fmt2 by lia.
  cbn [mbind option_bind expect_dash].
  change (Ascii.eqb "-" "-") with true. cbv iota.
  cbn [mbind option_bind]. rewrite re_day_fmt2 by lia.
  cbn [mbind option_bind]. destruct d as [y m dd]. simpl in *.
  by rewrite Hv.
Qed.

(** A date printed by [strftime] is read back by [strptime] when its year
    has four digits. *)
Lemma strptime_strftime (d : date) :
  valid_date d = true -> 1000 <= year d ->
  strptime_ymd (strftime_ymd d) = Some d.
Proof.
  intros Hv Hy. rewrite strftime_iso_string by done.
  by apply strptime_iso_string.
Qed.

(** The year of a date before the year 1000 is printed in fewer than four
    digits, which [strptime] does not read. *)
Lemma re_year_short (y : Z) (r : string) :
  1 <= y < 1000 -> re_year (fmt_year y +:+ String "-" r) = None.
Proof.
  intros Hy. unfold fmt_year, fmt2.
  destruct (Z.ltb_spec y 10); [|destruct (Z.ltb_spec y 100);
                                 [|destruct (Z.ltb_spec y 1000); [|lia]]];
    rewrite !app_cons, app_nil_l'; unfold re_year.
  - destruct r as [|a [|b r]]; try done.
    change (is_digit "-") with false. by rewrite andb_false_r.
  - destruct r as [|a r]; [done|].
    change (is_digit "-") with false. by rewrite !andb_false_r.
  - change (is_digit "-") with false. by rewrite !andb_false_r.
Qed.

Lemma strptime_strftime_short (d : date) :
  1 <= year d < 1000 -> strptime_ymd (strftime_ymd d) = None.
Proof.
  intros Hy. rewrite strftime_ymd_unfold. unfold strptime_ymd.
  by rewrite re_year_short.
Qed.

Lemma string_app_length (s t : string) :
  String.length (s +:+ t) = (String.length s + String.length t)%nat.
Proof.
  induction s as [|c s IH]; [done|]. rewrite app_cons. simpl. by rewrite IH.
Qed.

Lemma strftime_ymd_length (d : date) :
  1 <= year d ->
  (1000 <= year d -> String.length (strftime_ymd d) = 10%nat) /\
  (year d < 1000 -> (String.length (strftime_ymd d) < 10)%nat).
Proof.
  intros Hy. rewrite strftime_ymd_unfold, string_app_length. unfold fmt_year.
  destruct (Z.ltb_spec (year d) 10); [|destruct (Z.ltb_spec (year d) 100);
    [|destruct (Z.ltb_spec (year d) 1000)]]; simpl; split; intros; lia.
Qed.

(** [strftime] prints different valid dates differently, and prints the
    ISO string of a date only for that date, from the year 1000 on. *)
Lemma strftime_is_iso_string (d d' : date) :
  valid_date d = true -> valid_date d' = true ->
  strftime_ymd d' = iso_string d <-> d' = d /\ 1000 <= year d.
Proof.
  intros Hv Hv'. split.
  - intros E. destruct (Z.lt_ge_cases (year d') 1000) as [Hlt|Hge].
    + pose proof (strptime_iso_string d Hv) as Hread. rewrite <- E in Hread.
      rewrite strptime_strftime_short in Hread; [done|].
      destruct (valid_date_bounds d' Hv'). lia.
    + pose proof (strptime_iso_string d Hv) as Hread. rewrite <- E in Hread.
      rewrite strptime_strftime in Hread by done. injection Hread as ->.
      done.
  - intros [-> Hy]. by apply strftime_iso_string.
Qed.

Lemma sall_impl (p q : ascii -> bool) (s : string) :
  (forall c, p c = true -> q c = true) -> sall p s = true -> sall q s = true.
Proof.
  intros Hpq. induction s as [|c s IH]; [done|]. simpl.
  intros [Hc Hs]%andb_true_iff. by rewrite (Hpq c Hc), IH.
Qed.

Lemma sall_app (p : ascii -> bool) (s t : string) :
  sall p (s +:+ t) = sall p s && sall p t.
Proof.
  induction s as [|c s IH]; [done|]. rewrite app_cons. simpl.
  by rewrite IH, andb_assoc.
Qed.

Lemma fmt2_iso (n : Z) : 0 <= n <= 99 -> sall iso_char (fmt2 n) = true.
Proof.
  intros Hn. unfold fmt2, iso_char. simpl.
  destruct (digit_char_digit (n / 10)) as [-> _];
    [Z.div_mod_to_equations; lia|].
  destruct (digit_char_digit (n mod 10)) as [-> _];
    [Z.div_mod_to_equations; lia|]. done.
Qed.

Lemma fmt4_iso (n : Z) : 0 <= n <= 9999 -> sall iso_char (fmt4 n) = true.
Proof.
  intros Hn. unfold fmt4. cbn [sall].
  rewrite fmt2_iso by (Z.div_mod_to_equations; lia).
  unfold iso_char.
  destruct (digit_char_digit (n / 1000)) as [-> _];
    [Z.div_mod_to_equations; lia|].
  destruct (digit_char_digit (n / 100 mod 10)) as [-> _];
    [Z.div_mod_to_equations; lia|]. done.
Qed.

Lemma fmt_year_iso (n : Z) :
  0 <= n <= 9999 -> sall iso_char (fmt_year n) = true.
Proof.
  intros Hn. unfold fmt_year.
  destruct (Z.ltb_spec n 10); [|destruct (Z.ltb_spec n 100);
    [|destruct (Z.ltb_spec n 1000)]].
  - cbn [sall]. unfold iso_char.
    destruct (digit_char_digit n) as [-> _]; [lia|done].
  - apply fmt2_iso. lia.
  - cbn [sall]. rewrite fmt2_iso by (Z.div_mod_to_equations; lia).
    unfold iso_char.
    destruct (digit_char_digit (n / 100)) as [-> _];
      [Z.div_mod_to_equations; lia|done].
  - by apply fmt4_iso.
Qed.

Lemma strftime_iso_chars (d : date) :
  valid_date d = true -> sall iso_char (strftime_ymd d) = true.
Proof.
  intros Hv. destruct (valid_date_bounds d Hv) as (Hy & Hm & _ & Hd).
  rewrite strftime_ymd_unfold, sall_app. cbn [sall]. rewrite sall_app.
  cbn [sall]. rewrite fmt_year_iso, !fmt2_iso by lia. done.
Qed.

Lemma iso_string_chars (d : date) :
  valid_date d = true -> sall iso_char (iso_string d) = true.
Proof.
  intros Hv. destruct (valid_date_bounds d Hv) as (Hy & Hm & _ & Hd).
  rewrite iso_string_unfold, sall_app. cbn [sall]. rewrite sall_app.
  cbn [sall]. rewrite fmt4_iso, !fmt2_iso by lia. done.
Qed.

Lemma iso_char_plain (c : ascii) :
  iso_char c = true ->
  is_space c = false /\ is_not "(" c = true /\ is_not "." c = true.
Proof. destruct c as [[] [] [] [] [] [] [] []]; by vm_compute. Qed.

(** ** The cleaning of a date label *)

Lemma sub_parens_id (s : string) :
  sall (is_not "(") s = true -> sub_parens s = s.
Proof.
  unfold sub_parens. induction s as [|c s IH]; [done|]. simpl.
  intros [Hc Hs]%andb_true_iff. unfold is_not in Hc.
  apply negb_true_iff in Hc. rewrite Hc. simpl. by rewrite IH.
Qed.

Lemma rstrip_by_id (p : ascii -> bool) (s : string) :
  sall (fun c => negb (p c)) s = true -> rstrip_by p s = s.
Proof.
  induction s as [|c s IH]; [done|]. simpl.
  intros [Hc Hs]%andb_true_iff. rewrite IH by done.
  apply negb_true_iff in Hc. rewrite Hc. by destruct s.
Qed.

Lemma strip_id (s : string) :
  sall (fun c => negb (is_space c)) s = true -> strip s = s.
Proof.
  intros Hs. unfold strip.
  assert (lstrip s = s) as ->; [|by apply rstrip_by_id].
  destruct s as [|c s]; [done|]. simpl in *.
  apply andb_true_iff in Hs as [Hc _]. apply negb_true_iff in Hc.
  by rewrite Hc.
Qed.

Lemma sub_word_period_from_id (prev : bool) (s : string) :
  sall (is_not ".") s = true -> sub_word_period_from prev s = s.
Proof.
  revert prev. induction s as [|c s IH]; intros prev; [done|]. simpl.
  intros [Hc Hs]%andb_true_iff. unfold is_not in Hc.
  apply negb_true_iff in Hc. rewrite Hc, andb_false_r. by rewrite IH.
Qed.

(** A canonical date goes through the cleaning unchanged. *)
Lemma clean_label_iso (s : string) :
  sall iso_char s = true -> clean_label s = s.
Proof.
  intros Hs. unfold clean_label.
  rewrite sub_parens_id by (eapply sall_impl; [|done]; apply iso_char_plain).
  rewrite strip_id.
  - apply sub_word_period_from_id.
    eapply sall_impl; [|done]. apply iso_char_plain.
  - eapply sall_impl; [|done]. intros c Hc.
    by destruct (iso_char_plain c Hc) as (-> & _).
Qed.

(** ** The pattern of the scan for the row of dates *)

Lemma digit_val_digit (c : ascii) :
  is_digit c = true -> 0 <= digit_val c <= 9 /\ digit_char (digit_val c) = c.
Proof.
  destruct c as [[] [] [] [] [] [] [] []]; vm_compute; intros Hc;
    try discriminate Hc; (split; [split; discriminate|reflexivity]).
Qed.

(** The alternatives [20\d{2}] and [19\d{2}] match the four digits of a
    year from 1900 to 2099. *)
Lemma year_at_spec (s : string) :
  year_at s = true <->
  exists y post, 1900 <= y <= 2099 /\ s = fmt4 y +:+ post.
Proof.
  split.
  - destruct s as [|c1 [|c2 [|c3 [|c4 post]]]]; try done. simpl.
    intros [[Hc Hc3]%andb_true_iff Hc4]%andb_true_iff.
    destruct (digit_val_digit c3 Hc3) as [H3 E3].
    destruct (digit_val_digit c4 Hc4) as [H4 E4].
    apply orb_true_iff in Hc as [[E1 E2]%andb_true_iff|[E1 E2]%andb_true_iff];
      apply Ascii.eqb_eq in E1, E2; subst c1 c2.
    + exists (2000 + 10 * digit_val c3 + digit_val c4), post.
      split; [lia|]. unfold fmt4, fmt2. rewrite !app_cons, app_nil_l'.
      set (y := 2000 + 10 * digit_val c3 + digit_val c4).
      replace (y / 1000) with 2 by (unfold y; Z.div_mod_to_equations; lia).
      replace (y / 100 mod 10) with 0
        by (unfold y; Z.div_mod_to_equations; lia).
      replace (y mod 100 / 10) with (digit_val c3)
        by (unfold y; Z.div_mod_to_equations; lia).
      replace (y mod 100 mod 10) with (digit_val c4)
        by (unfold y; Z.div_mod_to_equations; lia).
      by rewrite E3, E4.
    + exists (1900 + 10 * digit_val c3 + digit_val c4), post.
      split; [lia|]. unfold fmt4, fmt2. rewrite !app_cons, app_nil_l'.
      set (y := 1900 + 10 * digit_val c3 + digit_val c4).
      replace (y / 1000) with 1 by (unfold y; Z.div_mod_to_equations; lia).
      replace (y / 100 mod 10) with 9
        by (unfold y; Z.div_mod_to_equations; lia).
      replace (y mod 100 / 10) with (digit_val c3)
        by (unfold y; Z.div_mod_to_equations; lia).
      replace (y mod 100 mod 10) with (digit_val c4)
        by (unfold y; Z.div_mod_to_equations; lia).
      by rewrite E3, E4.
  - intros (y & post & Hy & ->). unfold fmt4, fmt2.
    rewrite !app_cons, app_nil_l'. simpl.
    destruct (digit_char_digit (y mod 100 / 10)) as [-> _];
      [Z.div_mod_to_equations; lia|].
    destruct (digit_char_digit (y mod 100 mod 10)) as [-> _];
      [Z.div_mod_to_equations; lia|].
    destruct (Z.lt_ge_cases y 2000).
    + replace (y / 1000) with 1 by (Z.div_mod_to_equations; lia).
      replace (y / 100 mod 10) with 9 by (Z.div_mod_to_equations; lia).
      reflexivity.
    + replace (y / 1000) with 2 by (Z.div_mod_to_equations; lia).
      replace (y / 100 mod 10) with 0 by (Z.div_mod_to_equations; lia).
      reflexivity.
Qed.

Lemma dateish_at_spec (s : string) :
  dateish_at s = true <->
  (exists y post, 1900 <= y <= 2099 /\ s = fmt4 y +:+ post) \/
  (exists m, m ∈ month_abbrevs /\ is_prefix m (lower s)).
Proof.
  unfold dateish_at. rewrite orb_true_iff, year_at_spec, existsb_exists.
  split; (intros [Hy|(m & Hm & Hp)]; [by left|right; exists m]).
  - split; [by apply list_elem_of_In|by apply prefix_spec].
  - split; [by apply list_elem_of_In|by apply prefix_spec].
Qed.

(** A string is date-like when it contains a year from 1900 to 2099 or,
    whatever the case of its letters, the first three letters of the name
    of a month. *)
Lemma dateish_spec (s : string) :
  dateish s = true <->
  exists pre rest,
    s = pre +:+ rest /\
    ((exists y post, 1900 <= y <= 2099 /\ rest = fmt4 y +:+ post) \/
     (exists m, m ∈ month_abbrevs /\ is_prefix m (lower rest))).
Proof.
  induction s as [|c s IH]; cbn [dateish]; rewrite orb_true_iff.
  - rewrite dateish_at_spec. split.
    + intros [H|?]; [|done]. by exists "", "".
    + intros (pre & rest & Heq & H). left.
      destruct pre; [|done]. rewrite app_nil_l' in Heq. by subst rest.
  - rewrite dateish_at_spec, IH. split.
    + intros [H|(pre & rest & -> & H)].
      * by exists "", (String c s).
      * exists (String c pre), rest. by rewrite app_cons.
    + intros (pre & rest & Heq & H). destruct pre as [|c' pre].
      * left. rewrite app_nil_l' in Heq. by subst rest.
      * right. rewrite app_cons in Heq. simplify_eq. by exists pre, rest.
Qed.

(** ** Step 3: the override of sections *)

Lemma adjust_section_row (row : Row) :
  type row <> "line" -> adjust_line_section row = section_name row.
Proof.
  intros Hty. unfold adjust_line_section.
  destruct (String.eqb_spec (type row) "line"); [done|reflexivity].
Qed.

Lemma adjust_not_reclassified (row : Row) :
  reclassified (line_label row) = false ->
  adjust_line_section row = section_name row.
Proof.
  unfold reclassified, adjust_line_section. intros H.
  apply orb_false_elim in H as [H ->]. rewrite H.
  by destruct (negb _).
Qed.

(** C6. For a line row the override returns "Current liabilities" when the
    lower-cased label contains "accounts payable" or "accrued and other
    current liabilities", whatever the section; otherwise "Post-Statement"
    when the lower-cased label starts with "common stock, $0.01 par value";
    otherwise the section of the row. For a row that is not a line it
    returns the section of the row. *)
Theorem adjust_line_section_rules :
  (forall row, type row <> "line" ->
     adjust_line_section row = section_name row) /\
  (forall row, type row = "line" ->
     let l := lower (line_label row) in
     let payable :=
       is_substring "accounts payable" l \/
       is_substring "accrued and other current liabilities" l in
     let stock := is_prefix "common stock, $0.01 par value" l in
     (payable -> adjust_line_section row = "Current liabilities") /\
     (~ payable -> stock -> adjust_line_section row = "Post-Statement") /\
     (~ payable -> ~ stock -> adjust_line_section row = section_name row)) /\
  adjust_line_section
    (mkRow "line" "LONG-TERM LIABILITIES"
       "Accrued and other current liabilities" [])
  = "Current liabilities".
Proof.
  split; [exact adjust_section_row|]. split; [|reflexivity].
  intros row Hty l payable stock. unfold adjust_line_section.
  rewrite Hty. change (negb ("line" =? "line")%string) with false.
  cbv iota. fold l.
  assert (Hp : contains "accounts payable" l
               || contains "accrued and other current liabilities" l = true
               <-> payable).
  { unfold payable. by rewrite orb_true_iff, !contains_spec. }
  assert (Hs : startswith "common stock, $0.01 par value" l = true <-> stock).
  { apply startswith_spec. }
  destruct (contains "accounts payable" l
            || contains "accrued and other current liabilities" l).
  - split; [done|]. split; intros Hn; destruct Hn; by apply Hp.
  - assert (~ payable) by (intros ?%Hp; done).
    destruct (startswith "common stock, $0.01 par value" l).
    + split; [done|]. split; [done|]. intros _ Hn. destruct Hn. by apply Hs.
    + split; [done|]. split; [|done]. intros _ ?%Hs. done.
Qed.

(** ** Step 4: the frame *)

Lemma pad_row_length (w : nat) (r : list cell) :
  (length r <= w)%nat -> length (pad_row w r) = w.
Proof.
  intros Hle. unfold pad_row. rewrite length_app, length_replicate. lia.
Qed.

Lemma df_rows_width (df : DataFrame) (r : list cell) :
  r ∈ df_rows df -> length r = shape1 df.
Proof.
  unfold df_rows. intros (r0 & -> & Hin)%list_elem_of_fmap.
  apply pad_row_length. unfold shape1. apply max_list_elem_of_le.
  apply list_elem_of_fmap. by exists r0.
Qed.

Lemma df_rows_nonempty (df : DataFrame) :
  (2 <= shape1 df)%nat -> Forall (fun r => r <> []) (df_rows df).
Proof.
  intros Hw. apply Forall_forall. intros r Hr%df_rows_width Hnil.
  subst r. simpl in Hr. lia.
Qed.

Lemma extract_unfold (df : DataFrame) :
  df_empty df = false -> (2 <= shape1 df)%nat ->
  extract_line_items_with_sections df
  = segment_rows (date_labels_of df) (S (date_row_index df)) (data_rows df) "".
Proof.
  intros He Hw. unfold extract_line_items_with_sections. rewrite He.
  destruct (Nat.ltb_spec (shape1 df) 2); [lia|done].
Qed.

Lemma list_find_iff {A} (P Q : A -> Prop) `{!forall x, Decision (P x)}
    `{!forall x, Decision (Q x)} (l : list A) :
  (forall x, x ∈ l -> P x <-> Q x) -> list_find P l = list_find Q l.
Proof.
  induction l as [|x l IH]; intros HPQ; [done|]. simpl.
  assert (P x <-> Q x) as Hx by (apply HPQ; by left).
  rewrite IH by (intros y Hy; apply HPQ; by right).
  destruct (decide (P x)), (decide (Q x)); tauto.
Qed.

(** C2, as amended. The row of dates is the first of the first three rows
    (at most) whose count of date-like cells is at least the number of
    cells of the row halved and rounded down, and row 0 when there is no
    such row; the labels of that row are the date labels and the rows
    below it are segmented. When the number of columns is even, this is
    the row selected with the exact half. A cell counts as date-like when
    its text contains a year from 1900 to 2099 or, in any case, the
    abbreviation of a month. *)
Theorem date_row_index_floor (df : DataFrame) :
  df_empty df = false -> (2 <= shape1 df)%nat ->
  let first3 := take 3 (df_rows df) in
  let idx := date_row_index df in
  ((exists r, first3 !! idx = Some r /\
      (length r / 2 <= date_count r)%nat /\
      forall j r', first3 !! j = Some r' -> (j < idx)%nat ->
        ~ (length r' / 2 <= date_count r')%nat)
   \/ (idx = 0%nat /\
       forall j r', first3 !! j = Some r' ->
         ~ (length r' / 2 <= date_count r')%nat))
  /\ extract_line_items_with_sections df
     = segment_rows ((fun x => strip (or_empty x)) <$> (df_rows df !!! idx))
         (S idx) (drop (S idx) (df_rows df)) ""
  /\ (Nat.Even (shape1 df) -> idx = date_row_index_half df)
  /\ (forall r, date_count r = count_if (fun x => dateish (py_str x)) r)
  /\ (forall s,
        dateish s = true <->
        exists pre rest,
          s = pre +:+ rest /\
          ((exists y post, 1900 <= y <= 2099 /\ rest = fmt4 y +:+ post) \/
           (exists m, m ∈ month_abbrevs /\ is_prefix m (lower rest)))).
Proof.
  intros He Hw first3 idx.
  split; [|split; [by apply extract_unfold|split;
                   [|split; [done|exact dateish_spec]]]].
  2:{ intros [k Hk]. unfold idx, date_row_index, date_row_index_half.
      rewrite (list_find_iff is_date_row is_date_row_half); [done|].
      intros r (i & Hi & _)%elem_of_take.
      apply list_elem_of_lookup_2, df_rows_width in Hi as Hr.
      unfold is_date_row, is_date_row_half. rewrite Hr, Hk.
      rewrite (Nat.mul_comm 2 k), Nat.div_mul by done. lia. }
  unfold idx, date_row_index. fold first3.
  destruct (list_find is_date_row first3) as [[i r]|] eqn:Hfind.
  - left. apply list_find_Some in Hfind as (Hi & Hr & Hbefore).
    exists r. repeat split; [done..|]. intros j r' Hj Hlt. by eapply Hbefore.
  - right. split; [done|]. intros j r' Hj.
    eapply list_find_None in Hfind. rewrite Forall_forall in Hfind.
    apply Hfind. by eapply list_elem_of_lookup_2.
Qed.

Lemma date_row_index_floor_witness :
  extract_line_items_with_sections title_table
  = segment_rows ["Balance Sheets"; "USD"; "2024"] 1
      [ [Some ""; Some "Mar. 31, 2024"; Some "Dec. 31, 2023"];
        [Some "Cash"; Some "100"; Some "120"] ] "".
Proof.
  assert (He : df_empty title_table = false) by reflexivity.
  assert (Hw : (2 <= shape1 title_table)%nat) by (vm_compute; lia).
  exact (proj1 (proj2 (date_row_index_floor title_table He Hw))).
Defined.

(** C2, as stated, fails: with three cells and one date-like cell, the
    first row of [title_table] is selected by the code (1 >= 3 // 2) but
    does not reach half of its cell count; the second row does. *)
Lemma date_row_index_not_half :
  date_row_index title_table = 0%nat /\
  date_row_index_half title_table = 1%nat /\
  ~ is_date_row_half (df_rows title_table !!! 0%nat) /\
  is_date_row_half (df_rows title_table !!! 1%nat).
Proof.
  repeat split; try reflexivity; unfold is_date_row_half; vm_compute; lia.
Qed.

(** ** Step 4: the loop over the rows *)

Lemma segment_rows_app labels i pre rest cs :
  segment_rows labels i (pre ++ rest) cs
  = segment_rows labels i pre cs
    ++ segment_rows labels (i + length pre) rest (section_after pre cs).
Proof.
  revert i cs. induction pre as [|r pre IH]; intros i cs; simpl.
  - by rewrite Nat.add_0_r.
  - destruct r as [|c r].
    + rewrite IH. do 2 f_equal. lia.
    + destruct (is_heading (c :: r)); simpl; rewrite IH; do 3 f_equal; lia.
Qed.

Lemma segment_rows_length labels i rows cs :
  Forall (fun r => r <> []) rows ->
  length (segment_rows labels i rows cs) = length rows.
Proof.
  intros Hne. revert i cs.
  induction Hne as [|r rows Hr _ IH]; intros i cs; simpl; [done|].
  destruct r as [|c r]; [done|].
  destruct (is_heading (c :: r)); simpl; by rewrite IH.
Qed.

Lemma segment_rows_heading labels i r rest cs :
  r <> [] -> is_heading r = true ->
  segment_rows labels i (r :: rest) cs
  = section_row (rstrip_colon (label_of r))
    :: segment_rows labels (S i) rest (rstrip_colon (label_of r)).
Proof. intros Hne Hh. destruct r; [done|]. simpl. by rewrite Hh. Qed.

Lemma segment_rows_lines labels i lines rest cs :
  Forall (fun l => l <> [] /\ is_heading l = false) lines ->
  segment_rows labels i (lines ++ rest) cs
  = imap (fun k l => line_row labels cs (i + k) l) lines
    ++ segment_rows labels (i + length lines) rest cs.
Proof.
  intros Hl. revert i.
  induction Hl as [|l lines [Hne Hh] _ IH]; intros i; simpl.
  - by rewrite Nat.add_0_r.
  - destruct l as [|c l]; [done|]. rewrite Hh, Nat.add_0_r. f_equal.
    rewrite IH. f_equal.
    + apply imap_ext. intros k x _. simpl. f_equal. lia.
    + f_equal. lia.
Qed.

Lemma sfilter_upper_alpha (s : string) :
  sfilter is_upper (sfilter is_alpha s) = sfilter is_upper s.
Proof.
  induction s as [|c s IH]; [done|]. simpl.
  destruct (is_alpha c) eqn:Ha; simpl.
  - destruct (is_upper c); by rewrite IH.
  - unfold is_alpha in Ha. apply orb_false_elim in Ha as [-> _]. done.
Qed.

Lemma line_row_type labels cs i l : type (line_row labels cs i l) = "line".
Proof. reflexivity. Qed.

Lemma line_row_section labels cs i l :
  section_name (line_row labels cs i l)
  = if reclassified (line_label (line_row labels cs i l)) then
      adjust_line_section
        (mkRow "line" cs (line_label (line_row labels cs i l)) [])
    else cs.
Proof.
  unfold line_row at 1. cbn [section_name].
  set (row := mkRow _ _ _ _).
  change (line_label (line_row labels cs i l)) with (line_label row).
  destruct (reclassified (line_label row)) eqn:Hre.
  - reflexivity.
  - by rewrite adjust_not_reclassified.
Qed.

(** C3, as amended. A data row with at most two non-blank cells whose
    trimmed first cell is more than 70% upper case among its letters, or
    ends with a colon, yields a section row named after that cell without
    its trailing colons. The line rows below it, up to the next heading,
    carry that name as their section unless their label triggers a rule of
    the override of step 3, in which case they carry the section that the
    rule gives. In [sample_table] the rows are the section "CURRENT ASSETS"
    and the line "Cash" of that section with its two values. *)
Theorem section_heading_inherited :
  (forall df pre r lines rest,
     df_empty df = false -> (2 <= shape1 df)%nat ->
     data_rows df = pre ++ r :: lines ++ rest ->
     (count_if non_blank r <= 2)%nat ->
     (7 * String.length (sfilter is_alpha (label_of r))
        < 10 * String.length (sfilter is_upper (label_of r)))%nat
       \/ is_suffix ":" (label_of r) ->
     Forall (fun l => is_heading l = false) lines ->
     let name := rstrip_colon (label_of r) in
     let out := extract_line_items_with_sections df in
     out !! length pre = Some (section_row name) /\
     forall k l, lines !! k = Some l ->
       exists row,
         out !! (length pre + 1 + k)%nat = Some row /\
         row = line_row (date_labels_of df) name
                 (S (date_row_index df) + length pre + 1 + k) l /\
         type row = "line" /\
         (reclassified (line_label row) = false -> section_name row = name) /\
         (reclassified (line_label row) = true ->
            section_name row = "Current liabilities"
            \/ section_name row = "Post-Statement")) /\
  extract_line_items_with_sections sample_table
  = [ section_row "CURRENT ASSETS";
      mkRow "line" "CURRENT ASSETS" "Cash"
        [("Mar. 31, 2024", "100"); ("Dec. 31, 2023", "120")] ].
Proof.
  split; [|reflexivity].
  intros df pre r lines rest He Hw Hrows Hcount Hlabel Hlines name out.
  assert (Hne : Forall (fun r => r <> []) (pre ++ r :: lines ++ rest)).
  { rewrite <- Hrows. unfold data_rows. apply Forall_drop.
    by apply df_rows_nonempty. }
  apply Forall_app in Hne as [Hpre Hne].
  apply Forall_cons in Hne as [Hr Hne].
  apply Forall_app in Hne as [Hlines' _].
  assert (Hh : is_heading r = true).
  { unfold is_heading. apply andb_true_iff. split.
    - by apply Nat.leb_le.
    - apply orb_true_iff. destruct Hlabel as [Hcaps|Hcolon].
      + left. unfold mostly_caps.
        pose proof (sfilter_upper_alpha (label_of r)) as Hup.
        rewrite Hup.
        destruct (String.eqb_spec (sfilter is_alpha (label_of r)) "") as [E|_].
        * rewrite E in Hcaps. simpl in Hcaps.
          assert (String.length (sfilter is_upper (label_of r)) = 0)%nat
            by (by rewrite <- Hup, E). lia.
        * apply Z.ltb_lt. lia.
      + right. by apply endswith_spec. }
  assert (Hout : out
    = segment_rows (date_labels_of df) (S (date_row_index df)) pre ""
      ++ section_row name
      :: imap (fun k l => line_row (date_labels_of df) name
                 (S (date_row_index df) + length pre + 1 + k) l) lines
      ++ segment_rows (date_labels_of df)
           (S (date_row_index df) + length pre + 1 + length lines) rest name).
  { unfold out. rewrite extract_unfold, Hrows by done.
    rewrite segment_rows_app. f_equal.
    rewrite segment_rows_heading by done. fold name. f_equal.
    rewrite segment_rows_lines.
    - f_equal; [|f_equal; lia]. apply imap_ext. intros k x _. simpl.
      f_equal. lia.
    - apply Forall_forall. intros l Hl. split.
      + rewrite Forall_forall in Hlines'. by apply Hlines'.
      + rewrite Forall_forall in Hlines. by apply Hlines. }
  assert (Hlen : length (segment_rows (date_labels_of df)
                           (S (date_row_index df)) pre "") = length pre)
    by (by apply segment_rows_length).
  split.
  - rewrite Hout, lookup_app_r by lia. by rewrite Hlen, Nat.sub_diag.
  - intros k l Hk. eexists. split; [|split; [reflexivity|]].
    + rewrite Hout, lookup_app_r by lia. rewrite Hlen.
      replace (length pre + 1 + k - length pre)%nat with (S k) by lia.
      simpl. rewrite lookup_app_l.
      * by rewrite list_lookup_imap, Hk.
      * rewrite length_imap. by eapply lookup_lt_Some.
    + split; [apply line_row_type|]. rewrite line_row_section.
      set (lbl := line_label _). split; intros Hre; rewrite Hre; [done|].
      unfold adjust_line_section. cbn [type line_label section_name].
      change (negb ("line" =? "line")%string) with false. cbv iota.
      unfold reclassified in Hre.
      destruct (contains "accounts payable" (lower lbl)
                || contains "accrued and other current liabilities"
                     (lower lbl)); [by left|].
      rewrite orb_false_l in Hre. rewrite Hre. by right.
Qed.

Lemma section_heading_inherited_witness :
  extract_line_items_with_sections sample_table !! 0%nat
  = Some (section_row "CURRENT ASSETS").
Proof.
  assert (He : df_empty sample_table = false) by reflexivity.
  assert (Hw : (2 <= shape1 sample_table)%nat) by (vm_compute; lia).
  assert (Hrows : data_rows sample_table
                  = [] ++ [Some "CURRENT ASSETS:"; Some ""; Some ""]
                    :: [[Some "Cash"; Some "100"; Some "120"]] ++ [])
    by reflexivity.
  assert (Hcount : (count_if non_blank
                      [Some "CURRENT ASSETS:"; Some ""; Some ""] <= 2)%nat)
    by (vm_compute; lia).
  assert (Hlabel :
    (7 * String.length (sfilter is_alpha
           (label_of [Some "CURRENT ASSETS:"; Some ""; Some ""]))
     < 10 * String.length (sfilter is_upper
           (label_of [Some "CURRENT ASSETS:"; Some ""; Some ""])))%nat
    \/ is_suffix ":" (label_of [Some "CURRENT ASSETS:"; Some ""; Some ""])).
  { left. vm_compute. lia. }
  assert (Hlines : Forall (fun l => is_heading l = false)
                     [[Some "Cash"; Some "100"; Some "120"]])
    by (repeat constructor).
  exact (proj1 (proj1 section_heading_inherited sample_table _ _ _ _
                  He Hw Hrows Hcount Hlabel Hlines)).
Defined.

(** C3, as stated, fails: the line "Accounts payable" under the heading
    "CURRENT ASSETS:" does not inherit that section, the override of
    step 3 moves it to "Current liabilities". *)
Lemma section_not_inherited_when_reclassified :
  extract_line_items_with_sections payable_table !! 0%nat
    = Some (section_row "CURRENT ASSETS") /\
  exists row,
    extract_line_items_with_sections payable_table !! 1%nat = Some row /\
    type row = "line" /\ line_label row = "Accounts payable" /\
    section_name row = "Current liabilities" /\
    section_name row <> "CURRENT ASSETS".
Proof.
  split; [reflexivity|]. eexists. split; [reflexivity|].
  repeat split. discriminate.
Qed.

Lemma sub_parens_from_keep (base rest : string) :
  sall (is_not "(") base = true ->
  sub_parens_from false (base +:+ rest) = base +:+ sub_parens_from false rest.
Proof.
  induction base as [|c base IH]; [done|]. rewrite !app_cons. simpl.
  intros [Hc Hs]%andb_true_iff. unfold is_not in Hc.
  apply negb_true_iff in Hc. rewrite Hc. simpl. by rewrite IH.
Qed.

Lemma group_closes_note (note rest : string) :
  sall (fun c => is_not ")" c && is_not "010" c) note = true ->
  group_closes (note +:+ String ")" rest) = true /\
  sub_parens_from true (note +:+ String ")" rest) = sub_parens_from false rest.
Proof.
  induction note as [|c note IH]; [done|]. rewrite !app_cons. simpl.
  intros [[Hc1 Hc2]%andb_true_iff Hs]%andb_true_iff. unfold is_not in *.
  apply negb_true_iff in Hc1, Hc2. rewrite Hc1, Hc2. simpl. by apply IH.
Qed.

(** A parenthesised group without an inner closing parenthesis or line
    feed is dropped. *)
Lemma sub_parens_group (base note rest : string) :
  sall (is_not "(") base = true ->
  sall (fun c => is_not ")" c && is_not "010" c) note = true ->
  sub_parens (base +:+ String "(" (note +:+ String ")" rest))
  = base +:+ sub_parens rest.
Proof.
  intros Hbase Hnote. unfold sub_parens.
  rewrite sub_parens_from_keep by done. f_equal. simpl.
  destruct (group_closes_note note rest Hnote) as [-> ->]. done.
Qed.

Lemma ends_in_cons (p : ascii -> bool) (c : ascii) (s : string) :
  ends_in p (String c s)
  = match s with EmptyString => p c | _ => ends_in p s end.
Proof. by destruct s. Qed.

Lemma sub_word_period_from_keep (prev : bool) (w rest : string) :
  sall (is_not ".") w = true ->
  sub_word_period_from prev (w +:+ rest)
  = w +:+ sub_word_period_from
            (match w with EmptyString => prev | _ => ends_in is_word w end)
            rest.
Proof.
  revert prev. induction w as [|c w IH]; intros prev; [done|].
  rewrite !app_cons. cbn [sub_word_period_from sall].
  intros [Hc Hs]%andb_true_iff. unfold is_not in Hc.
  apply negb_true_iff in Hc. rewrite Hc, andb_false_r.
  rewrite IH by done. by rewrite ends_in_cons.
Qed.

(** The period that follows a word is dropped, and only that one. *)
Lemma sub_word_period_token (w rest : string) :
  sall (is_not ".") w = true -> ends_in is_word w = true ->
  sub_word_period (w +:+ String "." rest) = w +:+ sub_word_period rest.
Proof.
  intros Hw Hend. unfold sub_word_period.
  rewrite sub_word_period_from_keep by done. f_equal.
  destruct w as [|c w]; [done|]. by rewrite Hend.
Qed.

Lemma sub_parens_unclosed (base rest : string) :
  sall (is_not "(") base = true -> group_closes rest = false ->
  sub_parens (base +:+ String "(" rest) = base +:+ String "(" (sub_parens rest).
Proof.
  intros Hbase Hrest. unfold sub_parens.
  rewrite sub_parens_from_keep by done. f_equal. simpl. by rewrite Hrest.
Qed.

Lemma sub_word_period_other (w rest : string) :
  sall (is_not ".") w = true -> ends_in is_word w = false ->
  sub_word_period (w +:+ String "." rest)
  = w +:+ String "." (sub_word_period rest).
Proof.
  intros Hw Hend. unfold sub_word_period.
  rewrite sub_word_period_from_keep by done. f_equal.
  destruct w as [|c w]; [done|]. by rewrite Hend.
Qed.


(** ** Loops, keys and writes *)

Lemma for_each_app {S A} (body : S -> A -> exc S) (st : S) (l1 l2 : list A) :
  for_each body st (l1 ++ l2)
  = st' ← for_each body st l1; for_each body st' l2.
Proof.
  revert st. induction l1 as [|x l1 IH]; intros st; simpl; [done|].
  destruct (body st x) as [st'|e]; simpl; [apply IH|done].
Qed.

Lemma for_each_bind {S A B} (body : S -> B -> exc S) (f : A -> list B)
    (st : S) (l : list A) :
  for_each (fun st x => for_each body st (f x)) st l
  = for_each body st (l ≫= f).
Proof.
  revert st. induction l as [|x l IH]; intros st; [done|].
  rewrite bind_cons, for_each_app. simpl.
  destruct (for_each body st (f x)); simpl; [apply IH|done].
Qed.

Lemma for_each_fmap {S A B} (body : S -> B -> exc S) (f : A -> B)
    (st : S) (l : list A) :
  for_each body st (f <$> l) = for_each (fun st x => body st (f x)) st l.
Proof.
  revert st. induction l as [|x l IH]; intros st; simpl; [done|].
  destruct (body st (f x)); simpl; [apply IH|done].
Qed.

Lemma for_each_ext {S A} (f g : S -> A -> exc S) (st : S) (l : list A) :
  (forall st x, f st x = g st x) -> for_each f st l = for_each g st l.
Proof.
  intros Hfg. revert st. induction l as [|x l IH]; intros st; simpl; [done|].
  rewrite Hfg. destruct (g st x); simpl; [apply IH|done].
Qed.

Lemma all_keys_flat all_statements :
  all_keys all_statements
  = (fun fr => row_key fr.2) <$> dated_rows all_statements.
Proof.
  unfold all_keys, dated_rows.
  induction all_statements as [|s l IH]; [done|].
  rewrite !bind_cons, fmap_app, IH. f_equal. by rewrite <- list_fmap_compose.
Qed.

Lemma dated_flat all_statements :
  dated all_statements ->
  Forall (fun fr => is_Some (strptime_ymd fr.1)) (dated_rows all_statements).
Proof.
  unfold dated, dated_rows. induction 1 as [|s l Hs _ IH]; [constructor|].
  rewrite bind_cons. apply Forall_app. split; [|done].
  apply Forall_fmap, Forall_forall. by intros r _.
Qed.

Lemma dict_get_keys (k : string) (d : dict) :
  k ∈ dict_keys d -> is_Some (dict_get k d).
Proof.
  unfold dict_keys. induction d as [|[k' v'] d IH]; simpl.
  - by intros ?%elem_of_nil.
  - intros [->|Hin]%elem_of_cons.
    + by rewrite String.eqb_refl.
    + destruct (String.eqb k k'); [done|by apply IH].
Qed.

(** ** The order of the rows *)

Lemma elem_of_first_occurrences (k : Key) (ks : list Key) :
  k ∈ first_occurrences ks <-> k ∈ ks.
Proof.
  induction ks as [|k' ks IH]; simpl; [done|].
  rewrite !elem_of_cons, list_elem_of_filter, IH.
  destruct (decide (k = k')); tauto.
Qed.

Lemma NoDup_first_occurrences (ks : list Key) : NoDup (first_occurrences ks).
Proof.
  induction ks as [|k ks IH]; simpl; [constructor|].
  constructor; [|by apply NoDup_filter].
  rewrite list_elem_of_filter. tauto.
Qed.

Lemma first_occurrences_app (ks1 ks2 : list Key) :
  first_occurrences (ks1 ++ ks2)
  = first_occurrences ks1
    ++ filter (fun k => k ∉ ks1) (first_occurrences ks2).
Proof.
  induction ks1 as [|k ks1 IH]; simpl.
  - symmetry. induction (first_occurrences ks2) as [|x l IHl]; [done|].
    rewrite filter_cons_True by apply not_elem_of_nil. by rewrite IHl.
  - f_equal. rewrite IH, filter_app. f_equal.
    rewrite list_filter_filter. apply list_filter_iff.
    intros x. rewrite not_elem_of_cons. tauto.
Qed.

Lemma NoDup_split_unique {A} (x : A) (a b a' b' : list A) :
  NoDup (a ++ x :: b) -> a ++ x :: b = a' ++ x :: b' -> a = a' /\ b = b'.
Proof.
  revert a'. induction a as [|y a IH]; intros a' Hnd Heq.
  - destruct a' as [|y' a']; simpl in *; [by simplify_eq|].
    simplify_eq. apply NoDup_cons in Hnd as [Hx _]. destruct Hx.
    apply elem_of_app. right. by left.
  - destruct a' as [|y' a']; simpl in *; simplify_eq.
    + apply NoDup_cons in Hnd as [Hy _]. destruct Hy.
      apply elem_of_app. right. by left.
    + apply NoDup_cons in Hnd as [_ Hnd].
      destruct (IH a' Hnd) as [-> ->]; done.
Qed.

(** In the list of first occurrences, a key that comes before another one
    occurs in [ks] before every occurrence of the other. *)
Lemma first_occurrences_order (ks l1 l2 : list Key) (k1 k2 : Key) :
  first_occurrences ks = l1 ++ k1 :: l2 -> k2 ∈ l2 ->
  exists pre post, ks = pre ++ k1 :: post /\ (k1 ∉ pre) /\ (k2 ∉ pre).
Proof.
  intros Hfo Hk2.
  assert (Hk1 : k1 ∈ ks).
  { apply elem_of_first_occurrences. rewrite Hfo. apply elem_of_app.
    right. by left. }
  destruct (list_elem_of_split_l ks k1 Hk1) as (pre & post & -> & Hpre).
  exists pre, post. split; [done|]. split; [done|].
  rewrite first_occurrences_app in Hfo. simpl in Hfo.
  rewrite filter_cons_True in Hfo by done.
  pose proof (NoDup_first_occurrences (pre ++ k1 :: post)) as Hnd.
  rewrite first_occurrences_app in Hnd. simpl in Hnd.
  rewrite filter_cons_True in Hnd by done.
  destruct (NoDup_split_unique _ _ _ _ _ Hnd Hfo) as [_ <-].
  apply list_elem_of_filter in Hk2 as [Hk2 _]. done.
Qed.

(** The order after one more key. *)
Lemma order_step (acc : list Key) (k : Key) (ks : list Key) :
  let acc1 := if decide (k ∈ acc) then acc else acc ++ [k] in
  acc1 ++ filter (fun x => x ∉ acc1) (first_occurrences ks)
  = acc ++ filter (fun x => x ∉ acc) (first_occurrences (k :: ks)).
Proof.
  simpl. destruct (decide (k ∈ acc)) as [Hin|Hnin].
  - rewrite filter_cons_False by (intros Hn; exact (Hn Hin)). f_equal.
    rewrite list_filter_filter. apply list_filter_iff.
    intros x. split; [|tauto]. intros Hx. split; [done|congruence].
  - rewrite filter_cons_True by done. rewrite <- app_assoc. simpl.
    do 2 f_equal. rewrite list_filter_filter. apply list_filter_iff.
    intros x. rewrite not_elem_of_app, list_elem_of_singleton. tauto.
Qed.

Lemma last_write_app key d ws1 ws2 :
  last_write key d (ws1 ++ ws2)
  = match last_write key d ws2 with
    | Some v => Some v
    | None => last_write key d ws1
    end.
Proof.
  induction ws1 as [|[[k c] v] ws1 IH]; simpl.
  - by destruct (last_write key d ws2).
  - rewrite IH. by destruct (last_write key d ws2).
Qed.

Lemma cell_at_touch st key k d :
  (let data := if decide (is_Some (master_data st !! key)) then master_data st
               else <[key := ∅]> (master_data st) in
   data !! k ≫= (fun m : gmap string string => m !! d)) = cell_at st k d.
Proof.
  simpl. unfold cell_at. case_decide as Hk; [done|].
  destruct (decide (key = k)) as [->|Hne].
  - rewrite lookup_insert_eq. simpl. rewrite lookup_empty.
    apply eq_None_not_Some in Hk. by rewrite Hk.
  - by rewrite lookup_insert_ne.
Qed.

Lemma filter_not_in_nil (l : list Key) : filter (fun k => k ∉ []) l = l.
Proof.
  induction l as [|x l IH]; [done|].
  rewrite filter_cons_True by apply not_elem_of_nil. by rewrite IH.
Qed.

Lemma filter_known (acc l : list Key) :
  (forall k, k ∈ l -> k ∈ acc) -> filter (fun k => k ∉ acc) l = [].
Proof.
  induction l as [|x l IH]; intros Hin; [done|].
  rewrite filter_cons_False.
  - apply IH. intros k Hk. apply Hin. by right.
  - intros Hx. apply Hx, Hin. by left.
Qed.

Lemma last_write_none key d ws :
  (forall v, (key, d, v) ∉ ws) -> last_write key d ws = None.
Proof.
  induction ws as [|[[k c] v] ws IH]; intros Hnone; simpl; [done|].
  rewrite IH.
  - case_decide as Heq; [|done]. destruct Heq as [-> ->].
    destruct (Hnone v). by left.
  - intros v' Hv'. apply (Hnone v'). by right.
Qed.

(** ** The final assembly: the sort of the dates *)

Lemma insert_by_perm {A} (key : A -> Z) (x : A) (l : list A) :
  insert_by key x l ≡ₚ x :: l.
Proof.
  induction l as [|y l IH]; simpl; [done|].
  destruct (key y <? key x); [|done]. rewrite IH. apply perm_swap.
Qed.

Lemma sorted_by_perm {A} (key : A -> Z) (l : list A) : sorted_by key l ≡ₚ l.
Proof.
  induction l as [|x l IH]; simpl; [done|]. by rewrite insert_by_perm, IH.
Qed.

Lemma insert_by_sorted {A} (key : A -> Z) (x : A) (l : list A) :
  StronglySorted (fun a b => key a <= key b) l ->
  StronglySorted (fun a b => key a <= key b) (insert_by key x l).
Proof.
  induction 1 as [|y l Hl IH Hy]; simpl.
  - by repeat constructor.
  - destruct (Z.ltb_spec (key y) (key x)) as [Hlt|Hge].
    + constructor; [done|]. rewrite insert_by_perm.
      constructor; [lia|done].
    + constructor; [by constructor|]. constructor; [lia|].
      eapply Forall_impl; [exact Hy|]. intros z Hz. simpl in Hz. lia.
Qed.

Lemma sorted_by_sorted {A} (key : A -> Z) (l : list A) :
  StronglySorted (fun a b => key a <= key b) (sorted_by key l).
Proof.
  induction l as [|x l IH]; simpl; [constructor|]. by apply insert_by_sorted.
Qed.

Lemma sorted_lookup_le {A} (key : A -> Z) (l : list A) (i j : nat) (a b : A) :
  StronglySorted (fun a b => key a <= key b) l ->
  l !! i = Some a -> l !! j = Some b -> (i < j)%nat -> key a <= key b.
Proof.
  intros Hl. revert i j. induction Hl as [|y l Hl IH Hy]; intros i j Hi Hj Hij.
  - done.
  - destruct j as [|j]; [lia|]. destruct i as [|i]; simpl in *.
    + simplify_eq. rewrite Forall_forall in Hy. apply Hy.
      by eapply list_elem_of_lookup_2.
    + eapply IH; [done..|lia].
Qed.

Lemma strptime_valid (s : string) (d : date) :
  strptime_ymd s = Some d -> valid_date d = true.
Proof.
  unfold strptime_ymd. intros H.
  destruct (re_year s) as [[y s1]|]; simpl in H; [|done].
  destruct (expect_dash s1) as [s2|]; simpl in H; [|done].
  destruct (re_month s2) as [[m s3]|]; simpl in H; [|done].
  destruct (expect_dash s3) as [s4|]; simpl in H; [|done].
  destruct (re_day s4) as [[dd s5]|]; simpl in H; [|done].
  destruct (String.eqb s5 ""); simpl in H; [|done].
  destruct (valid_date (Date y m dd)) eqn:Hv; by simplify_eq.
Qed.

Lemma midnight_lt (a b : date) :
  valid_date a = true -> valid_date b = true ->
  midnight a < midnight b <-> date_lt a b.
Proof.
  intros (Hya & Hma & _ & Hda)%valid_date_bounds
         (Hyb & Hmb & _ & Hdb)%valid_date_bounds.
  unfold midnight, date_lt. split.
  - intros Hlt.
    destruct (Z.lt_trichotomy (year a) (year b)) as [?|[Hy|?]]; [by left|..].
    + right. split; [done|]. rewrite Hy in Hlt.
      destruct (Z.lt_trichotomy (month a) (month b)) as [?|[Hm|?]];
        [by left|..].
      * right. split; [done|]. rewrite Hm in Hlt. lia.
      * lia.
    + nia.
  - intros [?|[-> [?|[-> ?]]]]; nia.
Qed.

Lemma midnight_below_max (d : date) :
  valid_date d = true -> midnight d < datetime_max.
Proof.
  intros (Hy & Hm & _ & Hd)%valid_date_bounds.
  unfold datetime_max, midnight. simpl. nia.
Qed.


Section MergerProperties.

Context {parser : Dateutil} {iteration : SetOrder}.



(** ** The selection of the closest date *)

Lemma closest_step_among fd keys b x :
  closest_among fd keys b ->
  closest_among fd (keys ++ [x]) (closest_step fd b x).
Proof.
  intros Hb. unfold closest_step.
  destruct (strptime_ymd (parse_date_label x)) as [dt|] eqn:Hx.
  - destruct b as [[[raw bd] canon]|].
    + destruct Hb as (Hcanon & dt0 & pre & post & Hdt0 & Hbd & Hkeys
                      & Hpre & Hpost).
      destruct (Z.ltb_spec (abs_days fd dt) bd) as [Hlt|Hge].
      * split; [done|]. exists dt, keys, []. repeat split; [done|..].
        -- intros r dt' Hr Hr'. subst keys.
           apply elem_of_app in Hr as [Hr|Hr];
             [specialize (Hpre r dt' Hr Hr'); lia|].
           apply elem_of_cons in Hr as [->|Hr].
           ++ rewrite <- Hcanon, Hdt0 in Hr'. simplify_eq. lia.
           ++ specialize (Hpost r dt' Hr Hr'). lia.
        -- intros r dt' Hr. by apply elem_of_nil in Hr.
      * split; [done|]. exists dt0, pre, (post ++ [x]).
        repeat split; [done..|by rewrite Hkeys, <- app_assoc|done|].
        intros r dt' Hr Hr'.
        apply elem_of_app in Hr as [Hr|Hr]; [by eapply Hpost|].
        apply list_elem_of_singleton in Hr as ->. rewrite Hx in Hr'.
        simplify_eq. lia.
    + split; [done|]. exists dt, keys, []. repeat split; [done|..].
      * intros r dt' Hr Hr'. simpl in Hb. rewrite (Hb r Hr) in Hr'. done.
      * intros r dt' Hr. by apply elem_of_nil in Hr.
  - destruct b as [[[raw bd] canon]|].
    + destruct Hb as (Hcanon & dt0 & pre & post & Hdt0 & Hbd & Hkeys
                      & Hpre & Hpost).
      split; [done|]. exists dt0, pre, (post ++ [x]).
      repeat split; [done..|by rewrite Hkeys, <- app_assoc|done|].
      intros r dt' Hr Hr'.
      apply elem_of_app in Hr as [Hr|Hr]; [by eapply Hpost|].
      apply list_elem_of_singleton in Hr as ->. rewrite Hx in Hr'. done.
    + simpl in *. intros raw [Hr|Hr]%elem_of_app; [by apply Hb|].
      by apply list_elem_of_singleton in Hr as ->.
Qed.

Lemma closest_fold fd keys :
  closest_among fd keys (foldl (closest_step fd) None keys).
Proof.
  induction keys as [|x keys IH] using rev_ind.
  - simpl. intros raw Hr. by apply elem_of_nil in Hr.
  - rewrite foldl_app. simpl. by apply closest_step_among.
Qed.

Lemma select_closest_date_ok date_vals filing_date_str fd :
  strptime_ymd filing_date_str = Some fd ->
  select_closest_date date_vals filing_date_str
  = Ok ((fun b : string * Z * string => (b.1.1, b.2))
          <$> foldl (closest_step fd) None (dict_keys date_vals)).
Proof.
  intros Hfd. unfold select_closest_date. rewrite Hfd.
  by destruct date_vals.
Qed.

(** What the selection returns when the filing date is a date. *)
Lemma select_closest_date_spec date_vals filing_date_str fd :
  strptime_ymd filing_date_str = Some fd ->
  exists sel,
    select_closest_date date_vals filing_date_str = Ok sel /\
    match sel with
    | None =>
        forall raw, raw ∈ dict_keys date_vals ->
          strptime_ymd (parse_date_label raw) = None
    | Some (raw, canon) =>
        canon = parse_date_label raw /\
        exists dt pre post,
          strptime_ymd canon = Some dt /\
          dict_keys date_vals = pre ++ raw :: post /\
          (forall r dt', r ∈ pre ->
             strptime_ymd (parse_date_label r) = Some dt' ->
             abs_days fd dt < abs_days fd dt') /\
          (forall r dt', r ∈ post ->
             strptime_ymd (parse_date_label r) = Some dt' ->
             abs_days fd dt <= abs_days fd dt')
    end.
Proof.
  intros Hfd.
  rewrite (select_closest_date_ok _ _ _ Hfd). eexists. split; [done|].
  pose proof (closest_fold fd (dict_keys date_vals)) as Hb.
  destruct (foldl _ _ _) as [[[raw bd] canon]|]; simpl in *; [|done].
  destruct Hb as (Hcanon & dt & pre & post & Hdt & -> & Hkeys & Hpre & Hpost).
  split; [done|]. by exists dt, pre, post.
Qed.

(** C1. When the filing date is a date, the selection returns, among the
    labels of the row, one whose canonical form is read by [strptime] and
    whose distance in days to the filing date is minimal: strictly smaller
    than that of every readable label before it and at most that of every
    readable label after it, so that the first of equally close labels
    wins; labels whose canonical form is not read are skipped, and the
    selection is empty exactly when no label is readable. With labels whose
    canonical forms are 2023-12-31, 2024-03-31 and 2024-06-30 and the
    filing date 2024-04-01, the selected canonical date is 2024-03-31. *)
Theorem select_closest_date_minimal :
  (forall date_vals filing_date_str fd,
     strptime_ymd filing_date_str = Some fd ->
     exists sel,
       select_closest_date date_vals filing_date_str = Ok sel /\
       match sel with
       | None =>
           forall raw, raw ∈ dict_keys date_vals ->
             strptime_ymd (parse_date_label raw) = None
       | Some (raw, canon) =>
           canon = parse_date_label raw /\
           exists dt pre post,
             strptime_ymd canon = Some dt /\
             dict_keys date_vals = pre ++ raw :: post /\
             (forall r dt', r ∈ pre ->
                strptime_ymd (parse_date_label r) = Some dt' ->
                abs_days fd dt < abs_days fd dt') /\
             (forall r dt', r ∈ post ->
                strptime_ymd (parse_date_label r) = Some dt' ->
                abs_days fd dt <= abs_days fd dt')
       end) /\
  (forall date_vals,
     (exists raw, raw ∈ dict_keys date_vals /\
        parse_date_label raw = "2024-03-31") ->
     (forall raw, raw ∈ dict_keys date_vals ->
        parse_date_label raw ∈ ["2023-12-31"; "2024-03-31"; "2024-06-30"]) ->
     exists raw,
       raw ∈ dict_keys date_vals /\
       select_closest_date date_vals "2024-04-01"
       = Ok (Some (raw, "2024-03-31"))).
Proof.
  split; [exact select_closest_date_spec|].
  intros date_vals (raw0 & Hin0 & Hraw0) Hall.
  destruct (select_closest_date_spec date_vals "2024-04-01" (Date 2024 4 1)
              eq_refl) as (sel & Hsel & Hspec).
  destruct sel as [[raw canon]|].
  - destruct Hspec as (Hcanon & dt & pre & post & Hdt & Hkeys & Hpre & Hpost).
    assert (Hraw : raw ∈ dict_keys date_vals).
    { rewrite Hkeys. apply elem_of_app. right. apply elem_of_cons. by left. }
    exists raw. split; [done|].
    rewrite Hsel. do 3 f_equal.
    specialize (Hall raw Hraw). rewrite <- Hcanon in Hall.
    assert (H0 : strptime_ymd (parse_date_label raw0) = Some (Date 2024 3 31))
      by (by rewrite Hraw0).
    rewrite Hkeys in Hin0.
    apply elem_of_app in Hin0 as [Hbefore|Hafter].
    + specialize (Hpre raw0 _ Hbefore H0).
      set_unfold in Hall. destruct Hall as [->|[->|[->|[]]]]; [|done|];
        vm_compute in Hdt; simplify_eq; vm_compute in Hpre; done.
    + apply elem_of_cons in Hafter as [Heq|Hafter]; [congruence|].
      specialize (Hpost raw0 _ Hafter H0).
      set_unfold in Hall. destruct Hall as [->|[->|[->|[]]]]; [|done|];
        vm_compute in Hdt; simplify_eq; vm_compute in Hpost; by destruct Hpost.
  - specialize (Hspec raw0 Hin0). rewrite Hraw0 in Hspec. done.
Qed.

(** ** The merge loop *)

(** The two nested loops are one loop over the dated rows. *)
Lemma merge_loop_flat st all_statements :
  merge_loop st all_statements
  = for_each (fun st fr => merge_row fr.1 st fr.2) st
      (dated_rows all_statements).
Proof.
  unfold merge_loop, dated_rows. rewrite <- for_each_bind.
  apply for_each_ext. intros st' s. unfold merge_statement.
  by rewrite for_each_fmap.
Qed.

Lemma writes_flat all_statements :
  writes all_statements
  = dated_rows all_statements ≫= (fun fr => row_write fr.1 fr.2).
Proof.
  unfold writes, dated_rows.
  induction all_statements as [|s l IH]; [done|].
  rewrite !bind_cons, bind_app, IH. f_equal.
  induction (rows s) as [|r rs IHr]; [done|].
  rewrite fmap_cons, !bind_cons. by rewrite IHr.
Qed.

(** One row of one statement. *)
Lemma merge_row_spec fdate st row :
  is_Some (strptime_ymd fdate) ->
  exists st',
    merge_row fdate st row = Ok st' /\
    master_order st'
      = (if decide (row_key row ∈ master_order st) then master_order st
         else master_order st ++ [row_key row]) /\
    forall k d,
      cell_at st' k d
      = match last_write k d (row_write fdate row) with
        | Some v => Some v
        | None => cell_at st k d
        end.
Proof.
  intros [fd Hfd]. unfold merge_row, row_write.
  destruct (select_closest_date_spec (date_values row) fdate fd Hfd)
    as (sel & -> & Hsel). simpl.
  destruct sel as [[raw canon]|].
  - destruct Hsel as (_ & dt & pre & post & _ & Hkeys & _).
    destruct (dict_get_keys raw (date_values row)) as [val Hval].
    { rewrite Hkeys. apply elem_of_app. right. apply elem_of_cons. by left. }
    rewrite Hval. eexists. split; [done|]. split; [done|].
    intros k d. unfold cell_at at 1. cbn [master_data last_write].
    pose proof (cell_at_touch st (row_key row)) as Htouch. simpl in Htouch.
    set (data := if decide (is_Some (master_data st !! row_key row))
                 then master_data st else <[row_key row:=∅]> (master_data st))
      in *.
    destruct (decide (row_key row = k ∧ canon = d)) as [[<- <-]|Hne].
    + rewrite lookup_insert_eq. simpl. by rewrite lookup_insert_eq.
    + destruct (decide (row_key row = k)) as [<-|Hk].
      * rewrite lookup_insert_eq. simpl.
        rewrite lookup_insert_ne by tauto.
        rewrite <- (Htouch (row_key row) d).
        by destruct (data !! row_key row).
      * rewrite lookup_insert_ne by done. apply Htouch.
  - eexists. split; [done|]. split; [done|].
    intros k d. unfold cell_at at 1. cbn [master_data last_write].
    apply (cell_at_touch st (row_key row)).
Qed.

(** The loop over the dated rows. *)
Lemma merge_rows_spec st frs :
  Forall (fun fr : string * Row => is_Some (strptime_ymd fr.1)) frs ->
  exists st',
    for_each (fun st fr => merge_row fr.1 st fr.2) st frs = Ok st' /\
    master_order st'
      = master_order st
        ++ filter (fun k => k ∉ master_order st)
             (first_occurrences ((fun fr => row_key fr.2) <$> frs)) /\
    forall k d,
      cell_at st' k d
      = match last_write k d (frs ≫= (fun fr => row_write fr.1 fr.2)) with
        | Some v => Some v
        | None => cell_at st k d
        end.
Proof.
  intros Hd. revert st.
  induction Hd as [|[fdate row] frs Hfr _ IH]; intros st.
  - exists st. split; [done|]. split; [by rewrite app_nil_r|done].
  - destruct (merge_row_spec fdate st row Hfr) as (st1 & Hst1 & Ho1 & Hc1).
    destruct (IH st1) as (st' & Hst' & Ho' & Hc').
    exists st'. split; [by simpl; rewrite Hst1|]. split.
    + rewrite Ho', Ho1, fmap_cons. apply order_step.
    + intros k d. rewrite bind_cons, last_write_app, Hc', Hc1. simpl.
      by destruct (last_write k d _).
Qed.

Lemma merge_loop_spec st all_statements :
  dated all_statements ->
  exists st',
    merge_loop st all_statements = Ok st' /\
    master_order st'
      = master_order st
        ++ filter (fun k => k ∉ master_order st)
             (first_occurrences (all_keys all_statements)) /\
    forall k d,
      cell_at st' k d
      = match last_write k d (writes all_statements) with
        | Some v => Some v
        | None => cell_at st k d
        end.
Proof.
  intros Hd. rewrite merge_loop_flat, all_keys_flat, writes_flat.
  by apply merge_rows_spec, dated_flat.
Qed.

(** Every key of [master_order] has an entry in [master_data]: the lookup
    [master_data[key]] of the final assembly does not raise. *)
Lemma merge_row_entries fdate st row st' :
  (forall k, k ∈ master_order st -> is_Some (master_data st !! k)) ->
  merge_row fdate st row = Ok st' ->
  forall k, k ∈ master_order st' -> is_Some (master_data st' !! k).
Proof.
  intros Hinv. unfold merge_row.
  set (order := if decide (row_key row ∈ master_order st) then _ else _).
  set (data := if decide (is_Some (master_data st !! row_key row))
               then _ else _).
  assert (Hold : forall k, k ∈ order -> k <> row_key row ->
                  is_Some (master_data st !! k)).
  { intros k Hk Hne. apply Hinv. unfold order in Hk.
    destruct (decide (row_key row ∈ master_order st)); [done|].
    apply elem_of_app in Hk as [?|Hk]; [done|].
    by apply list_elem_of_singleton in Hk. }
  assert (Hdata : forall k, k ∈ order -> is_Some (data !! k)).
  { intros k Hk. unfold data.
    destruct (decide (is_Some (master_data st !! row_key row))) as [Hs|Hs];
      destruct (decide (k = row_key row)) as [->|Hne].
    - done.
    - by apply Hold.
    - by rewrite lookup_insert_eq.
    - rewrite lookup_insert_ne by done. by apply Hold. }
  destruct (select_closest_date _ _) as [[[raw canon]|]|e]; simpl; [| |done].
  - destruct (dict_get raw (date_values row)); [|done].
    intros ? k Hk. simplify_eq. simpl in *.
    destruct (decide (k = row_key row)) as [->|Hne].
    + by rewrite lookup_insert_eq.
    + rewrite lookup_insert_ne by done. by apply Hdata.
  - intros ? k Hk. simplify_eq. by apply Hdata.
Qed.

Lemma merge_loop_entries all_statements st :
  merge_loop empty_master all_statements = Ok st ->
  forall k, k ∈ master_order st -> is_Some (master_data st !! k).
Proof.
  rewrite merge_loop_flat.
  assert (Hgen : forall frs st0 st1,
    (forall k, k ∈ master_order st0 -> is_Some (master_data st0 !! k)) ->
    for_each (fun st fr => merge_row fr.1 st fr.2) st0 frs = Ok st1 ->
    forall k, k ∈ master_order st1 -> is_Some (master_data st1 !! k)).
  { induction frs as [|[fdate row] frs IH]; intros st0 st1 Hinv Hrun;
      simpl in *.
    - by simplify_eq.
    - destruct (merge_row fdate st0 row) as [st0'|e] eqn:Hrow; [|done].
      simpl in Hrun. eapply IH; [|done].
      by eapply merge_row_entries. }
  apply Hgen. intros k Hk. by apply elem_of_nil in Hk.
Qed.


(** C4. When the filing dates are dates, the merge runs to its end and
    [master_order] holds every key of the rows exactly once, in the order of
    the first occurrence of the keys over the statements in processing
    order. Statements processed afterwards leave the keys already in
    [master_order] at their positions and append only keys not seen before,
    so that statements with known keys only change nothing. *)
Theorem master_order_first_seen (all_statements : list Statement) :
  dated all_statements ->
  exists st,
    merge_loop empty_master all_statements = Ok st /\
    master_order st = first_occurrences (all_keys all_statements) /\
    NoDup (master_order st) /\
    (forall k, k ∈ master_order st <-> k ∈ all_keys all_statements) /\
    (forall l1 k1 l2 k2,
       master_order st = l1 ++ k1 :: l2 -> k2 ∈ l2 ->
       exists pre post,
         all_keys all_statements = pre ++ k1 :: post /\
         (k1 ∉ pre) /\ (k2 ∉ pre)) /\
    forall more, dated more ->
      exists st',
        merge_loop empty_master (all_statements ++ more) = Ok st' /\
        master_order st'
        = master_order st
          ++ filter (fun k => k ∉ master_order st)
               (first_occurrences (all_keys more)) /\
        ((forall k, k ∈ all_keys more -> k ∈ all_keys all_statements) ->
         master_order st' = master_order st).
Proof.
  intros Hd.
  destruct (merge_loop_spec empty_master all_statements Hd)
    as (st & Hst & Horder & _).
  simpl in Horder. rewrite filter_not_in_nil in Horder.
  exists st. split; [done|]. split; [done|]. rewrite Horder.
  split; [apply NoDup_first_occurrences|].
  split; [intros k; apply elem_of_first_occurrences|].
  split; [intros l1 k1 l2 k2; apply first_occurrences_order|].
  intros more Hmore.
  destruct (merge_loop_spec st more Hmore) as (st' & Hst' & Horder' & _).
  exists st'. split.
  { unfold merge_loop in *. rewrite for_each_app, Hst. exact Hst'. }
  rewrite <- Horder. split; [done|]. intros Hknown. rewrite Horder'.
  assert (filter (fun k => k ∉ master_order st)
            (first_occurrences (all_keys more)) = []) as ->;
    [|by rewrite app_nil_r].
  apply filter_known. intros k Hk.
  rewrite Horder. apply elem_of_first_occurrences, Hknown.
  by apply elem_of_first_occurrences.
Qed.

(** C10. When the filing dates are dates, the merge runs to its end and the
    cell of the master sheet at a key and a canonical date is the value
    stored by the last row, in processing order, that has this key and
    selects this date; a cell holds one value. *)
Theorem last_writer_wins (all_statements : list Statement) :
  dated all_statements ->
  exists st,
    merge_loop empty_master all_statements = Ok st /\
    (forall key d,
       cell_at st key d = last_write key d (writes all_statements)) /\
    (forall key d v before after,
       writes all_statements = before ++ (key, d, v) :: after ->
       (forall v', (key, d, v') ∉ after) ->
       cell_at st key d = Some v).
Proof.
  intros Hd.
  destruct (merge_loop_spec empty_master all_statements Hd)
    as (st & Hst & _ & Hcell).
  assert (Hlast : forall key d,
            cell_at st key d = last_write key d (writes all_statements)).
  { intros key d. rewrite Hcell.
    by destruct (last_write key d (writes all_statements)). }
  exists st. split; [done|]. split; [done|].
  intros key d v before after Hw Hafter.
  rewrite Hlast, Hw, last_write_app. simpl.
  rewrite (last_write_none _ _ _ Hafter). by case_decide as Hn; [|destruct Hn].
Qed.

(** C9. A frame that is empty or has fewer than two columns, such as a
    frame of one row and one column, yields no rows; the merge of a statement
    without rows returns the accumulators as they are, whatever its filing
    date, and such a statement can be removed from the list of statements
    without changing the result. *)
Theorem empty_table_robust :
  (forall df, df_empty df = true \/ (shape1 df < 2)%nat ->
     extract_line_items_with_sections df = []) /\
  (forall c, extract_line_items_with_sections [[c]] = []) /\
  extract_line_items_with_sections [] = [] /\
  (forall st fkey fdate,
     merge_statement st (mkStatement fkey fdate []) = Ok st) /\
  (forall st before after fkey fdate,
     merge_loop st (before ++ mkStatement fkey fdate [] :: after)
     = merge_loop st (before ++ after)).
Proof.
  split; [|split; [done|split; [done|split; [done|]]]].
  - intros df [He|Hw]; unfold extract_line_items_with_sections.
    + by rewrite He.
    + apply Nat.ltb_lt in Hw. by rewrite Hw, orb_true_r.
  - intros st before after fkey fdate. unfold merge_loop.
    rewrite !for_each_app. by destruct (for_each _ st before).
Qed.


End MergerProperties.

(** ** The properties on the sample inputs *)

Lemma select_closest_date_minimal_witness :
  exists raw,
    raw ∈ dict_keys sample_values /\
    select_closest_date (parser := iso_parse) sample_values "2024-04-01"
    = Ok (Some (raw, "2024-03-31")).
Proof.
  apply (proj2 (select_closest_date_minimal (parser := iso_parse))
           sample_values).
  - exists "2024-03-31". split; [|reflexivity].
    right. left.
  - intros raw Hraw. vm_compute in Hraw.
    repeat (apply elem_of_cons in Hraw as [->|Hraw];
            [vm_compute; repeat constructor|]).
    by apply elem_of_nil in Hraw.
Defined.

Lemma master_order_first_seen_witness :
  exists st,
    merge_loop (parser := iso_parse) empty_master sample_statements = Ok st /\
    master_order st
    = [ ("section", "CURRENT ASSETS", "");
        ("line", "CURRENT ASSETS", "Cash");
        ("line", "CURRENT ASSETS", "Inventory") ].
Proof.
  assert (Hd : dated sample_statements)
    by (repeat constructor; by eexists).
  destruct (master_order_first_seen (parser := iso_parse) sample_statements Hd)
    as (st & Hst & Horder & _).
  exists st. split; [exact Hst|]. rewrite Horder. reflexivity.
Defined.


Lemma adjust_line_section_rules_witness :
  adjust_line_section
    (mkRow "line" "EQUITY" "Common stock, $0.01 par value; 1,000 shares" [])
  = "Post-Statement".
Proof.
  apply (proj1 (proj2 adjust_line_section_rules)); [reflexivity|..].
  - rewrite <- !contains_spec. vm_compute. intros [H|H]; discriminate H.
  - apply startswith_spec. reflexivity.
Defined.





Lemma empty_table_robust_witness :
  extract_line_items_with_sections [[Some "Total"]] = [].
Proof.
  apply (proj1 (empty_table_robust (parser := iso_parse))). right.
  vm_compute. lia.
Defined.

Lemma last_writer_wins_witness :
  exists st,
    merge_loop (parser := iso_parse) empty_master sample_statements = Ok st /\
    cell_at st ("line", "CURRENT ASSETS", "Cash") "2024-03-31" = Some "105".
Proof.
  assert (Hd : dated sample_statements)
    by (repeat constructor; by eexists).
  destruct (last_writer_wins (parser := iso_parse) sample_statements Hd)
    as (st & Hst & Hcell & _).
  exists st. split; [exact Hst|]. rewrite Hcell. reflexivity.
Defined.

(** The master sheet of the sample statements. *)
Example sample_sheet :
  merge_statements_into_master (parser := iso_parse) (iteration := elements)
    sample_statements
  = Ok [ ["Line / Section"; "2023-12-31"; "2024-03-31"];
         ["CURRENT ASSETS"; ""; ""];
         ["  Cash"; "90"; "105"];
         ["  Inventory"; "7"; ""] ].
Proof. vm_compute. reflexivity. Qed.

(** * Further properties *)

(** ** Step 1: the recent filings *)

Lemma filings_loop_take (count : Z) (feed : list (string * string * string))
    (results : list Edgar.Filing) :
  (length results < Z.to_nat (Z.max 1 count))%nat ->
  Edgar.filings_loop count feed results
  = results
    ++ take (Z.to_nat (Z.max 1 count) - length results) (recent_10k_10q feed).
Proof.
  revert results. induction feed as [|[[form acc] fdate] feed IH];
    intros results Hlen.
  - unfold recent_10k_10q. simpl. by rewrite take_nil, app_nil_r.
  - unfold recent_10k_10q in *. cbn [Edgar.filings_loop List.filter].
    unfold is_10k_10q at 1. cbn [fst snd].
    destruct (String.eqb (upper (strip form)) "10-K"
              || String.eqb (upper (strip form)) "10-Q").
    + rewrite length_app. simpl length. rewrite fmap_cons. cbn [fst snd].
      destruct (Z.leb_spec count (Z.of_nat (length results + 1))) as [Hle|Hgt].
      * replace (Z.to_nat (Z.max 1 count) - length results)%nat with 1%nat
          by lia.
        simpl. by rewrite take_0.
      * rewrite IH by (rewrite length_app; simpl; lia).
        rewrite length_app, <- app_assoc. simpl. f_equal.
        replace (Z.to_nat (Z.max 1 count) - length results)%nat
          with (S (Z.to_nat (Z.max 1 count) - (length results + 1))) by lia.
        done.
    + by apply IH.
Qed.

Lemma recent_10k_10q_forms (feed : list (string * string * string)) :
  Forall (fun f => Edgar.form_type f = "10-K" \/ Edgar.form_type f = "10-Q")
    (recent_10k_10q feed).
Proof.
  unfold recent_10k_10q. apply Forall_fmap, Forall_forall.
  intros [[form acc] fdate] [_ Hf]%list_elem_of_In%filter_In. simpl in *.
  unfold is_10k_10q in Hf.
  apply orb_true_iff in Hf as [Hf|Hf]; apply String.eqb_eq in Hf; auto.
Qed.

(** X1. The result of [get_last_filings_10k_10q] is the first
    [max(count, 1)] of the fed filings whose trimmed, upper-cased form is
    10-K or 10-Q, in the order of the feed and with the form so
    normalised: the test that ends the loop comes after the first filing
    is appended, so a [count] of zero or less still returns one filing. *)
Theorem get_last_filings_take (forms acc_nums filing_dates : list string)
    (count : Z) :
  let out := Edgar.get_last_filings_10k_10q forms acc_nums filing_dates count in
  let feed := Edgar.zip3 forms acc_nums filing_dates in
  out = take (Z.to_nat (Z.max 1 count)) (recent_10k_10q feed) /\
  (length out <= Z.to_nat (Z.max 1 count))%nat /\
  Forall (fun f => Edgar.form_type f = "10-K" \/ Edgar.form_type f = "10-Q")
    out /\
  (length feed <= length forms)%nat /\
  (length feed <= length acc_nums)%nat /\
  (length feed <= length filing_dates)%nat.
Proof.
  intros out feed.
  assert (Hout : out = take (Z.to_nat (Z.max 1 count)) (recent_10k_10q feed)).
  { unfold out, Edgar.get_last_filings_10k_10q.
    rewrite filings_loop_take by (simpl; lia). simpl.
    by rewrite Nat.sub_0_r. }
  split; [done|]. split; [rewrite Hout, length_take; lia|].
  split; [rewrite Hout; apply Forall_take, recent_10k_10q_forms|].
  unfold feed. clear. revert acc_nums filing_dates.
  induction forms as [|f forms IH]; intros [|a accs] [|d dates]; simpl;
    try lia.
  specialize (IH accs dates). lia.
Qed.

(** ** Step 1: accession numbers *)

Lemma sfilter_app (p : ascii -> bool) (s t : string) :
  sfilter p (s +:+ t) = sfilter p s +:+ sfilter p t.
Proof.
  induction s as [|c s IH]; [done|]. rewrite app_cons. simpl.
  destruct (p c); [by rewrite app_cons, IH|done].
Qed.

Lemma sfilter_id (p : ascii -> bool) (s : string) :
  sall p s = true -> sfilter p s = s.
Proof.
  induction s as [|c s IH]; [done|]. simpl.
  intros [-> Hs]%andb_true_iff. by rewrite IH.
Qed.

Lemma sfilter_sall (p : ascii -> bool) (s : string) :
  sall p (sfilter p s) = true.
Proof.
  induction s as [|c s IH]; [done|]. simpl.
  destruct (p c) eqn:Hc; [simpl; by rewrite Hc|done].
Qed.

(** X2. [remove_dashes] returns a string without dashes and leaves a
    string without dashes as it is; for an accession number, three groups
    without dashes joined by dashes, it returns the three groups joined. *)
Theorem remove_dashes_groups :
  (forall s, sall (is_not "-") (remove_dashes s) = true) /\
  (forall s, sall (is_not "-") s = true -> remove_dashes s = s) /\
  (forall a b c,
     sall (is_not "-") a = true -> sall (is_not "-") b = true ->
     sall (is_not "-") c = true ->
     remove_dashes (a +:+ String "-" (b +:+ String "-" c)) = a +:+ b +:+ c).
Proof.
  split; [intros s; apply sfilter_sall|].
  split; [intros s; apply sfilter_id|].
  intros a b c Ha Hb Hc. unfold remove_dashes.
  rewrite sfilter_app. cbn [sfilter]. unfold is_not at 2. simpl.
  rewrite sfilter_app. cbn [sfilter]. unfold is_not at 3. simpl.
  by rewrite !sfilter_id.
Qed.

Lemma remove_dashes_groups_witness :
  remove_dashes "0000712515-24-000012" = "000071251524000012".
Proof.
  apply (proj2 (proj2 remove_dashes_groups) "0000712515" "24" "000012");
    reflexivity.
Defined.

(** ** Step 1: the documents of a filing *)

Lemma string_app_assoc (s t u : string) :
  (s +:+ t) +:+ u = s +:+ t +:+ u.
Proof. induction s as [|c s IH]; [done|]. by rewrite !app_cons, IH. Qed.

Lemma ends_in_app (p : ascii -> bool) (s t : string) :
  t <> "" -> ends_in p (s +:+ t) = ends_in p t.
Proof.
  intros Ht. induction s as [|c s IH]; [done|].
  rewrite app_cons, ends_in_cons, IH.
  destruct (s +:+ t) eqn:E; [|done].
  destruct s; [by rewrite app_nil_l' in E|by rewrite app_cons in E].
Qed.

(** The name of the summary is removed from the end of an address. *)
Lemma sub_summary_name_app (x : string) :
  sub_summary_name (x +:+ summary_name) = x.
Proof.
  induction x as [|c x IH]; [done|].
  rewrite app_cons. cbn [sub_summary_name]. rewrite <- app_cons.
  destruct (String.eqb_spec (String c x +:+ summary_name) summary_name)
    as [E|_].
  { apply (f_equal String.length) in E. rewrite string_app_length in E.
    simpl in E. lia. }
  destruct (String.eqb_spec (String c x +:+ summary_name)
              (summary_name +:+ String "010" "")) as [E|_].
  { apply (f_equal (ends_in (Ascii.eqb "l"))) in E.
    rewrite ends_in_app in E by done. done. }
  by rewrite IH.
Qed.

Lemma summary_item_spec (base_dir : string) (items : list (option string)) :
  Edgar.summary_item base_dir items
  = if decide (Some summary_name ∈ items)
    then Some ("https://www.sec.gov/" +:+ base_dir +:+ "/" +:+ summary_name)
    else None.
Proof.
  induction items as [|it items IH]; cbn [Edgar.summary_item].
  - destruct (decide (Some summary_name ∈ [])) as [Hin|_]; [|done].
    by apply elem_of_nil in Hin.
  - assert (Hother : it <> Some summary_name ->
      Edgar.summary_item base_dir items
      = if decide (Some summary_name ∈ it :: items)
        then Some ("https://www.sec.gov/" +:+ base_dir +:+ "/"
                   +:+ summary_name)
        else None).
    { intros Hit. rewrite IH.
      destruct (decide (Some summary_name ∈ items)) as [Hin|Hin];
        destruct (decide (Some summary_name ∈ it :: items)) as [Hin'|Hin'];
        try done.
      - destruct Hin'. by right.
      - apply elem_of_cons in Hin' as [E|?]; [congruence|done]. }
    destruct it as [n|]; [|by apply Hother].
    destruct (String.eqb_spec n summary_name) as [->|Hn].
    + destruct (decide (Some summary_name ∈ Some summary_name :: items))
        as [_|Hin]; [done|]. destruct Hin. by left.
    + apply Hother. congruence.
Qed.

Lemma summary_url_inv (index_json : option Edgar.Directory) (url : string) :
  Edgar.find_filing_summary_url index_json = Some url ->
  exists d base_dir items,
    index_json = Some d /\
    Edgar.name d = Some base_dir /\ base_dir <> "" /\
    Edgar.item d = Some items /\ Some summary_name ∈ items /\
    url = "https://www.sec.gov/" +:+ base_dir +:+ "/" +:+ summary_name.
Proof.
  unfold Edgar.find_filing_summary_url.
  destruct index_json as [[[base_dir|] [items|]]|]; simpl; try done.
  - destruct (String.eqb_spec base_dir "") as [->|Hbase]; [done|]. simpl.
    case_bool_decide as Hitems; [done|]. rewrite summary_item_spec.
    case_decide as Hin; [|done]. intros [= <-].
    by exists (Edgar.mkDirectory (Some base_dir) (Some items)),
      base_dir, items.
  - by destruct (String.eqb base_dir "").
Qed.

(** X3. [find_filing_summary_url] returns an address exactly when the
    directory of the index has a non-empty name and an item named
    [FilingSummary.xml], and the address is then
    [https://www.sec.gov/<name>/FilingSummary.xml]; for the empty index of
    a failed request, a missing name or a missing or empty list of items
    it returns nothing. *)
Theorem find_filing_summary_url_spec (index_json : option Edgar.Directory)
    (url : string) :
  Edgar.find_filing_summary_url index_json = Some url <->
  exists d base_dir items,
    index_json = Some d /\
    Edgar.name d = Some base_dir /\ base_dir <> "" /\
    Edgar.item d = Some items /\ Some summary_name ∈ items /\
    url = "https://www.sec.gov/" +:+ base_dir +:+ "/" +:+ summary_name.
Proof.
  split; [apply summary_url_inv|].
  intros (d & base_dir & items & -> & Hname & Hbase & Hitem & Hin & ->).
  unfold Edgar.find_filing_summary_url. simpl. rewrite Hname, Hitem. simpl.
  destruct (String.eqb_spec base_dir "") as [?|_]; [done|]. simpl.
  case_bool_decide as Hitems.
  - subst items. by apply elem_of_nil in Hin.
  - rewrite summary_item_spec.
    by destruct (decide (Some summary_name ∈ items)).
Qed.

Lemma statement_report_spec (base phrase_lower : string)
    (reports : list Edgar.Report) (url : string) :
  Edgar.statement_report base phrase_lower reports = Some url <->
  exists pre r post text html_file,
    reports = pre ++ r :: post /\
    Edgar.ShortName r = Some text /\
    contains phrase_lower (lower text) = true /\
    Edgar.HtmlFileName r = Some html_file /\
    url = base +:+ html_file /\
    Forall (fun r' =>
              forall text', Edgar.ShortName r' = Some text' ->
                contains phrase_lower (lower text') = true ->
                Edgar.HtmlFileName r' = None) pre.
Proof.
  induction reports as [|r reports IH]; simpl.
  - split; [done|]. intros (pre & r & post & ? & ? & E & _).
    by destruct pre.
  - assert (Hskip :
      (forall text', Edgar.ShortName r = Some text' ->
         contains phrase_lower (lower text') = true ->
         Edgar.HtmlFileName r = None) ->
      (Edgar.statement_report base phrase_lower reports = Some url <->
       exists pre r0 post text html_file,
         r :: reports = pre ++ r0 :: post /\
         Edgar.ShortName r0 = Some text /\
         contains phrase_lower (lower text) = true /\
         Edgar.HtmlFileName r0 = Some html_file /\
         url = base +:+ html_file /\
         Forall (fun r' =>
                   forall text', Edgar.ShortName r' = Some text' ->
                     contains phrase_lower (lower text') = true ->
                     Edgar.HtmlFileName r' = None) pre)).
    { intros Hr. rewrite IH. split.
      - intros (pre & r0 & post & text & h & -> & H1 & H2 & H3 & H4 & H5).
        exists (r :: pre), r0, post, text, h.
        repeat split; [done..|]. by constructor.
      - intros (pre & r0 & post & text & h & E & H1 & H2 & H3 & H4 & H5).
        destruct pre as [|r' pre]; simpl in E; simplify_eq.
        + rewrite (Hr text H1 H2) in H3. done.
        + apply Forall_cons in H5 as [_ H5].
          by exists pre, r0, post, text, h. }
    destruct (Edgar.ShortName r) as [text|] eqn:Hshort;
      [|apply Hskip; intros; simplify_eq].
    destruct (contains phrase_lower (lower text)) eqn:Hc;
      [|apply Hskip; intros; simplify_eq; congruence].
    destruct (Edgar.HtmlFileName r) as [h|] eqn:Hfile;
      [|apply Hskip; intros; reflexivity].
    split.
    + intros [= <-]. exists [], r, reports, text, h.
      repeat split; [done..|constructor].
    + intros (pre & r0 & post & text0 & h0 & E & H1 & H2 & H3 & H4 & H5).
      destruct pre as [|r' pre]; simpl in E; simplify_eq.
      * congruence.
      * apply Forall_cons in H5 as [H5 _].
        rewrite (H5 text Hshort Hc) in Hfile. done.
Qed.

Lemma statement_report_none (base phrase_lower : string)
    (reports : list Edgar.Report) :
  Edgar.statement_report base phrase_lower reports = None <->
  Forall (fun r' =>
            forall text', Edgar.ShortName r' = Some text' ->
              contains phrase_lower (lower text') = true ->
              Edgar.HtmlFileName r' = None) reports.
Proof.
  induction reports as [|r reports IH]; simpl; [by split|].
  rewrite Forall_cons, <- IH.
  destruct (Edgar.ShortName r) as [text|] eqn:Hshort.
  - destruct (contains phrase_lower (lower text)) eqn:Hc.
    + destruct (Edgar.HtmlFileName r) as [h|] eqn:Hfile.
      * split; [done|]. intros [Hr _]. by specialize (Hr text eq_refl Hc).
      * split; [|tauto]. intros Hnone. split; [done|done].
    + split; [|tauto]. intros Hnone. split; [|done].
      intros text' [= <-]. congruence.
  - split; [|tauto]. intros Hnone. split; [|done]. intros text' [=].
Qed.

(** X4. From the address of the summary that [find_filing_summary_url]
    returns, [find_statement_url_for_balance_sheets] returns an address
    exactly when a report has a short name that contains the target
    phrase, whatever the case of either, and a file name: the address is
    then that of the file of the first such report, in the directory of
    the summary. It returns nothing exactly when every report that matches
    the phrase lacks a file name, and when the summary cannot be read. *)
Theorem statement_url_same_directory (index_json : option Edgar.Directory)
    (summary_url : string) (reports : list Edgar.Report)
    (target_phrase : string) :
  Edgar.find_filing_summary_url index_json = Some summary_url ->
  exists d base_dir,
    index_json = Some d /\ Edgar.name d = Some base_dir /\
    (forall url,
       Edgar.find_statement_url_for_balance_sheets summary_url (Some reports)
         target_phrase = Some url <->
       exists pre r post text html_file,
         reports = pre ++ r :: post /\
         Edgar.ShortName r = Some text /\
         is_substring (lower target_phrase) (lower text) /\
         Edgar.HtmlFileName r = Some html_file /\
         url = "https://www.sec.gov/" +:+ base_dir +:+ "/" +:+ html_file /\
         Forall (fun r' =>
                   forall text', Edgar.ShortName r' = Some text' ->
                     is_substring (lower target_phrase) (lower text') ->
                     Edgar.HtmlFileName r' = None) pre) /\
    (Edgar.find_statement_url_for_balance_sheets summary_url (Some reports)
       target_phrase = None <->
     Forall (fun r' =>
               forall text', Edgar.ShortName r' = Some text' ->
                 is_substring (lower target_phrase) (lower text') ->
                 Edgar.HtmlFileName r' = None) reports) /\
    Edgar.find_statement_url_for_balance_sheets summary_url None
      target_phrase = None.
Proof.
  intros (d & base_dir & items & -> & Hname & _ & _ & _ & ->)
    %summary_url_inv.
  exists d, base_dir. split; [done|]. split; [done|].
  unfold Edgar.find_statement_url_for_balance_sheets.
  replace ("https://www.sec.gov/" +:+ base_dir +:+ "/" +:+ summary_name)
    with (("https://www.sec.gov/" +:+ base_dir +:+ "/") +:+ summary_name)
    by (by rewrite !string_app_assoc).
  rewrite sub_summary_name_app.
  assert (Hsame : forall l : list Edgar.Report,
            Forall (fun r' =>
                      forall text', Edgar.ShortName r' = Some text' ->
                        contains (lower target_phrase) (lower text') = true ->
                        Edgar.HtmlFileName r' = None) l <->
            Forall (fun r' =>
                      forall text', Edgar.ShortName r' = Some text' ->
                        is_substring (lower target_phrase) (lower text') ->
                        Edgar.HtmlFileName r' = None) l).
  { intros l. split; intros Hl; (eapply Forall_impl; [exact Hl|]);
      intros r' Hr' text' Ht' Hsub; apply (Hr' text' Ht');
      by apply contains_spec. }
  split; [|split; [|done]].
  - intros url. rewrite statement_report_spec. split.
    + intros (pre & r & post & text & h & -> & Hshort & Hc & Hfile & ->
              & Hpre).
      exists pre, r, post, text, h.
      split; [done|]. split; [done|]. split; [by apply contains_spec|].
      split; [done|]. split; [by rewrite !string_app_assoc|].
      by apply Hsame.
    + intros (pre & r & post & text & h & -> & Hshort & Hc & Hfile & ->
              & Hpre).
      exists pre, r, post, text, h.
      split; [done|]. split; [done|]. split; [by apply contains_spec|].
      split; [done|]. split; [by rewrite !string_app_assoc|].
      by apply Hsame.
  - rewrite statement_report_none. apply Hsame.
Qed.

(** ** Step 2: the table of the statement *)

(** X5. [parse_single_statement_table] returns the rows of the first table
    of the page whose text holds none of the three markers of a reference
    table and which has a row, every cell being the text of the cell; when
    the request fails or no table qualifies it returns the empty frame, for
    which step 4 returns no rows. *)
Theorem statement_table_first :
  (forall text,
     Edgar.is_reference_table text = true <->
     is_substring "Namespace Prefix:" text \/ is_substring "Data Type:" text
     \/ is_substring "us-gaap_" text) /\
  (forall pre text table_rows post,
     Forall (fun t : string * list (list string) =>
               Edgar.is_reference_table t.1 = true \/ t.2 = []) pre ->
     Edgar.is_reference_table text = false -> table_rows <> [] ->
     Edgar.parse_single_statement_table
       (Some (pre ++ (text, table_rows) :: post))
     = List.map (List.map Some) table_rows) /\
  (forall tables,
     Forall (fun t : string * list (list string) =>
               Edgar.is_reference_table t.1 = true \/ t.2 = []) tables ->
     Edgar.parse_single_statement_table (Some tables) = [] /\
     extract_line_items_with_sections
       (Edgar.parse_single_statement_table (Some tables)) = []) /\
  Edgar.parse_single_statement_table None = [].
Proof.
  split; [|split; [|split; [|done]]].
  - intros text. unfold Edgar.is_reference_table.
    rewrite !orb_true_iff, !contains_spec. tauto.
  - intros pre text table_rows post Hpre Htext Hrows. simpl.
    induction Hpre as [|[t r] pre [Ht|Hr] _ IH]; simpl in *.
    + rewrite Htext. by destruct table_rows.
    + by rewrite Ht.
    + subst r. by destruct (Edgar.is_reference_table t).
  - intros tables Htables.
    assert (Edgar.parse_single_statement_table (Some tables) = []) as ->;
      [|done].
    simpl. induction Htables as [|[t r] tables [Ht|Hr] _ IH]; simpl in *.
    + done.
    + by rewrite Ht.
    + subst r. by destruct (Edgar.is_reference_table t).
Qed.

(** ** Step 4: one row out for each row below the dates *)

Lemma segment_rows_lookup labels i rows cs k r :
  Forall (fun r => r <> []) rows -> rows !! k = Some r ->
  segment_rows labels i rows cs !! k
  = Some (if is_heading r then section_row (rstrip_colon (label_of r))
          else line_row labels (section_after (take k rows) cs) (i + k) r).
Proof.
  intros Hne. revert i cs k.
  induction Hne as [|r0 rows Hr0 _ IH]; intros i cs k Hk; [done|].
  destruct r0 as [|c r0]; [done|]. destruct k as [|k]; simpl in Hk.
  - simplify_eq. simpl. rewrite Nat.add_0_r.
    by destruct (is_heading (c :: r0)).
  - cbn [segment_rows take section_after].
    destruct (is_heading (c :: r0)); simpl; rewrite (IH _ _ _ Hk);
      do 2 f_equal; by rewrite Nat.add_succ_r.
Qed.

Lemma df_rows_length (df : DataFrame) : length (df_rows df) = length df.
Proof. unfold df_rows. by rewrite length_fmap. Qed.

Lemma date_row_index_lt (df : DataFrame) :
  df <> [] ->
  (date_row_index df < 3)%nat /\ (date_row_index df < length df)%nat.
Proof.
  intros Hdf. unfold date_row_index.
  destruct (list_find is_date_row (take 3 (df_rows df))) as [[i r]|] eqn:Hfind.
  - apply list_find_Some in Hfind as (Hi & _).
    apply lookup_lt_Some in Hi. rewrite length_take, df_rows_length in Hi. lia.
  - destruct df; [done|]. simpl. lia.
Qed.

(** X6. For a frame that is not empty and has at least two columns, the row
    of dates is one of the first three rows of the frame, and step 4
    returns exactly one row for each row below it, in order: a section row
    for a heading and otherwise the line row built with the current
    section and the index of the row in the frame. The rows above the row
    of dates and that row itself give no row. *)
Theorem extract_one_row_each (df : DataFrame) :
  df_empty df = false -> (2 <= shape1 df)%nat ->
  let out := extract_line_items_with_sections df in
  let idx := date_row_index df in
  (idx < 3)%nat /\ (idx < length df)%nat /\
  length out = (length df - S idx)%nat /\
  forall k r,
    df_rows df !! (S idx + k)%nat = Some r ->
    out !! k
    = Some (if is_heading r then section_row (rstrip_colon (label_of r))
            else line_row (date_labels_of df)
                   (section_after (take k (data_rows df)) "")
                   (S idx + k) r).
Proof.
  intros He Hw out idx.
  assert (Hdf : df <> []) by (intros ->; done).
  destruct (date_row_index_lt df Hdf) as [H3 Hlen].
  assert (Hne : Forall (fun r => r <> []) (data_rows df)).
  { unfold data_rows. apply Forall_drop. by apply df_rows_nonempty. }
  split; [done|]. split; [done|]. unfold out.
  rewrite extract_unfold by done. split.
  - rewrite segment_rows_length by done. unfold data_rows.
    by rewrite length_drop, df_rows_length.
  - intros k r Hk. apply segment_rows_lookup; [done|].
    unfold data_rows. by rewrite lookup_drop.
Qed.

Lemma extract_one_row_each_witness :
  length (extract_line_items_with_sections sample_table) = 2%nat.
Proof.
  assert (He : df_empty sample_table = false) by reflexivity.
  assert (Hw : (2 <= shape1 sample_table)%nat) by (vm_compute; lia).
  exact (proj1 (proj2 (proj2 (extract_one_row_each sample_table He Hw)))).
Defined.

(** ** Step 4: the section of a line *)

Lemma last_section_segment labels i rows cs :
  last_section cs (segment_rows labels i rows cs) = section_after rows cs.
Proof.
  revert i cs. induction rows as [|r rows IH]; intros i cs; [done|].
  destruct r as [|c r]; simpl; [apply IH|].
  destruct (is_heading (c :: r)); simpl; apply IH.
Qed.

Lemma segment_rows_take labels i rows cs k :
  Forall (fun r => r <> []) rows ->
  take k (segment_rows labels i rows cs)
  = segment_rows labels i (take k rows) cs.
Proof.
  intros Hne. revert i cs k.
  induction Hne as [|r rows Hr _ IH]; intros i cs k; [by destruct k|].
  destruct r as [|c r]; [done|]. destruct k as [|k]; [done|]. simpl.
  destruct (is_heading (c :: r)); simpl; by rewrite IH.
Qed.

(** X7. In the rows that step 4 returns, the section of a line row whose
    label triggers no rule of the override is the name of the closest
    section row above it, and the empty string when there is none; the
    section of a line row whose label triggers a rule is the section of
    the rule. *)
Theorem line_section_is_last_section (df : DataFrame) (k : nat) (row : Row) :
  let out := extract_line_items_with_sections df in
  out !! k = Some row -> type row = "line" ->
  (reclassified (line_label row) = false ->
   section_name row = last_section "" (take k out)) /\
  (reclassified (line_label row) = true ->
   section_name row = "Current liabilities"
   \/ section_name row = "Post-Statement").
Proof.
  intros out Hk Hty. unfold out in *.
  unfold extract_line_items_with_sections in *.
  destruct (df_empty df || (shape1 df <? 2)%nat) eqn:Hguard; [done|].
  apply orb_false_elim in Hguard as [He Hw]. apply Nat.ltb_ge in Hw.
  assert (Hne : Forall (fun r => r <> []) (data_rows df)).
  { unfold data_rows. apply Forall_drop. by apply df_rows_nonempty. }
  rewrite segment_rows_take, last_section_segment by done.
  assert (Hlen : (k < length (data_rows df))%nat).
  { apply lookup_lt_Some in Hk. by rewrite segment_rows_length in Hk. }
  destruct (lookup_lt_is_Some_2 _ _ Hlen) as [r Hr].
  rewrite (segment_rows_lookup _ _ _ _ _ _ Hne Hr) in Hk.
  destruct (is_heading r); simplify_eq.
  rewrite line_row_section.
  set (lbl := line_label _). split; intros Hre; rewrite Hre; [done|].
  unfold adjust_line_section. cbn [type line_label section_name].
  change (negb ("line" =? "line")%string) with false. cbv iota.
  unfold reclassified in Hre.
  destruct (contains "accounts payable" (lower lbl)
            || contains "accrued and other current liabilities"
                 (lower lbl)); [by left|].
  rewrite orb_false_l in Hre. rewrite Hre. by right.
Qed.

Lemma line_section_is_last_section_witness :
  section_name (mkRow "line" "CURRENT ASSETS" "Cash"
                  [("Mar. 31, 2024", "100"); ("Dec. 31, 2023", "120")])
  = last_section "" (take 1 (extract_line_items_with_sections sample_table)).
Proof.
  apply (proj1 (line_section_is_last_section sample_table 1 _ eq_refl eq_refl)).
  reflexivity.
Defined.

(** ** Step 4: the values of a line *)

Lemma dict_keys_set (k v : string) (d : dict) :
  (k ∈ dict_keys d /\ dict_keys (dict_set k v d) = dict_keys d) \/
  ((k ∉ dict_keys d) /\ dict_keys (dict_set k v d) = dict_keys d ++ [k]).
Proof.
  unfold dict_keys. induction d as [|[k' v'] d IH].
  - right. split; [apply not_elem_of_nil|reflexivity].
  - cbn [dict_set]. destruct (String.eqb_spec k k') as [->|Hne].
    + left. split; [by left|reflexivity].
    + rewrite !fmap_cons. cbn [fst].
      destruct IH as [[Hin ->]|[Hin ->]].
      * left. split; [by right|reflexivity].
      * right. split; [|reflexivity].
        intros [?|?]%elem_of_cons; done.
Qed.

Lemma dict_get_set (k k' v : string) (d : dict) :
  dict_get k (dict_set k' v d)
  = if String.eqb k k' then Some v else dict_get k d.
Proof.
  induction d as [|[k0 v0] d IH]; simpl.
  - done.
  - destruct (String.eqb_spec k' k0) as [->|Hne]; simpl.
    + by destruct (String.eqb k k0).
    + rewrite IH. destruct (String.eqb_spec k k0) as [->|Hk]; [|done].
      destruct (String.eqb_spec k0 k'); [congruence|done].
Qed.

Lemma dict_set_NoDup (k v : string) (d : dict) :
  NoDup (dict_keys d) -> NoDup (dict_keys (dict_set k v d)).
Proof.
  intros Hnd.
  destruct (dict_keys_set k v d) as [[Hin ->]|[Hin ->]]; [done|].
  apply NoDup_app. split; [done|]. split; [|apply NoDup_singleton].
  intros x Hx ->%list_elem_of_singleton. done.
Qed.

Lemma dict_get_elem_of (k v : string) (d : dict) :
  NoDup (dict_keys d) -> ((k, v) ∈ d <-> dict_get k d = Some v).
Proof.
  unfold dict_keys. induction d as [|[k' v'] d IH]; simpl.
  - intros _. split; [by intros ?%elem_of_nil|done].
  - intros [Hk' Hnd]%NoDup_cons. rewrite elem_of_cons, (IH Hnd).
    destruct (String.eqb_spec k k') as [->|Hne].
    + split.
      * intros [[= ->]|Hget]; [done|]. destruct Hk'.
        apply list_elem_of_fmap. exists (k', v). split; [done|].
        by apply IH.
      * intros [= ->]. by left.
    + split; [intros [[= ? ?]|?]; done|by right].
Qed.

Lemma collect_values_NoDup labels cells acc :
  NoDup (dict_keys acc) -> NoDup (dict_keys (collect_values labels cells acc)).
Proof.
  revert cells acc. induction labels as [|l labels IH];
    intros [|c cells] acc Hnd; simpl; try done.
  apply IH. destruct (String.eqb _ ""); [done|by apply dict_set_NoDup].
Qed.

Lemma collect_values_get k labels cells acc :
  dict_get k (collect_values labels cells acc)
  = match last_value k labels cells with
    | Some v => Some v
    | None => dict_get k acc
    end.
Proof.
  revert cells acc. induction labels as [|l labels IH];
    intros [|c cells] acc; simpl; try done.
  rewrite IH. destruct (last_value k labels cells); [done|].
  destruct (String.eqb (strip (or_empty c)) ""); simpl.
  - by rewrite andb_false_r.
  - rewrite dict_get_set, andb_true_r. by destruct (String.eqb k l).
Qed.

Lemma last_value_column k labels cells v :
  last_value k labels cells = Some v ->
  v <> "" /\
  exists j c, labels !! j = Some k /\ cells !! j = Some c /\
              v = strip (or_empty c).
Proof.
  revert cells. induction labels as [|l labels IH]; intros [|c cells];
    simpl; try done.
  destruct (last_value k labels cells) as [v'|] eqn:Hlast.
  - intros [= ->]. destruct (IH cells Hlast) as (Hv & j & c' & ? & ? & ?).
    split; [done|]. by exists (S j), c'.
  - destruct (String.eqb_spec k l) as [->|_]; [|done]. simpl.
    destruct (String.eqb_spec (strip (or_empty c)) "") as [|Hne]; [done|].
    intros [= <-]. split; [done|]. by exists 0%nat, c.
Qed.

Lemma segment_rows_elem labels i rows cs row :
  row ∈ segment_rows labels i rows cs ->
  (exists r, r ∈ rows /\ r <> [] /\ is_heading r = true /\
             row = section_row (rstrip_colon (label_of r))) \/
  (exists r cs' j, r ∈ rows /\ r <> [] /\ row = line_row labels cs' j r).
Proof.
  revert i cs. induction rows as [|r rows IH]; intros i cs; simpl.
  - by intros ?%elem_of_nil.
  - assert (Hrest : forall i' cs',
      row ∈ segment_rows labels i' rows cs' ->
      (exists r0, r0 ∈ r :: rows /\ r0 <> [] /\ is_heading r0 = true /\
                  row = section_row (rstrip_colon (label_of r0))) \/
      (exists r0 cs0 j, r0 ∈ r :: rows /\ r0 <> [] /\
                        row = line_row labels cs0 j r0)).
    { intros i' cs' [(r0 & ? & ? & ? & ?)|(r0 & cs0 & j & ? & ? & ?)]%IH.
      - left. exists r0. repeat split; [by right|done..].
      - right. exists r0, cs0, j. repeat split; [by right|done..]. }
    destruct r as [|c r]; [apply Hrest|].
    destruct (is_heading (c :: r)) eqn:Hh.
    + intros [->|Hin]%elem_of_cons; [|by eapply Hrest].
      left. exists (c :: r). repeat split; [by left|done..].
    + intros [->|Hin]%elem_of_cons; [|by eapply Hrest].
      right. exists (c :: r), cs, i. repeat split; [by left|done].
Qed.

(** X8. In every row that step 4 returns, the labels of the values are
    pairwise different, every value is a non-empty trimmed cell, and its
    label is the date label of a column other than the first that holds
    this value in the row. *)
Theorem date_values_from_columns (df : DataFrame) (row : Row) :
  row ∈ extract_line_items_with_sections df ->
  NoDup (dict_keys (date_values row)) /\
  forall k v, (k, v) ∈ date_values row ->
    v <> "" /\
    exists j r c,
      (1 <= j)%nat /\ date_labels_of df !! j = Some k /\
      r ∈ data_rows df /\ r !! j = Some c /\ v = strip (or_empty c).
Proof.
  unfold extract_line_items_with_sections.
  destruct (df_empty df || (shape1 df <? 2)%nat); [by intros ?%elem_of_nil|].
  intros [(r & _ & _ & _ & ->)|(r & cs & j & Hr & _ & ->)]%segment_rows_elem.
  - split; [constructor|]. intros k v Hin. by apply elem_of_nil in Hin.
  - cbn [line_row date_values].
    assert (Hnd : NoDup (dict_keys (collect_values (tail (date_labels_of df))
                                      (tail r) []))).
    { apply collect_values_NoDup. constructor. }
    split; [done|]. intros k v Hin.
    apply (dict_get_elem_of _ _ _ Hnd) in Hin.
    rewrite collect_values_get in Hin. simpl in Hin.
    destruct (last_value k (tail (date_labels_of df)) (tail r)) as [v'|]
      eqn:Hlast; [|done].
    simplify_eq.
    destruct (last_value_column _ _ _ _ Hlast) as (Hv & j' & c & Hl & Hc & ->).
    split; [done|]. exists (S j'), r, c. split; [lia|].
    split; [by destruct (date_labels_of df)|].
    split; [done|]. split; [by destruct r|done].
Qed.

Lemma date_values_from_columns_witness :
  NoDup (dict_keys [("Mar. 31, 2024", "100"); ("Dec. 31, 2023", "120")]).
Proof.
  apply (date_values_from_columns sample_table
           (mkRow "line" "CURRENT ASSETS" "Cash"
              [("Mar. 31, 2024", "100"); ("Dec. 31, 2023", "120")])).
  vm_compute. right. left.
Defined.

(** X9. The value that a line row holds under a label is the trimmed text
    of the last non-blank cell, from the second column on, among the
    columns that carry this label: when several columns carry the same
    label, a later non-blank cell replaces an earlier one, and a label has
    no value when all its cells are blank. *)
Theorem line_value_is_last_column labels cs i r k :
  dict_get k (date_values (line_row labels cs i r))
  = last_value k (tail labels) (tail r).
Proof.
  cbn [line_row date_values]. rewrite collect_values_get. simpl.
  by destruct (last_value k (tail labels) (tail r)).
Qed.

(** ** Step 4: the two kinds of rows *)

Lemma rstrip_by_ends (p : ascii -> bool) (s : string) :
  ends_in p (rstrip_by p s) = false.
Proof.
  induction s as [|c s IH]; [done|]. cbn [rstrip_by].
  destruct (rstrip_by p s) as [|c' r] eqn:E.
  - destruct (p c) eqn:Hc; [done|]. simpl. done.
  - rewrite ends_in_cons. exact IH.
Qed.

(** X10. Every row that step 4 returns comes from one row of the frame
    below the row of dates, the row at the same distance from it. For a
    heading it is a section row: an empty label, no values, and as name
    the label of the heading without its trailing colons. Otherwise it is
    a line row whose label is the trimmed first cell of the frame row,
    or, when that is blank, [Line_] followed by the index of the row in
    the frame; the label of a line row is never empty. *)
Theorem extracted_row_kinds (df : DataFrame) (row : Row) :
  row ∈ extract_line_items_with_sections df ->
  exists k r,
    extract_line_items_with_sections df !! k = Some row /\
    df_rows df !! (S (date_row_index df) + k)%nat = Some r /\
    ((is_heading r = true /\
      type row = "section" /\ line_label row = "" /\ date_values row = [] /\
      section_name row = rstrip_colon (label_of r) /\
      ends_in (Ascii.eqb ":") (section_name row) = false) \/
     (is_heading r = false /\
      type row = "line" /\ line_label row <> "" /\
      (label_of r <> "" -> line_label row = label_of r) /\
      (label_of r = "" ->
       line_label row
       = "Line_" +:+ str_nat (S (date_row_index df) + k)))).
Proof.
  intros Hrow. apply list_elem_of_lookup in Hrow as [k Hk]. exists k.
  destruct (df_empty df || (shape1 df <? 2)%nat) eqn:Hguard.
  { unfold extract_line_items_with_sections in Hk. by rewrite Hguard in Hk. }
  apply orb_false_iff in Hguard as [He Hw]. apply Nat.ltb_ge in Hw.
  assert (Hne : Forall (fun r => r <> []) (data_rows df)).
  { unfold data_rows. apply Forall_drop. by apply df_rows_nonempty. }
  pose proof (lookup_lt_Some _ _ _ Hk) as Hlt.
  rewrite extract_unfold, segment_rows_length in Hlt by done.
  destruct (lookup_lt_is_Some_2 (data_rows df) k Hlt) as [r Hr].
  exists r. split; [done|]. split.
  { unfold data_rows in Hr. by rewrite lookup_drop in Hr. }
  rewrite extract_unfold in Hk by done.
  rewrite (segment_rows_lookup _ _ _ _ _ r Hne Hr) in Hk.
  destruct (is_heading r); injection Hk as <-.
  - left. repeat split. apply rstrip_by_ends.
  - right. split; [done|]. split; [done|]. cbn [line_row line_label].
    destruct (String.eqb_spec (label_of r) "") as [E|Hlabel];
      repeat split; done.
Qed.

Lemma extracted_row_kinds_witness :
  exists k r,
    extract_line_items_with_sections blank_label_table !! k
    = Some (mkRow "line" "" "Line_1" [("2023-12-31", "100")]) /\
    df_rows blank_label_table !! (S (date_row_index blank_label_table) + k)%nat
    = Some r.
Proof.
  destruct (extracted_row_kinds blank_label_table
              (mkRow "line" "" "Line_1" [("2023-12-31", "100")]))
    as (k & r & Hk & Hr & _).
  - vm_compute. left.
  - by exists k, r.
Defined.

(** ** The removal of parenthesised groups *)

Lemma group_closes_sub_parens (s : string) :
  group_closes (sub_parens_from false s) = true -> group_closes s = true.
Proof.
  induction s as [|c s IH]; [done|]. cbn [sub_parens_from].
  destruct (Ascii.eqb c "(" && group_closes s) eqn:Hopen.
  - apply andb_true_iff in Hopen as [Hc Hs]. apply Ascii.eqb_eq in Hc as ->.
    intros _. simpl. exact Hs.
  - simpl. destruct (Ascii.eqb c ")"); [done|].
    destruct (Ascii.eqb c "010"); [done|]. exact IH.
Qed.

Lemma sub_parens_from_idem (s : string) :
  sub_parens_from false (sub_parens_from false s) = sub_parens_from false s /\
  sub_parens_from false (sub_parens_from true s) = sub_parens_from true s.
Proof.
  induction s as [|c s [IHf IHt]]; [done|]. split.
  - cbn [sub_parens_from].
    destruct (Ascii.eqb c "(" && group_closes s) eqn:Hopen; [done|].
    cbn [sub_parens_from]. rewrite IHf.
    destruct (Ascii.eqb c "(") eqn:Hc; [|done]. simpl in Hopen.
    destruct (group_closes (sub_parens_from false s)) eqn:Hg; [|done].
    apply group_closes_sub_parens in Hg. congruence.
  - cbn [sub_parens_from]. by destruct (Ascii.eqb c ")").
Qed.

(** X11. The removal of parenthesised groups leaves no group that a second
    pass would remove: applied to its own result it changes nothing. *)
Theorem sub_parens_idempotent (s : string) :
  sub_parens (sub_parens s) = sub_parens s.
Proof. apply sub_parens_from_idem. Qed.

(** ** The main program *)

Lemma summary_url_nonempty (index_json : option Edgar.Directory)
    (summary_url : string) :
  Edgar.find_filing_summary_url index_json = Some summary_url ->
  summary_url <> "".
Proof.
  intros (d & base_dir & items & _ & _ & _ & _ & _ & ->)%summary_url_inv.
  discriminate.
Qed.

Lemma statement_url_nonempty (resp : Responses)
    (target_phrase summary_url statement_url : string) :
  Edgar.find_filing_summary_url (idx_json resp) = Some summary_url ->
  Edgar.find_statement_url_for_balance_sheets summary_url (myreports resp)
    target_phrase = Some statement_url ->
  statement_url <> "".
Proof.
  intros (d & base_dir & items & _ & _ & _ & _ & _ & ->)%summary_url_inv.
  unfold Edgar.find_statement_url_for_balance_sheets.
  destruct (myreports resp) as [reports|]; [|done].
  intros (pre & r & post & text & h & _ & _ & _ & _ & -> & _)
    %statement_report_spec.
  replace ("https://www.sec.gov/" +:+ base_dir +:+ "/" +:+ summary_name)
    with (("https://www.sec.gov/" +:+ base_dir +:+ "/") +:+ summary_name)
    by (by rewrite !string_app_assoc).
  rewrite sub_summary_name_app. discriminate.
Qed.

(** One turn of the loop of [main]. *)
Lemma main_loop_cons (target_phrase : string) (fr : Edgar.Filing * Responses)
    (filings : list (Edgar.Filing * Responses)) (acc : Collected) :
  main_loop target_phrase (fr :: filings) acc
  = main_loop target_phrase filings
      (if bool_decide (is_Some (statement_url_of target_phrase fr.2))
       then mkCollected
              (<[sheet_name_of fr.1 := table_of fr.2]> (raw_sheets acc))
              (all_statements acc ++ [statement_of fr])
       else acc).
Proof.
  destruct fr as [filing resp]. cbn [main_loop fst snd].
  unfold statement_url_of.
  destruct (idx_json resp) as [d|] eqn:Hidx; [|done].
  destruct (Edgar.find_filing_summary_url (Some d)) as [summary_url|]
    eqn:Hsummary; [|done].
  cbn [mbind option_bind].
  destruct (String.eqb_spec summary_url "") as [->|_].
  { by apply summary_url_nonempty in Hsummary. }
  destruct (Edgar.find_statement_url_for_balance_sheets summary_url
              (myreports resp) target_phrase) as [statement_url|] eqn:Hurl;
    [|done].
  destruct (String.eqb_spec statement_url "") as [->|_]; [|done].
  rewrite <- Hidx in Hsummary.
  by apply (statement_url_nonempty resp target_phrase summary_url "") in Hurl.
Qed.

Lemma main_loop_statements (target_phrase : string)
    (filings : list (Edgar.Filing * Responses)) (acc : Collected) :
  all_statements (main_loop target_phrase filings acc)
  = all_statements acc ++ (statement_of <$> found target_phrase filings).
Proof.
  revert acc. induction filings as [|fr filings IH]; intros acc.
  - simpl. by rewrite app_nil_r.
  - rewrite main_loop_cons, IH. unfold found. cbn [List.filter].
    destruct (bool_decide (is_Some (statement_url_of target_phrase fr.2)));
      [|done].
    cbn [all_statements fmap list_fmap]. by rewrite <- app_assoc.
Qed.

Lemma main_loop_sheets (target_phrase : string)
    (filings : list (Edgar.Filing * Responses)) (acc : Collected) (k : string) :
  raw_sheets (main_loop target_phrase filings acc) !! k
  = match
      last (List.filter (fun fr => String.eqb (sheet_name_of fr.1) k)
              (found target_phrase filings))
    with
    | Some fr => Some (table_of fr.2)
    | None => raw_sheets acc !! k
    end.
Proof.
  revert acc. induction filings as [|fr filings IH]; intros acc; [done|].
  rewrite main_loop_cons, IH. unfold found. cbn [List.filter].
  destruct (bool_decide (is_Some (statement_url_of target_phrase fr.2)));
    [|done].
  cbn [List.filter raw_sheets].
  destruct (String.eqb_spec (sheet_name_of fr.1) k) as [<-|Hk].
  - rewrite last_cons, lookup_insert_eq.
    by destruct (last _).
  - by rewrite lookup_insert_ne.
Qed.

Lemma filter_length_le {A} (f : A -> bool) (l : list A) :
  (length (List.filter f l) <= length l)%nat.
Proof. induction l as [|x l IH]; simpl; [lia|]. destruct (f x); simpl; lia. Qed.

Lemma filter_elem_last {A} (f : A -> bool) (l : list A) (x : A) :
  x ∈ l -> f x = true -> is_Some (last (List.filter f l)).
Proof.
  intros Hin Hf.
  assert (x ∈ List.filter f l) as Hx.
  { apply list_elem_of_In, filter_In. split; [|done].
    by apply list_elem_of_In. }
  destruct (List.filter f l) as [|y l'] eqn:E.
  - by apply elem_of_nil in Hx.
  - rewrite last_is_Some. discriminate.
Qed.

Lemma size_list_to_set_le (l : list string) :
  (size (list_to_set (C := gset string) l) <= length l)%nat.
Proof.
  induction l as [|x l IH].
  - by rewrite list_to_set_nil, size_empty.
  - rewrite list_to_set_cons. cbn [length].
    destruct (decide (x ∈ (list_to_set l : gset string))) as [Hx|Hx].
    + assert ({[x]} ∪ list_to_set l = (list_to_set l : gset string)) as ->
        by (apply subseteq_union_1_L; by apply singleton_subseteq_l).
      lia.
    + rewrite size_union by (by apply disjoint_singleton_l).
      rewrite size_singleton. lia.
Qed.

Lemma size_list_to_set_NoDup (l : list string) :
  size (list_to_set (C := gset string) l) = length l <-> NoDup l.
Proof.
  split; [|apply size_list_to_set].
  induction l as [|x l IH]; [constructor|].
  rewrite list_to_set_cons. cbn [length].
  destruct (decide (x ∈ (list_to_set l : gset string))) as [Hx|Hx].
  - assert ({[x]} ∪ list_to_set l = (list_to_set l : gset string)) as ->
      by (apply subseteq_union_1_L; by apply singleton_subseteq_l).
    pose proof (size_list_to_set_le l). lia.
  - rewrite size_union by (by apply disjoint_singleton_l).
    rewrite size_singleton.
    intros Hsize. constructor.
    + by rewrite elem_of_list_to_set in Hx.
    + apply IH. lia.
Qed.

(** X12. The statements that [main] collects are those of the filings of
    which both the summary and a report matching the phrase are found, in
    the order of the filings, each under the name [<form>_<date>] with the
    date of the filing and the rows extracted from its table; the tests of
    the two addresses for emptiness skip nothing more, and a page that
    cannot be read gives a statement without rows. *)
Theorem main_collects_found (target_phrase : string)
    (filings : list (Edgar.Filing * Responses)) :
  all_statements (main_loop target_phrase filings (mkCollected ∅ []))
  = statement_of <$> found target_phrase filings /\
  (length (all_statements
             (main_loop target_phrase filings (mkCollected ∅ [])))
   <= length filings)%nat /\
  (forall filing index reports,
     extract_line_items_with_sections
       (table_of (mkResponses index reports None)) = [] /\
     rows (statement_of (filing, mkResponses index reports None)) = []).
Proof.
  rewrite main_loop_statements. cbn [all_statements app].
  split; [done|]. split; [|done].
  rewrite length_fmap. apply filter_length_le.
Qed.

Lemma filter_nil_iff {A} (f : A -> bool) (l : list A) :
  List.filter f l = [] <-> Forall (fun y => f y = false) l.
Proof.
  induction l as [|a l IH]; simpl; [by split|].
  rewrite Forall_cons, <- IH. destruct (f a); [|tauto].
  split; [done|]. by intros [? _].
Qed.

(** The last element that passes a test splits the list. *)
Lemma last_filter_split {A} (f : A -> bool) (l : list A) (x : A) :
  last (List.filter f l) = Some x <->
  exists pre post,
    l = pre ++ x :: post /\ f x = true /\ Forall (fun y => f y = false) post.
Proof.
  induction l as [|a l IH].
  - split; [done|]. intros (pre & post & E & _). by destruct pre.
  - assert (last (List.filter f (a :: l))
            = match last (List.filter f l) with
              | Some y => Some y
              | None => if f a then Some a else None
              end) as ->.
    { simpl. destruct (f a); [by rewrite last_cons|].
      by destruct (last (List.filter f l)). }
    split.
    + destruct (last (List.filter f l)) as [y|] eqn:Hlast.
      * intros [= ->]. destruct (proj1 IH eq_refl) as (pre & post & -> & ?).
        by exists (a :: pre), post.
      * destruct (f a) eqn:Ha; [|done]. intros [= <-].
        exists [], l. split; [done|]. split; [done|].
        apply filter_nil_iff. by apply last_None.
    + intros (pre & post & E & Hx & Hpost). destruct pre as [|a' pre].
      * injection E as <- <-. apply filter_nil_iff in Hpost.
        by rewrite Hpost, Hx.
      * injection E as <- ->.
        assert (last (List.filter f (pre ++ x :: post)) = Some x) as ->;
          [|done].
        apply IH. by exists pre, post.
Qed.

(** X13. The raw sheets of [main] are kept by name: the names are those of
    the statements, and the sheet of a name is the table of the last
    filing of that name among those whose statement is found, the tables
    of the earlier ones being overwritten, while the statement of every one
    of them is kept; the rows of the statement of that last filing are
    extracted from the sheet. There are as many sheets as statements
    exactly when no two statements share the form and the date, and fewer
    otherwise. *)
Theorem raw_sheets_by_name (target_phrase : string)
    (filings : list (Edgar.Filing * Responses)) :
  let acc := main_loop target_phrase filings (mkCollected ∅ []) in
  dom (raw_sheets acc)
  = list_to_set (filing_key <$> all_statements acc) /\
  (forall pre fr post,
     found target_phrase filings = pre ++ fr :: post ->
     Forall (fun fr' => sheet_name_of fr'.1 <> sheet_name_of fr.1) post ->
     raw_sheets acc !! sheet_name_of fr.1 = Some (table_of fr.2)) /\
  (forall k df,
     raw_sheets acc !! k = Some df ->
     exists pre fr post,
       found target_phrase filings = pre ++ fr :: post /\
       Forall (fun fr' => sheet_name_of fr'.1 <> k) post /\
       sheet_name_of fr.1 = k /\ table_of fr.2 = df /\
       statement_of fr ∈ all_statements acc /\
       rows (statement_of fr) = extract_line_items_with_sections df) /\
  (size (raw_sheets acc) <= length (all_statements acc))%nat /\
  (size (raw_sheets acc) = length (all_statements acc) <->
   NoDup (filing_key <$> all_statements acc)).
Proof.
  intros acc.
  assert (forall k (l : list (Edgar.Filing * Responses)),
            Forall (fun fr' => String.eqb (sheet_name_of fr'.1) k = false) l
            <-> Forall (fun fr' => sheet_name_of fr'.1 <> k) l) as Hneq.
  { intros k l. apply Forall_proper; [|done]. intros fr'.
    by rewrite String.eqb_neq. }
  assert (all_statements acc = statement_of <$> found target_phrase filings)
    as Hall.
  { unfold acc. by rewrite main_loop_statements. }
  assert (forall k df,
            raw_sheets acc !! k = Some df ->
            exists pre fr post,
              found target_phrase filings = pre ++ fr :: post /\
              Forall (fun fr' => sheet_name_of fr'.1 <> k) post /\
              sheet_name_of fr.1 = k /\ table_of fr.2 = df) as Hget.
  { intros k df. unfold acc. rewrite main_loop_sheets.
    destruct (last _) as [fr|] eqn:Hlast;
      [|cbn [raw_sheets]; by rewrite lookup_empty].
    intros [= <-].
    apply last_filter_split in Hlast as (pre & post & E & Hk & Hpost).
    exists pre, fr, post. split; [done|]. split; [by apply Hneq|].
    split; [|done]. by apply String.eqb_eq. }
  assert (dom (raw_sheets acc)
          = list_to_set (filing_key <$> all_statements acc)) as Hdom.
  { apply set_eq. intros k.
    rewrite elem_of_dom, elem_of_list_to_set, Hall, <- list_fmap_compose.
    rewrite list_elem_of_fmap. split.
    - intros [df (pre & fr & post & E & _ & <- & _)%Hget]. exists fr.
      split; [done|]. rewrite E. apply elem_of_app. right. by left.
    - intros (fr & Hk & Hin).
      assert (k = sheet_name_of fr.1) as -> by exact Hk. unfold acc.
      rewrite main_loop_sheets.
      destruct (filter_elem_last
                  (fun fr' => String.eqb (sheet_name_of fr'.1)
                                (sheet_name_of fr.1))
                  (found target_phrase filings) fr Hin) as [fr' ->];
        [by apply String.eqb_eq|]. by eexists. }
  split; [done|]. split; [|split; [|split]].
  - intros pre fr post E Hpost. unfold acc. rewrite main_loop_sheets.
    assert (last (List.filter
                    (fun fr' => String.eqb (sheet_name_of fr'.1)
                                  (sheet_name_of fr.1))
                    (found target_phrase filings)) = Some fr) as ->; [|done].
    apply last_filter_split. exists pre, post. split; [done|].
    split; [by apply String.eqb_eq|]. by apply Hneq.
  - intros k df (pre & fr & post & E & Hpost & Hk & Hdf)%Hget.
    exists pre, fr, post.
    split; [done|]. split; [done|]. split; [done|]. split; [done|]. split.
    + rewrite Hall, E. apply list_elem_of_fmap_2, elem_of_app. right.
      by left.
    + by rewrite <- Hdf.
  - rewrite <- size_dom, Hdom.
    etransitivity; [apply size_list_to_set_le|]. by rewrite length_fmap.
  - rewrite <- size_dom, Hdom, <- size_list_to_set_NoDup.
    by rewrite length_fmap.
Qed.

(** ** Tables without short rows *)

Lemma max_list_le (l : list nat) (n : nat) :
  Forall (fun k => k <= n)%nat l -> (max_list l <= n)%nat.
Proof.
  intros Hl. induction Hl as [|k l Hk _ IH]; [simpl; lia|].
  change (max_list (k :: l)) with (Nat.max k (max_list l)). lia.
Qed.

Lemma rectangular_lengths (table_rows : list (list string)) :
  rectangular table_rows = true ->
  exists n, Forall (fun cols => length cols = n) table_rows.
Proof.
  destruct table_rows as [|cols table_rows]; [by exists 0%nat|].
  simpl. intros Hall. exists (length cols). constructor; [done|].
  apply Forall_forall. intros cols' Hin%list_elem_of_In.
  rewrite forallb_forall in Hall. by apply Nat.eqb_eq, Hall.
Qed.

(** The frame of a rectangular table holds the texts of the table. *)
Lemma df_rows_rectangular (table_rows : list (list string)) :
  rectangular table_rows = true ->
  df_rows (List.map (List.map Some) table_rows)
  = List.map (List.map Some) table_rows.
Proof.
  intros [n Hn]%rectangular_lengths. unfold df_rows.
  assert (shape1 (List.map (List.map Some) table_rows) <= n)%nat as Hw.
  { unfold shape1. apply max_list_le, Forall_fmap, Forall_fmap.
    eapply Forall_impl; [exact Hn|]. intros cols Hcols. simpl in *.
    rewrite length_map. lia. }
  generalize dependent (shape1 (List.map (List.map Some) table_rows)).
  intros w Hw. induction Hn as [|cols table_rows Hcols _ IH]; [done|].
  cbn [List.map fmap list_fmap]. f_equal; [|exact IH].
  unfold pad_row. rewrite length_map.
  replace (w - length cols)%nat with 0%nat by lia. apply app_nil_r.
Qed.

Lemma first_data_table_elem (page : list (string * list (list string))) :
  Edgar.first_data_table page = [] \/
  exists text table_rows,
    (text, table_rows) ∈ page /\
    Edgar.first_data_table page = List.map (List.map Some) table_rows.
Proof.
  induction page as [|[text table_rows] page IH]; [by left|]. simpl.
  assert (Edgar.first_data_table page = [] \/
          exists text' table_rows',
            (text', table_rows') ∈ (text, table_rows) :: page /\
            Edgar.first_data_table page
            = List.map (List.map Some) table_rows') as Hrest.
  { destruct IH as [?|(text' & table_rows' & ? & ?)]; [by left|].
    right. exists text', table_rows'. split; [by right|done]. }
  destruct (Edgar.is_reference_table text); [done|].
  destruct table_rows as [|cols table_rows]; [done|].
  right. exists text, (cols :: table_rows). split; [by left|done].
Qed.

(** No cell of the frame of a rectangular page is filled in. *)
Lemma table_of_texts (resp : Responses) :
  rectangular_page resp = true ->
  Forall (Forall (fun c : cell => is_Some c)) (df_rows (table_of resp)).
Proof.
  unfold rectangular_page, table_of, Edgar.parse_single_statement_table.
  destruct (tables resp) as [page|]; [|by constructor].
  intros Hpage.
  destruct (first_data_table_elem page)
    as [->|(text & table_rows & Hin & ->)]; [by constructor|].
  rewrite forallb_forall in Hpage.
  apply list_elem_of_In, Hpage in Hin. simpl in Hin.
  rewrite df_rows_rectangular by done.
  apply Forall_forall. intros r (cols & <- & _)%list_elem_of_In%in_map_iff.
  apply Forall_forall. intros c (t & <- & _)%list_elem_of_In%in_map_iff.
  by eexists.
Qed.

Section MergerEffects.

Context {parser : Dateutil} {iteration : SetOrder}.

(** ** What a merge that runs to its end has done *)

Lemma write_dates_app (ws1 ws2 : list (Key * string * string)) :
  write_dates (ws1 ++ ws2) = write_dates ws1 ∪ write_dates ws2.
Proof. unfold write_dates. by rewrite fmap_app, list_to_set_app_L. Qed.

Lemma merge_row_effect fdate st row st' :
  merge_row fdate st row = Ok st' ->
  master_order st'
    = (if decide (row_key row ∈ master_order st) then master_order st
       else master_order st ++ [row_key row]) /\
  (forall k d,
     cell_at st' k d
     = match last_write k d (row_write fdate row) with
       | Some v => Some v
       | None => cell_at st k d
       end) /\
  all_dates st' = all_dates st ∪ write_dates (row_write fdate row) /\
  dom (master_data st') = {[row_key row]} ∪ dom (master_data st).
Proof.
  unfold merge_row, row_write.
  pose proof (cell_at_touch st (row_key row)) as Htouch. simpl in Htouch.
  assert (Hdom : dom (if decide (is_Some (master_data st !! row_key row))
                      then master_data st
                      else <[row_key row:=∅]> (master_data st))
                 = {[row_key row]} ∪ dom (master_data st)).
  { case_decide as Hk; [|by rewrite dom_insert_L].
    apply elem_of_dom in Hk. symmetry. apply subseteq_union_1_L.
    by apply singleton_subseteq_l. }
  set (data := if decide (is_Some (master_data st !! row_key row))
               then master_data st else <[row_key row:=∅]> (master_data st))
    in *.
  destruct (select_closest_date (date_values row) fdate)
    as [[[raw canon]|]|e]; simpl; [| |done].
  - destruct (dict_get raw (date_values row)) as [val|]; [|done].
    intros [= <-]. cbn [master_order all_dates master_data].
    split; [done|]. split; [|split].
    + intros k d. unfold cell_at at 1. cbn [master_data last_write].
      destruct (decide (row_key row = k /\ canon = d)) as [[<- <-]|Hne].
      * rewrite lookup_insert_eq. simpl. by rewrite lookup_insert_eq.
      * destruct (decide (row_key row = k)) as [<-|Hk].
        -- rewrite lookup_insert_eq. simpl.
           rewrite lookup_insert_ne by tauto.
           rewrite <- (Htouch (row_key row) d).
           by destruct (data !! row_key row).
        -- rewrite lookup_insert_ne by done. apply Htouch.
    + unfold write_dates. simpl.
      by rewrite union_empty_r_L, (comm_L (∪)).
    + rewrite dom_insert_L, Hdom.
      by rewrite (assoc_L (∪)), union_idemp_L.
  - intros [= <-]. cbn [master_order all_dates master_data].
    split; [done|]. split; [|split].
    + intros k d. unfold cell_at at 1. cbn [master_data last_write].
      apply Htouch.
    + unfold write_dates. simpl. by rewrite union_empty_r_L.
    + done.
Qed.

Lemma merge_rows_effect st frs st' :
  for_each (fun st fr => merge_row fr.1 st fr.2) st frs = Ok st' ->
  master_order st'
    = master_order st
      ++ filter (fun k => k ∉ master_order st)
           (first_occurrences ((fun fr => row_key fr.2) <$> frs)) /\
  (forall k d,
     cell_at st' k d
     = match last_write k d (frs ≫= (fun fr => row_write fr.1 fr.2)) with
       | Some v => Some v
       | None => cell_at st k d
       end) /\
  all_dates st'
    = all_dates st ∪ write_dates (frs ≫= (fun fr => row_write fr.1 fr.2)) /\
  dom (master_data st')
    = list_to_set ((fun fr => row_key fr.2) <$> frs) ∪ dom (master_data st).
Proof.
  revert st. induction frs as [|[fdate row] frs IH]; intros st Hrun.
  - simpl in Hrun. simplify_eq. split; [by rewrite app_nil_r|].
    split; [done|]. unfold write_dates. simpl.
    split; [by rewrite union_empty_r_L|by rewrite union_empty_l_L].
  - simpl in Hrun.
    destruct (merge_row fdate st row) as [st1|e] eqn:Hrow; [|done].
    simpl in Hrun.
    destruct (merge_row_effect _ _ _ _ Hrow) as (Ho1 & Hc1 & Hd1 & Hm1).
    destruct (IH st1 Hrun) as (Ho' & Hc' & Hd' & Hm').
    split; [|split; [|split]].
    + rewrite Ho', Ho1, fmap_cons. apply order_step.
    + intros k d. rewrite bind_cons, last_write_app, Hc', Hc1. simpl.
      by destruct (last_write k d _).
    + rewrite Hd', Hd1, bind_cons, write_dates_app. simpl.
      by rewrite (assoc_L (∪)).
    + rewrite Hm', Hm1, fmap_cons. simpl.
      by rewrite (assoc_L (∪)), (comm_L (∪) _ {[row_key row]}).
Qed.

Lemma merge_loop_effect st all_statements st' :
  merge_loop st all_statements = Ok st' ->
  master_order st'
    = master_order st
      ++ filter (fun k => k ∉ master_order st)
           (first_occurrences (all_keys all_statements)) /\
  (forall k d,
     cell_at st' k d
     = match last_write k d (writes all_statements) with
       | Some v => Some v
       | None => cell_at st k d
       end) /\
  all_dates st' = all_dates st ∪ write_dates (writes all_statements) /\
  dom (master_data st')
    = list_to_set (all_keys all_statements) ∪ dom (master_data st).
Proof.
  rewrite merge_loop_flat, all_keys_flat, writes_flat.
  apply merge_rows_effect.
Qed.

(** ** When the merge raises *)

Lemma merge_row_runs fdate st row :
  (exists st', merge_row fdate st row = Ok st') <->
  date_values row = [] \/ is_Some (strptime_ymd fdate).
Proof.
  split.
  - intros [st' Hrun]. unfold merge_row, select_closest_date in Hrun.
    destruct (date_values row) as [|kv dv]; [by left|]. right.
    by destruct (strptime_ymd fdate).
  - intros [Hnil|Hdate].
    + unfold merge_row, select_closest_date. rewrite Hnil. simpl. eauto.
    + destruct (merge_row_spec fdate st row Hdate) as (st' & Hrun & _).
      eauto.
Qed.

Lemma merge_row_raises fdate st row e :
  merge_row fdate st row = Raise e -> e = ValueError.
Proof.
  intros Hrun. destruct (strptime_ymd fdate) as [fd|] eqn:Hfd.
  - destruct (merge_row_spec fdate st row) as (st' & Hok & _); [by eexists|].
    congruence.
  - unfold merge_row, select_closest_date in Hrun. rewrite Hfd in Hrun.
    destruct (date_values row); simpl in Hrun; [done|congruence].
Qed.

Lemma merge_rows_runs st frs :
  (exists st', for_each (fun st fr => merge_row fr.1 st fr.2) st frs = Ok st')
  <-> Forall (fun fr : string * Row =>
                date_values fr.2 = [] \/ is_Some (strptime_ymd fr.1)) frs.
Proof.
  revert st. induction frs as [|[fdate row] frs IH]; intros st.
  - split; [constructor|]. intros _. by exists st.
  - simpl. split.
    + intros [st' Hrun].
      destruct (merge_row fdate st row) as [st1|e] eqn:Hrow; [|done].
      constructor.
      * apply (merge_row_runs fdate st row). eauto.
      * apply (IH st1). eauto.
    + intros [Hrow Hrest]%Forall_cons.
      apply (merge_row_runs fdate st row) in Hrow as [st1 ->]. simpl.
      by apply (IH st1).
Qed.

Lemma merge_rows_raises st frs e :
  for_each (fun st fr => merge_row fr.1 st fr.2) st frs = Raise e ->
  e = ValueError.
Proof.
  revert st. induction frs as [|[fdate row] frs IH]; intros st; [done|].
  simpl. destruct (merge_row fdate st row) as [st1|e1] eqn:Hrow; simpl.
  - apply (IH st1).
  - intros [= <-]. by eapply merge_row_raises.
Qed.

(** X14. The merge runs to its end exactly when every row that has values
    belongs to a statement whose filing date [strptime] reads; otherwise
    it raises [ValueError], and it raises nothing else: the label selected
    for a row is one of its labels, so the lookup of its value does not
    fail. One unreadable filing date therefore aborts the whole merge. *)
Theorem merge_loop_runs_iff (st : Master) (all_statements : list Statement) :
  ((exists st', merge_loop st all_statements = Ok st') <->
   Forall (fun fr : string * Row =>
             date_values fr.2 = [] \/ is_Some (strptime_ymd fr.1))
     (dated_rows all_statements)) /\
  (forall e, merge_loop st all_statements = Raise e -> e = ValueError).
Proof.
  rewrite merge_loop_flat. split.
  - apply merge_rows_runs.
  - intros e. apply merge_rows_raises.
Qed.

(** ** The date axis and the entries of the master sheet *)

Lemma elem_of_write_dates (d : string) (ws : list (Key * string * string)) :
  d ∈ write_dates ws <-> exists k v, (k, d, v) ∈ ws.
Proof.
  unfold write_dates. rewrite elem_of_list_to_set, list_elem_of_fmap. split.
  - intros ([[k d'] v] & -> & Hin). by exists k, v.
  - intros (k & v & Hin). by exists (k, d, v).
Qed.

Lemma last_write_is_Some (k : Key) (d : string)
    (ws : list (Key * string * string)) :
  is_Some (last_write k d ws) <-> exists v, (k, d, v) ∈ ws.
Proof.
  induction ws as [|[[k' d'] v'] ws IH]; simpl.
  - split; [by intros [? ?]|]. intros [v Hin]. by apply elem_of_nil in Hin.
  - destruct (last_write k d ws) as [v0|].
    + split; [|by eauto]. intros _.
      destruct (proj1 IH) as [v Hv]; [by eauto|]. exists v. by right.
    + case_decide as Heq.
      * destruct Heq as [-> ->]. split; [|by eauto]. intros _.
        exists v'. by left.
      * split; [by intros [? ?]|]. intros [v [Hin|Hin]%elem_of_cons].
        -- simplify_eq. tauto.
        -- destruct (proj2 IH) as [? ?]; [by eauto|done].
Qed.

Lemma row_write_readable fdate row k d v :
  (k, d, v) ∈ row_write fdate row -> is_Some (strptime_ymd d).
Proof.
  unfold row_write.
  destruct (select_closest_date (date_values row) fdate)
    as [[[raw canon]|]|e] eqn:Hsel; try (by intros ?%elem_of_nil).
  destruct (dict_get raw (date_values row)) as [val|];
    [|by intros ?%elem_of_nil].
  intros [= -> -> ->]%list_elem_of_singleton.
  destruct (strptime_ymd fdate) as [fd|] eqn:Hfd.
  - destruct (select_closest_date_spec (date_values row) fdate fd Hfd)
      as (sel & Hsel' & Hspec).
    rewrite Hsel in Hsel'. simplify_eq.
    destruct Hspec as (_ & dt & _ & _ & Hdt & _). by eexists.
  - unfold select_closest_date in Hsel. rewrite Hfd in Hsel.
    by destruct (date_values row).
Qed.

Lemma writes_readable all_statements k d v :
  (k, d, v) ∈ writes all_statements -> is_Some (strptime_ymd d).
Proof.
  unfold writes.
  intros (s & (row & Hw & _)%list_elem_of_bind & _)%list_elem_of_bind.
  by eapply row_write_readable.
Qed.

(** X15. After a merge that runs to its end, the date axis holds exactly
    the canonical dates under which some row stored a value, so that every
    date of the axis has a cell; every date of the axis is read by
    [strptime], so the sort of the final assembly never meets a date that
    it has to rank last. *)
Theorem date_axis_has_cells (all_statements : list Statement) (st : Master) :
  merge_loop empty_master all_statements = Ok st ->
  (forall d, d ∈ all_dates st <->
             exists k v, (k, d, v) ∈ writes all_statements) /\
  (forall d, d ∈ all_dates st <-> exists k, is_Some (cell_at st k d)) /\
  (forall d, d ∈ all_dates st ->
     is_Some (strptime_ymd d) /\ parse_dt d < datetime_max).
Proof.
  intros (_ & Hcell & Hdates & _)%merge_loop_effect.
  simpl in Hdates. rewrite union_empty_l_L in Hdates.
  assert (Haxis : forall d, d ∈ all_dates st <->
                    exists k v, (k, d, v) ∈ writes all_statements).
  { intros d. rewrite Hdates. apply elem_of_write_dates. }
  split; [done|]. split.
  - intros d. rewrite Haxis. split.
    + intros (k & v & Hin). exists k. rewrite Hcell.
      destruct (proj2 (last_write_is_Some k d (writes all_statements)))
        as [v' ->]; [by eauto|done].
    + intros [k Hk]. rewrite Hcell in Hk. exists k.
      apply last_write_is_Some.
      destruct (last_write k d (writes all_statements)); [done|].
      by destruct Hk.
  - intros d (k & v & Hin)%Haxis.
    destruct (writes_readable _ _ _ _ Hin) as [dt Hdt].
    split; [by eexists|]. unfold parse_dt. rewrite Hdt.
    apply midnight_below_max. by eapply strptime_valid.
Qed.

(** X16. After a merge that runs to its end, the keys of [master_order]
    are exactly the keys that have an entry in [master_data]: the lookup
    [master_data[key]] of the final assembly finds every key, and no entry
    is left out of the sheet. *)
Theorem master_order_is_domain (all_statements : list Statement)
    (st : Master) :
  merge_loop empty_master all_statements = Ok st ->
  forall k, k ∈ master_order st <-> is_Some (master_data st !! k).
Proof.
  intros (Horder & _ & _ & Hdom)%merge_loop_effect k.
  simpl in Horder. rewrite filter_not_in_nil in Horder.
  rewrite Horder, elem_of_first_occurrences, <- elem_of_dom, Hdom.
  simpl. rewrite dom_empty_L, union_empty_r_L. by rewrite elem_of_list_to_set.
Qed.

(** ** The sheet *)

Lemma final_row_length st dates key :
  length (final_row st dates key) = S (length dates).
Proof.
  destruct key as [[type_ sect_] line_]. unfold final_row.
  destruct (String.eqb type_ "section"); simpl.
  - by rewrite length_replicate.
  - by rewrite length_fmap.
Qed.

Lemma final_row_cells st dates key :
  final_row st dates key
  = if String.eqb key.1.1 "section"
    then key.1.2 :: replicate (length dates) ""
    else ("  " +:+ key.2)
           :: ((fun d => default "" (cell_at st key d)) <$> dates).
Proof.
  destruct key as [[type_ sect_] line_]. unfold final_row. cbn [fst snd].
  destruct (String.eqb type_ "section"); [done|]. f_equal.
  apply list_fmap_ext. intros _ d _. unfold cell_at.
  by destruct (master_data st !! (type_, sect_, line_)).
Qed.

(** X17. The sheet that [merge_statements_into_master] returns is
    rectangular: a title row with the sorted dates, then one row for each
    key of [master_order] in that order, every row having one cell more
    than there are dates. The row of a section key is its name followed by
    blank cells; the row of any other key is its label after two spaces,
    followed for each date by the last value stored under the key and the
    date, and by a blank cell when there is none. *)
Theorem sheet_layout (all_statements : list Statement)
    (sheet : list (list string)) :
  merge_statements_into_master all_statements = Ok sheet ->
  exists st,
    merge_loop empty_master all_statements = Ok st /\
    let dates := sorted_dates (set_iter (all_dates st)) in
    sheet !! 0%nat = Some ("Line / Section" :: dates) /\
    length sheet = S (length (master_order st)) /\
    Forall (fun r => length r = S (length dates)) sheet /\
    forall i key, master_order st !! i = Some key ->
      sheet !! S i
      = Some (if String.eqb key.1.1 "section"
              then key.1.2 :: replicate (length dates) ""
              else ("  " +:+ key.2)
                     :: ((fun d => default ""
                                     (last_write key d
                                        (writes all_statements)))
                           <$> dates)).
Proof.
  unfold merge_statements_into_master.
  destruct (merge_loop empty_master all_statements) as [st|e] eqn:Hrun;
    [|done].
  cbn [mbind exc_bind]. intros [= <-]. exists st. split; [done|].
  set (dates := sorted_dates (set_iter (all_dates st))).
  destruct (merge_loop_effect _ _ _ Hrun) as (_ & Hcell & _).
  unfold final_rows. split; [done|].
  split; [simpl; by rewrite length_fmap|]. split.
  - constructor; [done|]. apply Forall_fmap, Forall_forall.
    intros key _. apply final_row_length.
  - intros i key Hi. simpl. rewrite list_lookup_fmap, Hi. simpl.
    rewrite final_row_cells. do 2 f_equal.
    destruct (String.eqb key.1.1 "section"); [done|]. f_equal.
    apply list_fmap_ext. intros _ d _. rewrite Hcell.
    by destruct (last_write key d (writes all_statements)).
Qed.

(** ** Merging a statement again *)

Lemma master_eq (st1 st2 : Master) :
  master_order st1 = master_order st2 ->
  all_dates st1 = all_dates st2 ->
  dom (master_data st1) = dom (master_data st2) ->
  (forall k d, cell_at st1 k d = cell_at st2 k d) ->
  st1 = st2.
Proof.
  destruct st1 as [o1 m1 a1], st2 as [o2 m2 a2]. simpl.
  intros -> -> Hdom Hcell. f_equal. apply map_eq. intros k.
  assert (Hk : is_Some (m1 !! k) <-> is_Some (m2 !! k))
    by (by rewrite <- !elem_of_dom, Hdom).
  destruct (m1 !! k) as [e1|] eqn:E1, (m2 !! k) as [e2|] eqn:E2.
  - f_equal. apply map_eq. intros d. specialize (Hcell k d).
    unfold cell_at in Hcell. simpl in Hcell. by rewrite E1, E2 in Hcell.
  - destruct (proj1 Hk) as [? ?]; [by eexists|done].
  - destruct (proj2 Hk) as [? ?]; [by eexists|done].
  - done.
Qed.

(** X18. Merging a statement a second time, directly after it has been
    merged, changes nothing: the order of the rows, the cells and the date
    axis are those left by the first merge. *)
Theorem merge_statement_twice (st st1 : Master) (statement : Statement) :
  merge_statement st statement = Ok st1 ->
  merge_statement st1 statement = Ok st1.
Proof.
  unfold merge_statement. rewrite <- !(for_each_fmap
    (fun st fr => merge_row fr.1 st fr.2)
    (fun row => (filing_date statement, row))).
  set (frs := (fun row => (filing_date statement, row)) <$> rows statement).
  intros Hrun.
  destruct (proj2 (merge_rows_runs st1 frs)) as [st2 Hrun2].
  { apply (merge_rows_runs st frs). eauto. }
  rewrite Hrun2. f_equal.
  destruct (merge_rows_effect _ _ _ Hrun) as (Ho1 & Hc1 & Hd1 & Hm1).
  destruct (merge_rows_effect _ _ _ Hrun2) as (Ho2 & Hc2 & Hd2 & Hm2).
  apply master_eq.
  - rewrite Ho2. rewrite filter_known; [by rewrite app_nil_r|].
    intros k Hk. rewrite Ho1. apply elem_of_app.
    destruct (decide (k ∈ master_order st)); [by left|right].
    by apply list_elem_of_filter.
  - rewrite Hd2, Hd1. by rewrite <- (assoc_L (∪)), union_idemp_L.
  - rewrite Hm2, Hm1. by rewrite (assoc_L (∪)), union_idemp_L.
  - intros k d. rewrite Hc2, Hc1.
    by destruct (last_write k d _).
Qed.

Lemma found_dated (target_phrase : string)
    (filings : list (Edgar.Filing * Responses)) :
  Forall (fun fr : Edgar.Filing * Responses =>
            is_Some (strptime_ymd (Edgar.filing_date fr.1))) filings ->
  Forall (fun fr : string * Row =>
            date_values fr.2 = [] \/ is_Some (strptime_ymd fr.1))
    (dated_rows (statement_of <$> found target_phrase filings)).
Proof.
  intros Hdated. apply Forall_forall. intros [fdate row].
  unfold dated_rows. rewrite list_elem_of_bind.
  intros (s & Hrow & Hs).
  apply list_elem_of_fmap in Hrow as (r & [= -> ->] & _).
  apply list_elem_of_fmap in Hs as (fr & -> & Hfr).
  right. cbn [fst filing_date statement_of].
  apply list_elem_of_In, filter_In in Hfr as [Hfr _].
  apply list_elem_of_In in Hfr.
  by apply (proj1 (Forall_forall _ _) Hdated fr).
Qed.

(** X19. For filings whose tables are rectangular, so that every cell
    of a frame is a text, and given what each request returns: [main]
    ends without an exception exactly when every row with values that it
    collects belongs to a filing whose date [strptime] reads, in
    particular when the dates of all the filings are dates [YYYY-MM-DD];
    the only exception it raises is the [ValueError] of an unreadable
    filing date. It returns early exactly when no statement is found, and
    otherwise hands over at least one raw sheet and a master sheet that
    begins with the header row. *)
Theorem main_runs (target_phrase : string)
    (filings : list (Edgar.Filing * Responses)) :
  Forall (fun fr : Edgar.Filing * Responses =>
            rectangular_page fr.2 = true) filings ->
  (forall fr, fr ∈ filings ->
     Forall (Forall (fun c : cell => is_Some c)) (df_rows (table_of fr.2))) /\
  ((exists r, main target_phrase filings = Ok r) <->
   Forall (fun frow : string * Row =>
             date_values frow.2 = [] \/ is_Some (strptime_ymd frow.1))
     (dated_rows (statement_of <$> found target_phrase filings))) /\
  (Forall (fun fr : Edgar.Filing * Responses =>
             is_Some (strptime_ymd (Edgar.filing_date fr.1))) filings ->
   exists r, main target_phrase filings = Ok r) /\
  (forall e, main target_phrase filings = Raise e -> e = ValueError) /\
  (main target_phrase filings = Ok None <->
   found target_phrase filings = []) /\
  (forall raw sheet,
     main target_phrase filings = Ok (Some (raw, sheet)) ->
     raw <> ∅ /\
     exists dates body, sheet = ("Line / Section" :: dates) :: body).
Proof.
  assert (forall fs : list (Edgar.Filing * Responses),
            main target_phrase fs
            = match statement_of <$> found target_phrase fs with
              | [] => Ok None
              | all =>
                  df_master ← merge_statements_into_master all;
                  Ok (Some (raw_sheets
                              (main_loop target_phrase fs (mkCollected ∅ [])),
                            df_master))
              end) as Hmain.
  { intros fs. unfold main. rewrite main_loop_statements.
    cbn [all_statements app]. destruct fs as [|fr fs]; [done|].
    by destruct (statement_of <$> found target_phrase (fr :: fs)). }
  intros Hrect. split.
  { intros fr Hfr. apply table_of_texts.
    by apply (proj1 (Forall_forall _ _) Hrect fr). }
  assert (Hruns :
    (exists r, main target_phrase filings = Ok r) <->
    Forall (fun frow : string * Row =>
              date_values frow.2 = [] \/ is_Some (strptime_ymd frow.1))
      (dated_rows (statement_of <$> found target_phrase filings))).
  { rewrite Hmain.
    destruct (statement_of <$> found target_phrase filings) as [|s all];
      [split; [constructor|by eexists]|].
    unfold merge_statements_into_master. rewrite merge_loop_flat.
    rewrite <- (merge_rows_runs empty_master). split.
    - intros [r Hr]. destruct (for_each _ _ _) as [st'|e']; [|done].
      by eexists.
    - intros [st' ->]. by eexists. }
  split; [exact Hruns|]. split.
  { intros Hdated. apply Hruns. by apply found_dated. }
  clear Hruns. rewrite Hmain.
  destruct (statement_of <$> found target_phrase filings) as [|s all] eqn:Hall.
  { apply fmap_nil_inv in Hall. rewrite Hall.
    split; [done|]. split; [done|]. done. }
  assert (found target_phrase filings <> []) as Hfound.
  { intros E. by rewrite E in Hall. }
  unfold merge_statements_into_master. rewrite merge_loop_flat.
  split; [|split].
  - intros e.
    destruct (for_each _ _ _) as [st'|e'] eqn:Hrun; [done|].
    intros [= <-]. by apply merge_rows_raises in Hrun.
  - split; [|done]. by destruct (for_each _ _ _).
  - intros raw sheet.
    destruct (for_each _ _ _) as [st'|e'] eqn:Hrun; [|done].
    intros [= <- <-]. split; [|by eexists _, _].
    intros Hraw. apply (f_equal dom) in Hraw. rewrite dom_empty_L in Hraw.
    pose proof (main_loop_statements target_phrase filings (mkCollected ∅ []))
      as Hs. cbn [all_statements app] in Hs. rewrite Hall in Hs.
    pose proof (main_loop_sheets target_phrase filings (mkCollected ∅ [])
                  (filing_key s)) as Hk.
    destruct (found target_phrase filings) as [|fr frs] eqn:Hf; [done|].
    injection Hall as <- _.
    destruct (filter_elem_last
                (fun fr' => String.eqb (sheet_name_of fr'.1)
                              (filing_key (statement_of fr)))
                (fr :: frs) fr) as [fr' Hlast];
      [by left|by apply String.eqb_eq|].
    rewrite Hlast in Hk.
    assert (filing_key (statement_of fr)
            ∈ dom (raw_sheets
                     (main_loop target_phrase filings (mkCollected ∅ []))))
      as Hin by (apply elem_of_dom; by eexists).
    rewrite Hraw in Hin. by apply elem_of_empty in Hin.
Qed.

End MergerEffects.

(** ** The further properties on the sample inputs *)

Lemma find_filing_summary_url_spec_witness :
  Edgar.find_filing_summary_url sample_index
  = Some ("https://www.sec.gov/"
          +:+ "Archives/edgar/data/712515/000071251524000012"
          +:+ "/" +:+ summary_name).
Proof.
  apply (proj2 (find_filing_summary_url_spec sample_index _)).
  eexists _, _, _. split; [reflexivity|]. split; [reflexivity|].
  split; [discriminate|]. split; [reflexivity|].
  split; [|reflexivity]. right. right. left.
Defined.

Lemma statement_url_same_directory_witness :
  Edgar.find_statement_url_for_balance_sheets
    ("https://www.sec.gov/"
     +:+ "Archives/edgar/data/712515/000071251524000012"
     +:+ "/" +:+ summary_name)
    (Some sample_reports) "Balance Sheets"
  = Some sample_statement_url.
Proof.
  destruct (statement_url_same_directory sample_index
              ("https://www.sec.gov/"
               +:+ "Archives/edgar/data/712515/000071251524000012"
               +:+ "/" +:+ summary_name)
              sample_reports "Balance Sheets" eq_refl)
    as (d & base_dir & Hd & Hname & Hsome & _).
  unfold sample_index in Hd. injection Hd as <-.
  simpl in Hname. injection Hname as <-.
  apply Hsome.
  exists [ Edgar.mkReport (Some "Cover Page") (Some "R1.htm");
           Edgar.mkReport (Some "CONSOLIDATED BALANCE SHEETS") None ],
    (Edgar.mkReport (Some "Condensed Consolidated Balance Sheets")
       (Some "R2.htm")),
    [], "Condensed Consolidated Balance Sheets", "R2.htm".
  split; [reflexivity|]. split; [reflexivity|].
  split; [by apply contains_spec|]. split; [reflexivity|].
  split; [reflexivity|].
  constructor; [|constructor; [|constructor]].
  - intros text' [= <-] Hsub%contains_spec. vm_compute in Hsub.
    discriminate Hsub.
  - intros text' _ _. reflexivity.
Defined.

Lemma statement_table_first_witness :
  Edgar.parse_single_statement_table (Some sample_tables)
  = [[Some "Cash"; Some "100"; Some "120"]].
Proof.
  apply (proj1 (proj2 statement_table_first)
           [ ("Namespace Prefix: us-gaap_ Data Type: xbrli", [["Definition"]]);
             ("", []) ]
           "Cash 100 120" [["Cash"; "100"; "120"]] []).
  - constructor; [by left|]. constructor; [by right|]. constructor.
  - reflexivity.
  - discriminate.
Defined.

Lemma merge_loop_runs_iff_witness :
  exists st,
    merge_loop (parser := iso_parse) empty_master sample_statements = Ok st.
Proof.
  apply (proj2 (proj1 (merge_loop_runs_iff (parser := iso_parse) empty_master
                         sample_statements))).
  vm_compute. repeat (constructor; [right; by eexists|]). constructor.
Defined.

Lemma date_axis_has_cells_witness :
  exists st,
    merge_loop (parser := iso_parse) empty_master sample_statements = Ok st /\
    forall d, d ∈ all_dates st -> is_Some (strptime_ymd d).
Proof.
  destruct (merge_loop (parser := iso_parse) empty_master sample_statements)
    as [st|e] eqn:Hrun; [|vm_compute in Hrun; discriminate Hrun].
  exists st. split; [reflexivity|]. intros d Hd.
  exact (proj1 (proj2 (proj2 (date_axis_has_cells (parser := iso_parse)
                                sample_statements st Hrun)) d Hd)).
Defined.

Lemma master_order_is_domain_witness :
  exists st,
    merge_loop (parser := iso_parse) empty_master sample_statements = Ok st /\
    forall k, k ∈ master_order st <-> is_Some (master_data st !! k).
Proof.
  destruct (merge_loop (parser := iso_parse) empty_master sample_statements)
    as [st|e] eqn:Hrun; [|vm_compute in Hrun; discriminate Hrun].
  exists st. split; [reflexivity|].
  exact (master_order_is_domain (parser := iso_parse) sample_statements st
           Hrun).
Defined.

Lemma sheet_layout_witness :
  exists st,
    merge_loop (parser := iso_parse) empty_master sample_statements = Ok st /\
    length (final_rows st (sorted_dates (elements (all_dates st))))
    = S (length (master_order st)).
Proof.
  destruct (merge_statements_into_master (parser := iso_parse)
              (iteration := elements) sample_statements)
    as [sheet|e] eqn:Hsheet; [|vm_compute in Hsheet; discriminate Hsheet].
  destruct (sheet_layout (parser := iso_parse) (iteration := elements)
              sample_statements sheet Hsheet)
    as (st & Hrun & _ & Hlen & _).
  exists st. split; [exact Hrun|].
  unfold merge_statements_into_master in Hsheet. rewrite Hrun in Hsheet.
  injection Hsheet as <-. exact Hlen.
Defined.

Lemma merge_statement_twice_witness :
  exists st,
    merge_statement (parser := iso_parse) empty_master
      (mkStatement "10-Q_2024-04-01" "2024-04-01"
         [mkRow "line" "CURRENT ASSETS" "Cash" sample_values]) = Ok st /\
    merge_statement (parser := iso_parse) st
      (mkStatement "10-Q_2024-04-01" "2024-04-01"
         [mkRow "line" "CURRENT ASSETS" "Cash" sample_values]) = Ok st.
Proof.
  destruct (merge_statement (parser := iso_parse) empty_master
              (mkStatement "10-Q_2024-04-01" "2024-04-01"
                 [mkRow "line" "CURRENT ASSETS" "Cash" sample_values]))
    as [st|e] eqn:Hrun; [|vm_compute in Hrun; discriminate Hrun].
  exists st. split; [reflexivity|].
  exact (merge_statement_twice (parser := iso_parse) _ _ _ Hrun).
Defined.

Lemma raw_sheets_by_name_witness :
  raw_sheets (main_loop "Balance Sheets" sample_filings (mkCollected ∅ []))
  !! "10-Q_2024-02-06"
  = Some [ [Some ""; Some "2023-12-31"; Some "2022-12-31"];
           [Some "CURRENT ASSETS:"; Some ""; Some ""];
           [Some "Cash"; Some "105"; Some "120"] ].
Proof.
  destruct (raw_sheets_by_name "Balance Sheets" sample_filings)
    as (_ & Hlast & _).
  apply (Hlast
           [ (Edgar.mkFiling "10-Q" "0000712515-24-000012" "2024-02-06",
              mkResponses sample_index (Some sample_reports)
                (Some sample_page)) ]
           (Edgar.mkFiling "10-Q" "0000712515-24-000013" "2024-02-06",
            mkResponses sample_index (Some sample_reports)
              (Some amended_page))
           [ (Edgar.mkFiling "10-K" "0000712515-23-000009" "2023-02-21",
              mkResponses sample_index (Some sample_reports) None) ]).
  - by vm_compute.
  - constructor; [|constructor]. vm_compute. discriminate.
Defined.

Lemma main_runs_witness :
  exists raw sheet,
    main (parser := iso_parse) (iteration := elements) "Balance Sheets"
      sample_filings = Ok (Some (raw, sheet)).
Proof.
  assert (Forall (fun fr : Edgar.Filing * Responses =>
                    rectangular_page fr.2 = true) sample_filings) as Hrect
    by (repeat (constructor; [reflexivity|]); constructor).
  assert (Forall (fun fr : Edgar.Filing * Responses =>
                    is_Some (strptime_ymd (Edgar.filing_date fr.1)))
            sample_filings) as Hdates
    by (vm_compute; repeat (constructor; [by eexists|]); constructor).
  destruct (main_runs (parser := iso_parse) (iteration := elements)
              "Balance Sheets" sample_filings Hrect)
    as (_ & _ & Hok & _ & Hnone & _).
  destruct (Hok Hdates) as [[[raw sheet]|] Hr].
  - by exists raw, sheet.
  - apply Hnone in Hr. vm_compute in Hr. discriminate Hr.
Defined.
